(** * wallex-market-research: the agent's validate-and-retry engine

    A shallow embedding of [app/agent/market_agent.py] and
    [app/agent/tools.py], and of the clients of the two stores,
    [app/db/mongodb.py] and [app/db/postgres.py].

    Conventions of the embedding.
    - Python [str] is [string]; the characters are the code points 0..255,
      and [upper] acts on the ASCII letters only.
    - A Python [float] is the exact decimal it denotes ([dec]); binary64
      rounding is not part of the model.
    - [json.loads] and [json.dumps] (standard library) and the field
      validation of pydantic are modelled by the functions of the modules
      [Json] and [MarketResearchOutput] below.
    - Raising is a value: a computation yields [Returned v] or [Raised e].
    - Calls of the logger change no result and are left out.
    - Every exception of the model is an [Exception]; what only a handler of
      [BaseException] would catch (an interrupt, an exit) is not part of it.
      Handlers of one [try] that differ in the logged message only are one
      handler. *)

From Stdlib Require Import List String Ascii ZArith QArith Qround Lqa Lia Bool.
Import ListNotations.

Local Open Scope string_scope.
Local Open Scope Z_scope.

(** ** Exceptions and results *)

(** One entry of a pydantic [ValidationError]: the field and the error type. *)
Record ErrorDetails := { loc : string; type_ : string }.

Inductive exn :=
| JSONDecodeError                       (* json.JSONDecodeError, a ValueError *)
| ValueError (msg : string)
| TypeError (msg : string)
| ValidationError (title : string) (errors : list ErrorDetails) (* pydantic *)
| KeyError (key : string)
| Exception (msg : string)
| OtherError (cls msg : string).        (* any other subclass of Exception *)

Inductive result (A : Type) :=
| Returned (a : A)
| Raised (e : exn).
Arguments Returned {A} a.
Arguments Raised {A} e.

Definition bind {A B} (r : result A) (k : A -> result B) : result B :=
  match r with
  | Returned a => k a
  | Raised e => Raised e
  end.

Notation "x <- c1 ;; c2" := (bind c1 (fun x => c2))
  (at level 61, c1 at next level, right associativity).

(** [isinstance(e, ValidationError)], the test of [except ValidationError]. *)
Definition is_ValidationError (e : exn) : bool :=
  match e with
  | ValidationError _ _ => true
  | _ => false
  end.

(** ** Strings *)

(** Texts that contain double quotes are written with apostrophes:
    [quoted s] is [s] with every apostrophe turned into a double quote. *)
Fixpoint quoted (s : string) : string :=
  match s with
  | EmptyString => EmptyString
  | String c r => String (if Ascii.eqb c "'" then "034"%char else c) (quoted r)
  end.

Definition upper_char (c : ascii) : ascii :=
  let n := nat_of_ascii c in
  if ((97 <=? n) && (n <=? 122))%nat then ascii_of_nat (n - 32) else c.

(** [str.upper] *)
Fixpoint upper (s : string) : string :=
  match s with
  | EmptyString => EmptyString
  | String c r => String (upper_char c) (upper r)
  end.

(** [str.find] and [str.rfind] of one character: the index, or -1. *)
Fixpoint find (c : ascii) (s : string) : Z :=
  match s with
  | EmptyString => -1
  | String d r =>
      if Ascii.eqb d c then 0
      else let i := find c r in if i =? -1 then -1 else i + 1
  end.

Fixpoint rfind (c : ascii) (s : string) : Z :=
  match s with
  | EmptyString => -1
  | String d r =>
      let i := rfind c r in
      if i =? -1 then (if Ascii.eqb d c then 0 else -1) else i + 1
  end.

(** The slice [s[a:b]] for indices that are not negative. *)
Definition slice (s : string) (a b : Z) : string :=
  substring (Z.to_nat a) (Z.to_nat b - Z.to_nat a) s.

(** Decimal digits of a number, as [str(n)] prints them. *)
Definition digit_char (d : Z) : ascii := ascii_of_nat (48 + Z.to_nat d).

Fixpoint digits_aux (fuel : nat) (n : Z) (acc : string) : string :=
  match fuel with
  | O => acc
  | S fuel' =>
      let acc' := String (digit_char (n mod 10)) acc in
      if n / 10 =? 0 then acc' else digits_aux fuel' (n / 10) acc'
  end.

Definition digits (n : Z) : string :=
  digits_aux (S (Z.to_nat (Z.log2 n))) n "".

Definition str_int (n : Z) : string :=
  if n <? 0 then String "-" (digits (- n)) else digits n.

(** ** Decimal numbers standing for floats *)

(** [dmant / 10 ^ dscale]; in normal form the mantissa has no trailing zero
    unless the scale is 0. *)
Record dec := { dmant : Z; dscale : nat }.

Fixpoint norm (m : Z) (k : nat) : dec :=
  match k with
  | O => {| dmant := m; dscale := O |}
  | S k' => if m mod 10 =? 0 then norm (m / 10) k'
            else {| dmant := m; dscale := k |}
  end.

(** The float denoted by [m * 10 ^ e]. *)
Definition mk_dec (m e : Z) : dec :=
  if 0 <=? e then {| dmant := m * 10 ^ e; dscale := O |}
  else norm m (Z.to_nat (- e)).

Definition dec_of_int (z : Z) : dec := {| dmant := z; dscale := O |}.

Definition dec_leb (x y : dec) : bool :=
  dmant x * 10 ^ Z.of_nat (dscale y) <=? dmant y * 10 ^ Z.of_nat (dscale x).

Definition dec_0 : dec := dec_of_int 0.
Definition dec_1 : dec := dec_of_int 1.

Module Json.

(** Values that [json.loads] produces.  An object keeps its pairs in the order
    of the text; a lookup takes the last pair of a key, as building the
    Python [dict] does. *)
Inductive nonfinite := NaN | PosInfinity | NegInfinity.

#[warnings="-register-all"]
Inductive json :=
| JNull
| JBool (b : bool)
| JInt (z : Z)
| JFloat (d : dec)
| JNonFinite (f : nonfinite)
| JStr (s : string)
| JArr (l : list json)
| JObj (m : list (string * json)).

Fixpoint dict_get (k : string) (m : list (string * json)) : option json :=
  match m with
  | [] => None
  | (k', v) :: m' =>
      match dict_get k m' with
      | Some w => Some w
      | None => if String.eqb k' k then Some v else None
      end
  end.

(** *** Decoding *)

Definition is_ws (c : ascii) : bool :=
  Ascii.eqb c " " || Ascii.eqb c "009" || Ascii.eqb c "010" || Ascii.eqb c "013".

Fixpoint skip_ws (s : string) : string :=
  match s with
  | String c r => if is_ws c then skip_ws r else s
  | EmptyString => s
  end.

(** The text after the character [c], when [s] starts with it. *)
Definition head_is (c : ascii) (s : string) : option string :=
  match s with
  | String d r => if Ascii.eqb d c then Some r else None
  | EmptyString => None
  end.

Definition digit_val (c : ascii) : option Z :=
  let n := nat_of_ascii c in
  if ((48 <=? n) && (n <=? 57))%nat then Some (Z.of_nat (n - 48)) else None.

Definition hex_val (c : ascii) : option Z :=
  let n := nat_of_ascii c in
  if ((48 <=? n) && (n <=? 57))%nat then Some (Z.of_nat (n - 48))
  else if ((97 <=? n) && (n <=? 102))%nat then Some (Z.of_nat (n - 87))
  else if ((65 <=? n) && (n <=? 70))%nat then Some (Z.of_nat (n - 55))
  else None.

(** The longest run of digits at the head of [s]: its value on top of [acc],
    the number of digits, and what follows. *)
Fixpoint read_digits (acc : Z) (n : nat) (s : string) : Z * nat * string :=
  match s with
  | String c r =>
      match digit_val c with
      | Some d => read_digits (acc * 10 + d) (S n) r
      | None => (acc, n, s)
      end
  | EmptyString => (acc, n, s)
  end.

(** The integer part, [0|[1-9]\d*]. *)
Definition scan_int (s : string) : option (Z * string) :=
  match s with
  | String c r =>
      match digit_val c with
      | Some 0 => Some (0, r)
      | Some d => let '(v, _, r') := read_digits d 1 r in Some (v, r')
      | None => None
      end
  | EmptyString => None
  end.

(** The fraction, [(\.\d+)?]: value and number of digits. *)
Definition scan_frac (s : string) : option (Z * nat * string) :=
  match head_is "." s with
  | Some r =>
      match read_digits 0 0 r with
      | (_, O, _) => None
      | res => Some res
      end
  | None => None
  end.

(** The exponent, [([eE][-+]?\d+)?]. *)
Definition scan_exp (s : string) : option (Z * string) :=
  match s with
  | String c r =>
      if Ascii.eqb c "e" || Ascii.eqb c "E" then
        let '(neg, r1) :=
          match head_is "-" r, head_is "+" r with
          | Some r', _ => (true, r')
          | None, Some r' => (false, r')
          | None, None => (false, r)
          end in
        match read_digits 0 0 r1 with
        | (_, O, _) => None
        | (v, _, r2) => Some (if neg then - v else v, r2)
        end
      else None
  | EmptyString => None
  end.

(** A number: an [int] when it has neither fraction nor exponent, else a
    [float]. *)
Definition scan_number (s : string) : option (json * string) :=
  let '(neg, s1) :=
    match head_is "-" s with
    | Some r => (true, r)
    | None => (false, s)
    end in
  match scan_int s1 with
  | None => None
  | Some (i, s2) =>
      let sg (z : Z) := if neg then - z else z in
      match scan_frac s2 with
      | Some (f, lf, s3) =>
          let m := sg (i * 10 ^ Z.of_nat lf + f) in
          match scan_exp s3 with
          | Some (e, s4) => Some (JFloat (mk_dec m (e - Z.of_nat lf)), s4)
          | None => Some (JFloat (mk_dec m (- Z.of_nat lf)), s3)
          end
      | None =>
          match scan_exp s2 with
          | Some (e, s4) => Some (JFloat (mk_dec (sg i) e), s4)
          | None => Some (JInt (sg i), s2)
          end
      end
  end.

(** The character of a one-letter escape. *)
Definition unescape (c : ascii) : option ascii :=
  match c with
  | "034" => Some "034"
  | "\" => Some "\"
  | "/" => Some "/"
  | "b" => Some "008"
  | "f" => Some "012"
  | "n" => Some "010"
  | "r" => Some "013"
  | "t" => Some "009"
  | _ => None
  end%char.

Definition hex4 (a b c d : ascii) : option Z :=
  match hex_val a, hex_val b, hex_val c, hex_val d with
  | Some x, Some y, Some z, Some w => Some (((x * 16 + y) * 16 + z) * 16 + w)
  | _, _, _, _ => None
  end.

(** The body of a string, after its opening quote (strict mode: a raw control
    character is an error).  An escape [\uXXXX] above 00ff has no character in
    this model and is refused. *)
Fixpoint scanstring (s : string) : option (string * string) :=
  match s with
  | EmptyString => None
  | String c r =>
      if Ascii.eqb c "034" then Some ("", r)
      else if Ascii.eqb c "\" then
        match r with
        | String e r' =>
            if Ascii.eqb e "u" then
              match r' with
              | String h1 (String h2 (String h3 (String h4 r''))) =>
                  match hex4 h1 h2 h3 h4 with
                  | Some code =>
                      if code <? 256 then
                        match scanstring r'' with
                        | Some (v, r3) =>
                            Some (String (ascii_of_nat (Z.to_nat code)) v, r3)
                        | None => None
                        end
                      else None
                  | None => None
                  end
              | _ => None
              end
            else
              match unescape e with
              | Some ch =>
                  match scanstring r' with
                  | Some (v, r'') => Some (String ch v, r'')
                  | None => None
                  end
              | None => None
              end
        | EmptyString => None
        end
      else if (nat_of_ascii c <? 32)%nat then None
      else
        match scanstring r with
        | Some (v, r') => Some (String c v, r')
        | None => None
        end
  end.

Fixpoint strip_prefix (p s : string) : option string :=
  match p with
  | EmptyString => Some s
  | String c p' =>
      match s with
      | String d s' => if Ascii.eqb c d then strip_prefix p' s' else None
      | EmptyString => None
      end
  end.

Definition scan_literal (s : string) : option (json * string) :=
  match strip_prefix "null" s with
  | Some r => Some (JNull, r)
  | None =>
  match strip_prefix "true" s with
  | Some r => Some (JBool true, r)
  | None =>
  match strip_prefix "false" s with
  | Some r => Some (JBool false, r)
  | None =>
  match scan_number s with
  | Some res => Some res
  | None =>
  match strip_prefix "NaN" s with
  | Some r => Some (JNonFinite NaN, r)
  | None =>
  match strip_prefix "Infinity" s with
  | Some r => Some (JNonFinite PosInfinity, r)
  | None =>
  match strip_prefix "-Infinity" s with
  | Some r => Some (JNonFinite NegInfinity, r)
  | None => None
  end end end end end end end.

(** [scan_once]: the value that starts at the head of [s], and what follows.
    [JSONObject] and [JSONArray] are the loops over the members of an object
    (entered after the opening quote of a key) and the elements of an array. *)
Fixpoint scan_once (fuel : nat) (s : string) : option (json * string) :=
  match fuel with
  | O => None
  | S fuel' =>
      match s with
      | String c r =>
          if Ascii.eqb c "034" then
            match scanstring r with
            | Some (v, r') => Some (JStr v, r')
            | None => None
            end
          else if Ascii.eqb c "{" then
            let r1 := skip_ws r in
            match head_is "}" r1, head_is "034" r1 with
            | Some r', _ => Some (JObj [], r')
            | None, Some r' =>
                match JSONObject fuel' r' with
                | Some (m, r'') => Some (JObj m, r'')
                | None => None
                end
            | None, None => None
            end
          else if Ascii.eqb c "[" then
            let r1 := skip_ws r in
            match head_is "]" r1 with
            | Some r' => Some (JArr [], r')
            | None =>
                match JSONArray fuel' r1 with
                | Some (l, r'') => Some (JArr l, r'')
                | None => None
                end
            end
          else scan_literal s
      | EmptyString => None
      end
  end

with JSONObject (fuel : nat) (s : string)
  : option (list (string * json) * string) :=
  match fuel with
  | O => None
  | S fuel' =>
      match scanstring s with
      | None => None
      | Some (key, r1) =>
          match head_is ":" (skip_ws r1) with
          | None => None
          | Some r2 =>
              match scan_once fuel' (skip_ws r2) with
              | None => None
              | Some (v, r3) =>
                  let r4 := skip_ws r3 in
                  match head_is "}" r4, head_is "," r4 with
                  | Some r5, _ => Some ([(key, v)], r5)
                  | None, Some r5 =>
                      match head_is "034" (skip_ws r5) with
                      | Some r6 =>
                          match JSONObject fuel' r6 with
                          | Some (m, r7) => Some ((key, v) :: m, r7)
                          | None => None
                          end
                      | None => None
                      end
                  | None, None => None
                  end
              end
          end
      end
  end

with JSONArray (fuel : nat) (s : string) : option (list json * string) :=
  match fuel with
  | O => None
  | S fuel' =>
      match scan_once fuel' s with
      | None => None
      | Some (v, r1) =>
          let r2 := skip_ws r1 in
          match head_is "]" r2, head_is "," r2 with
          | Some r3, _ => Some ([v], r3)
          | None, Some r3 =>
              match JSONArray fuel' (skip_ws r3) with
              | Some (l, r4) => Some (v :: l, r4)
              | None => None
              end
          | None, None => None
          end
      end
  end.

(** The decoder: one value between optional white space.  Every call of the
    scanner consumes a character within two steps, so twice the length bounds
    the calls (lemma [decode_fuel]: more fuel changes no result). *)
Definition decode (s : string) : option json :=
  match scan_once (2 * String.length s + 2) (skip_ws s) with
  | Some (v, r) =>
      match skip_ws r with
      | EmptyString => Some v
      | _ => None
      end
  | None => None
  end.

(** [json.loads], on the texts that the interpreter decodes to the end: the
    [RecursionError] that it raises on a text of about a thousand nested
    brackets and the plain [ValueError] on an integer of more than 4300
    digits are not part of this function (the routine that calls it is also
    given over an arbitrary decoder, [output_dict_of_with]). *)
Definition loads (s : string) : result json :=
  match decode s with
  | Some v => Returned v
  | None => Raised JSONDecodeError
  end.

(** *** Encoding *)

Definition hex_digit (d : Z) : ascii :=
  if d <? 10 then ascii_of_nat (48 + Z.to_nat d)
  else ascii_of_nat (87 + Z.to_nat d).

(** The text of one character inside a string, as [ensure_ascii] writes it. *)
Definition escape_char (c : ascii) : string :=
  match c with
  | "034" => String "\" (String "034" "")
  | "\" => String "\" (String "\" "")
  | "008" => String "\" (String "b" "")
  | "012" => String "\" (String "f" "")
  | "010" => String "\" (String "n" "")
  | "013" => String "\" (String "r" "")
  | "009" => String "\" (String "t" "")
  | _ =>
      let n := nat_of_ascii c in
      if ((32 <=? n) && (n <=? 126))%nat then String c ""
      else
        String "\" (String "u" (String "0" (String "0"
          (String (hex_digit (Z.of_nat n / 16))
            (String (hex_digit (Z.of_nat n mod 16)) "")))))
  end%char.

Fixpoint escape (s : string) : string :=
  match s with
  | EmptyString => ""
  | String c r => escape_char c ++ escape r
  end.

Definition encode_str (s : string) : string :=
  String "034" (escape s ++ String "034" "").

(** [k] digits of [n], zeros in front. *)
Fixpoint fixed_digits (k : nat) (n : Z) (acc : string) : string :=
  match k with
  | O => acc
  | S k' => fixed_digits k' (n / 10) (String (digit_char (n mod 10)) acc)
  end.

(** The text of a float, in positional notation with at least one digit
    after the point (the exponent form that [repr] chooses for very large
    and very small floats is not modelled). *)
Definition float_repr (d : dec) : string :=
  let m := Z.abs (dmant d) in
  let p := 10 ^ Z.of_nat (dscale d) in
  (if dmant d <? 0 then "-" else "") ++
  digits (m / p) ++
  String "."
    (match dscale d with
     | O => "0"
     | k => fixed_digits k (m mod p) ""
     end).

(** [json.dumps] with its default separators. *)
Fixpoint dumps (v : json) : string :=
  match v with
  | JNull => "null"
  | JBool true => "true"
  | JBool false => "false"
  | JInt z => str_int z
  | JFloat d => float_repr d
  | JNonFinite NaN => "NaN"
  | JNonFinite PosInfinity => "Infinity"
  | JNonFinite NegInfinity => "-Infinity"
  | JStr s => encode_str s
  | JArr l => "[" ++ concat ", " (map dumps l) ++ "]"
  | JObj m =>
      "{" ++
      concat ", " (map (fun kv => encode_str (fst kv) ++ ": " ++ dumps (snd kv)) m)
      ++ "}"
  end.

(** The name of the Python type of a decoded value. *)
Definition type_name (v : json) : string :=
  match v with
  | JNull => "NoneType"
  | JBool _ => "bool"
  | JInt _ => "int"
  | JFloat _ | JNonFinite _ => "float"
  | JStr _ => "str"
  | JArr _ => "list"
  | JObj _ => "dict"
  end.

End Json.

Import Json.

(** ** The output schema, [class MarketResearchOutput(BaseModel)] *)

Module MarketResearchOutput.

Record t := {
  asset : string;
  risk_level : string;
  sentiment_score : dec;
  tools_used : list string;
  analysis : option string
}.

Definition err (l ty : string) : ErrorDetails := {| loc := l; type_ := ty |}.

(** A required [str] field. *)
Definition str_field (name : string) (v : option json)
  : string + list ErrorDetails :=
  match v with
  | None => inr [err name "missing"]
  | Some (JStr s) => inl s
  | Some _ => inr [err name "string_type"]
  end.

(** The bounds [ge=0.0, le=1.0]. *)
Definition bounded (name : string) (d : dec) : dec + list ErrorDetails :=
  if negb (dec_leb dec_0 d) then inr [err name "greater_than_equal"]
  else if negb (dec_leb d dec_1) then inr [err name "less_than_equal"]
  else inl d.

(** A required [float] field with its bounds.  An [int] is converted; the
    conversions that pydantic also tries on strings and booleans are not part
    of the model: such a value is a type error here.  Of the values that are
    not finite, [Infinity] is above the upper bound and [-Infinity] below the
    lower one; [NaN], for which no comparison holds, is taken to fail the
    lower bound. *)
Definition float_field (name : string) (v : option json)
  : dec + list ErrorDetails :=
  match v with
  | None => inr [err name "missing"]
  | Some (JInt z) => bounded name (dec_of_int z)
  | Some (JFloat d) => bounded name d
  | Some (JNonFinite PosInfinity) => inr [err name "less_than_equal"]
  | Some (JNonFinite _) => inr [err name "greater_than_equal"]
  | Some _ => inr [err name "float_type"]
  end.

(** The items of a [List[str]], from index [i] on. *)
Fixpoint str_items (name : string) (i : Z) (l : list json)
  : list string + list ErrorDetails :=
  match l with
  | [] => inl []
  | x :: l' =>
      match x, str_items name (i + 1) l' with
      | JStr s, inl r => inl (s :: r)
      | JStr _, inr es => inr es
      | _, inl _ => inr [err (name ++ "." ++ str_int i) "string_type"]
      | _, inr es => inr (err (name ++ "." ++ str_int i) "string_type" :: es)
      end
  end.

Definition list_str_field (name : string) (v : option json)
  : list string + list ErrorDetails :=
  match v with
  | None => inr [err name "missing"]
  | Some (JArr l) => str_items name 0 l
  | Some _ => inr [err name "list_type"]
  end.

(** An [Optional[str]] field whose default is [None]. *)
Definition optional_str_field (name : string) (v : option json)
  : option string + list ErrorDetails :=
  match v with
  | None | Some JNull => inl None
  | Some (JStr s) => inl (Some s)
  | Some _ => inr [err name "string_type"]
  end.

Definition errors_of {A} (r : A + list ErrorDetails) : list ErrorDetails :=
  match r with
  | inl _ => []
  | inr es => es
  end.

(** The constructor called on the unpacked [kwargs]: unpacking needs a
    mapping (the message of the [TypeError] is given without the name of the
    callee that the interpreter puts in front); the fields
    are validated together and every error is reported; keys that are no field
    are ignored. *)
Definition init (kwargs : json) : result t :=
  match kwargs with
  | JObj m =>
      let a := str_field "asset" (dict_get "asset" m) in
      let r := str_field "risk_level" (dict_get "risk_level" m) in
      let s := float_field "sentiment_score" (dict_get "sentiment_score" m) in
      let u := list_str_field "tools_used" (dict_get "tools_used" m) in
      let n := optional_str_field "analysis" (dict_get "analysis" m) in
      match a, r, s, u, n with
      | inl a', inl r', inl s', inl u', inl n' =>
          Returned {| asset := a'; risk_level := r'; sentiment_score := s';
                      tools_used := u'; analysis := n' |}
      | _, _, _, _, _ =>
          Raised (ValidationError "MarketResearchOutput"
                    (errors_of a ++ errors_of r ++ errors_of s ++
                     errors_of u ++ errors_of n)%list)
      end
  | v =>
      Raised (TypeError ("argument after ** must be a mapping, not "
                         ++ type_name v))
  end.

Definition risk_levels : list string := ["Low"; "Medium"; "High"].

Definition validate_risk_level (self : t) : result t :=
  if negb (existsb (String.eqb (risk_level self)) risk_levels) then
    Raised (ValueError ("Invalid risk_level: " ++ risk_level self
                        ++ ". Must be Low, Medium, or High"))
  else Returned self.

(** The assignment [self.asset = a]. *)
Definition set_asset (self : t) (a : string) : t :=
  {| asset := a; risk_level := risk_level self;
     sentiment_score := sentiment_score self;
     tools_used := tools_used self; analysis := analysis self |}.

Definition model_dump (self : t) : json :=
  JObj [("asset", JStr (asset self));
        ("risk_level", JStr (risk_level self));
        ("sentiment_score", JFloat (sentiment_score self));
        ("tools_used", JArr (map JStr (tools_used self)));
        ("analysis", match analysis self with
                     | Some s => JStr s
                     | None => JNull
                     end)].

End MarketResearchOutput.

(** [str(e)].  For a pydantic error: the header and, for each entry, the
    field and the error type (the input echo and the link that pydantic adds
    to each entry are left out); the decoder's position report is left out. *)
Definition str_exn (e : exn) : string :=
  match e with
  | JSONDecodeError => "Expecting value"
  | ValueError msg | TypeError msg | Exception msg | OtherError _ msg => msg
  | KeyError key => "'" ++ key ++ "'"
  | ValidationError title errors =>
      str_int (Z.of_nat (List.length errors)) ++ " validation error" ++
      (if (List.length errors =? 1)%nat then "" else "s") ++ " for " ++ title ++
      concat "" (map (fun d => String "010" (loc d) ++ String "010" "  [type="
                               ++ type_ d ++ "]") errors)
  end.

(** ** [class MarketResearchAgent] *)

(** The [try] statement that opens [_parse_and_validate_output]: the value
    bound to [output_dict]. *)
Definition output_dict_of (output_text : string) : result json :=
  match loads output_text with
  | Raised JSONDecodeError =>
      let start_idx := find "{" output_text in
      let end_idx := rfind "}" output_text in
      if negb (start_idx =? -1) && negb (end_idx =? -1) then
        let json_str := slice output_text start_idx (end_idx + 1) in
        loads json_str
      else Raised (ValueError "Could not find valid JSON in agent output")
  | r => r
  end.

(** [_parse_and_validate_output] *)
Definition _parse_and_validate_output (output_text asset : string)
  : result json :=
  output_dict <- output_dict_of output_text ;;
  validated <- MarketResearchOutput.init output_dict ;;
  _ <- MarketResearchOutput.validate_risk_level validated ;;
  let validated :=
    if negb (upper (MarketResearchOutput.asset validated) =? upper asset)%string
    then MarketResearchOutput.set_asset validated (upper asset)
    else validated in
  Returned (MarketResearchOutput.model_dump validated).

(** The same routine over an arbitrary [json.loads].  The decoder of the
    standard library does more than the module [Json] tells: on a text that
    nests too deep it raises a [RecursionError], on an integer of too many
    digits a plain [ValueError], and it reads escapes that [Json] has no
    character for.  What is stated of the two stages of the routine is stated
    for every function from texts to results. *)
Section Decoder.

Variable json_loads : string -> result json.

Definition output_dict_of_with (output_text : string) : result json :=
  match json_loads output_text with
  | Raised JSONDecodeError =>
      let start_idx := find "{" output_text in
      let end_idx := rfind "}" output_text in
      if negb (start_idx =? -1) && negb (end_idx =? -1) then
        let json_str := slice output_text start_idx (end_idx + 1) in
        json_loads json_str
      else Raised (ValueError "Could not find valid JSON in agent output")
  | r => r
  end.

Definition _parse_and_validate_output_with (output_text asset : string)
  : result json :=
  output_dict <- output_dict_of_with output_text ;;
  validated <- MarketResearchOutput.init output_dict ;;
  _ <- MarketResearchOutput.validate_risk_level validated ;;
  let validated :=
    if negb (upper (MarketResearchOutput.asset validated) =? upper asset)%string
    then MarketResearchOutput.set_asset validated (upper asset)
    else validated in
  Returned (MarketResearchOutput.model_dump validated).

End Decoder.

(** [app/agent/prompts.py] *)
Definition OUTPUT_FORMAT_INSTRUCTIONS : string := quoted "
Provide your final analysis in this exact JSON format:
{
    'asset': 'SYMBOL',
    'risk_level': 'Low|Medium|High',
    'sentiment_score': 0.72,
    'tools_used': ['get_market_price', 'get_internal_sentiment'],
    'analysis': 'Brief explanation of your assessment'
}

IMPORTANT:
- risk_level must be exactly one of: 'Low', 'Medium', or 'High'
- sentiment_score must be a number between 0.0 and 1.0
- tools_used must list the actual tools you called
- Return ONLY valid JSON, no additional text
".

Definition get_research_prompt (asset : string) : string :=
  "Analyze the cryptocurrency asset: " ++ asset ++ "

Use the available tools to gather market data and sentiment information, then provide a comprehensive risk assessment.

" ++ OUTPUT_FORMAT_INSTRUCTIONS.

(** What [agent_executor.invoke] hands back: a dictionary that may hold the
    final text under [output] and the trace under [intermediate_steps], each
    step an action paired with its observation; or it raises. *)
Module AgentExecutor.

Record AgentAction := {
  tool : string;
  tool_input : string;
  log : option string          (* [None]: the action has no attribute [log] *)
}.

Record result_dict := {
  output : option string;
  intermediate_steps : option (list (AgentAction * string))
}.

Inductive outcome :=
| Responds (r : result_dict)
| Fails (e : exn).

End AgentExecutor.
Import AgentExecutor.

(** The dictionaries of the trace: keys and string values. *)
Definition dict : Type := list (string * string).

Definition tool_call_of (step : AgentAction * string) : dict :=
  let '(action, observation) := step in
  [("tool", tool action); ("input", tool_input action);
   ("output", observation)].

Definition agent_step_of (step : AgentAction * string) : dict :=
  let '(action, _) := step in
  [("action", tool action);
   ("thought", match log action with Some l => l | None => "" end)].

(** The dictionary that [research] returns. *)
Record ResearchResult := {
  output : json;
  agent_steps : list dict;
  tool_calls : list dict;
  execution_time_ms : Q;
  success : bool;
  error : option string
}.

(** The collaborators of a call: the reasoning driver, whose answer may change
    from one invocation to the next, and the clock.  The state counts the
    invocations made and the clock readings taken. *)
Record Env := {
  invoke : nat -> string -> outcome;
  time_time : nat -> Q
}.

Record world := { invocations : nat; clock_reads : nat }.

Definition tick (E : Env) (w : world) : Q * world :=
  (time_time E (clock_reads w),
   {| invocations := invocations w; clock_reads := S (clock_reads w) |}).

Definition agent_executor_invoke (E : Env) (prompt : string) (w : world)
  : outcome * world :=
  (invoke E (invocations w) prompt,
   {| invocations := S (invocations w); clock_reads := clock_reads w |}).

(** The loop [for attempt in range(max_retries)] of [research], with [n]
    iterations left.  The two lists are those created before the loop; an
    iteration appends to them before it validates.  (Calls of the logger are
    left out.) *)
Fixpoint attempts (E : Env) (asset : string) (max_retries : Z)
    (start_time : Q) (n : nat) (attempt : Z) (agent_steps tool_calls : list dict)
    (w : world) {struct n} : result ResearchResult * world :=
  match n with
  | O => (Raised (Exception "Research failed unexpectedly"), w)
  | S n' =>
      let prompt := get_research_prompt asset in
      let '(r, w1) := agent_executor_invoke E prompt w in
      let '(body, agent_steps', tool_calls', w2) :=
        match r with
        | Fails e => (Raised e, agent_steps, tool_calls, w1)
        | Responds result =>
            let steps :=
              match intermediate_steps result with
              | Some l => l
              | None => []
              end in
            let tool_calls' := (tool_calls ++ map tool_call_of steps)%list in
            let agent_steps' := (agent_steps ++ map agent_step_of steps)%list in
            let output_text :=
              match AgentExecutor.output result with
              | Some s => s
              | None => ""
              end in
            match _parse_and_validate_output output_text asset with
            | Returned validated_output =>
                let '(now, w2) := tick E w1 in
                let execution_time := ((now - start_time) * 1000)%Q in
                (Returned {| output := validated_output;
                             agent_steps := agent_steps';
                             tool_calls := tool_calls';
                             execution_time_ms := execution_time;
                             success := true;
                             error := None |},
                 agent_steps', tool_calls', w2)
            | Raised e => (Raised e, agent_steps', tool_calls', w1)
            end
        end in
      match body with
      | Returned res => (Returned res, w2)
      | Raised e =>
          if is_ValidationError e then
            if attempt =? max_retries - 1 then
              let '(_, w3) := tick E w2 in
              (Raised (Exception ("Failed to generate valid output after "
                                  ++ str_int max_retries ++ " attempts: "
                                  ++ str_exn e)), w3)
            else
              attempts E asset max_retries start_time n' (attempt + 1)
                       agent_steps' tool_calls' w2
          else
            let '(_, w3) := tick E w2 in
            (Raised e, w3)
      end
  end.

(** [research(asset, max_retries)] *)
Definition research (E : Env) (asset : string) (max_retries : Z) (w : world)
  : result ResearchResult * world :=
  let '(start_time, w0) := tick E w in
  attempts E asset max_retries start_time (Z.to_nat max_retries) 0 [] [] w0.

Definition world0 : world := {| invocations := O; clock_reads := O |}.

(** ** [app/agent/tools.py] *)

Module Tools.

(** Floats of the tools are exact rationals here.  The generator is the
    sequence of the values of [random.random()]; the state is the number of
    values drawn. *)
Definition rng : Type := nat -> Q.

(** [random.uniform(a, b)] *)
Definition uniform (R : rng) (a b : Q) (k : nat) : Q * nat :=
  ((a + (b - a) * R k)%Q, S k).

(** [round(x, 2)], ties to even. *)
Definition round_half_even (x : Q) : Z :=
  let f := Qfloor x in
  match ((x - inject_Z f) ?= (1 # 2))%Q with
  | Lt => f
  | Gt => f + 1
  | Eq => if Z.even f then f else f + 1
  end.

Definition round2 (x : Q) : json :=
  JFloat (mk_dec (round_half_even (x * 100)%Q) (-2)).

(** [d[key]] *)
Definition getitem (d : json) (key : string) : result json :=
  match d with
  | JObj m =>
      match dict_get key m with
      | Some v => Returned v
      | None => Raised (KeyError key)
      end
  | v => Raised (TypeError ("'" ++ type_name v ++ "' object is not subscriptable"))
  end.

(** The operand of an arithmetic operation. *)
Definition number (v : json) : result Q :=
  match v with
  | JInt z => Returned (inject_Z z)
  | JFloat d => Returned (inject_Z (dmant d) / inject_Z (10 ^ Z.of_nat (dscale d)))%Q
  | v => Raised (TypeError ("unsupported operand type(s): '" ++ type_name v ++ "'"))
  end.

(** The interface [MarketTool]. *)
Record MarketTool := {
  name : string;
  description : string;
  execute : rng -> string -> nat -> result json * nat
}.

Definition mock_prices : list (string * json) :=
  [("BTC", JObj [("base", JInt 45000); ("volatility", JStr "high")]);
   ("ETH", JObj [("base", JInt 2500); ("volatility", JStr "medium")]);
   ("USDT", JObj [("base", JInt 1); ("volatility", JStr "low")]);
   ("SOL", JObj [("base", JInt 100); ("volatility", JStr "high")])].

Definition default_prices : json :=
  JObj [("base", JInt 1000); ("volatility", JStr "medium")].

Definition GetMarketPriceTool_execute (R : rng) (asset : string) (k : nat)
  : result json * nat :=
  let base_data :=
    match dict_get (upper asset) mock_prices with
    | Some d => d
    | None => default_prices
    end in
  match (b <- getitem base_data "base" ;; number b) with
  | Raised e => (Raised e, k)
  | Returned base =>
      let '(u, k1) := uniform R (- base * (5 # 100))%Q (base * (5 # 100))%Q k in
      let price := (base + u)%Q in
      let '(change_24h, k2) := uniform R (- (15 # 1))%Q (15 # 1)%Q k1 in
      let '(volume_24h, k3) := uniform R (1000000 # 1)%Q (50000000 # 1)%Q k2 in
      match getitem base_data "volatility" with
      | Raised e => (Raised e, k3)
      | Returned volatility =>
          (Returned (JObj [("asset", JStr (upper asset));
                           ("price_usd", round2 price);
                           ("change_24h_percent", round2 change_24h);
                           ("volume_24h_usd", round2 volume_24h);
                           ("volatility", volatility)]), k3)
      end
  end.

Definition Qltb (x y : Q) : bool := negb (Qle_bool y x).

Definition GetInternalSentimentTool_execute (R : rng) (asset : string) (k : nat)
  : result json * nat :=
  let '(sentiment_score, k1) := uniform R (3 # 10)%Q (9 # 10)%Q k in
  let '(risk_level, outlook) :=
    if Qltb sentiment_score (4 # 10) then ("High", "bearish")
    else if Qltb sentiment_score (6 # 10) then ("Medium", "neutral")
    else ("Low", "bullish") in
  let '(social_sentiment, k2) := uniform R (4 # 10)%Q (95 # 100)%Q k1 in
  let '(news_sentiment, k3) := uniform R (3 # 10)%Q (9 # 10)%Q k2 in
  let '(confidence, k4) := uniform R (7 # 10)%Q (95 # 100)%Q k3 in
  (Returned (JObj [("asset", JStr (upper asset));
                   ("sentiment_score", round2 sentiment_score);
                   ("risk_level", JStr risk_level);
                   ("social_sentiment", round2 social_sentiment);
                   ("news_sentiment", round2 news_sentiment);
                   ("market_outlook", JStr outlook);
                   ("confidence", round2 confidence)]), k4).

Definition GetMarketPriceTool : MarketTool := {|
  name := "get_market_price";
  description :=
    "Get the current market price for a cryptocurrency asset. " ++
    "Input should be the asset symbol (e.g., BTC, ETH). " ++
    "Returns price, 24h change, volume, and volatility metrics.";
  execute := GetMarketPriceTool_execute
|}.

Definition GetInternalSentimentTool : MarketTool := {|
  name := "get_internal_sentiment";
  description :=
    "Get internal sentiment analysis and risk indicators for a cryptocurrency asset. " ++
    "Input should be the asset symbol (e.g., BTC, ETH). " ++
    "Returns sentiment score, risk indicators, and market outlook.";
  execute := GetInternalSentimentTool_execute
|}.

Definition AVAILABLE_TOOLS : list MarketTool :=
  [GetMarketPriceTool; GetInternalSentimentTool].

End Tools.

(** ** [MarketResearchAgent._create_langchain_tools] *)

(** [langchain.tools.Tool]: a name, a description and the function that the
    driver calls with the input of the action. *)
Module LangChain.

Record Tool := {
  name : string;
  description : string;
  func : Tools.rng -> string -> nat -> result string * nat
}.

End LangChain.

(** One tool of the registry as a tool of the driver: its function
    serializes what [execute] returns. *)
Definition langchain_tool (tool : Tools.MarketTool) : LangChain.Tool :=
  {| LangChain.name := Tools.name tool;
     LangChain.description := Tools.description tool;
     LangChain.func := fun R asset k =>
       let '(r, k') := Tools.execute tool R asset k in
       (v <- r ;; Returned (dumps v), k') |}.

(** The loop over [AVAILABLE_TOOLS], which appends one tool per turn. *)
Definition _create_langchain_tools : list LangChain.Tool :=
  fold_left (fun langchain_tools tool =>
               (langchain_tools ++ [langchain_tool tool])%list)
            Tools.AVAILABLE_TOOLS [].

(** ** The stores, [app/db] *)

(** pymongo and SQLAlchemy are outside the program: a call into one of them
    returns or raises as its environment decides, at each call anew.  A
    computation of a client takes the calls made so far and the attributes
    of the object, and gives a result with the calls and attributes then. *)
Section Calls.

Context {call state : Type}.

Record store := { calls : list call; obj : state }.

Definition io (A : Type) : Type := store -> result A * store.

Definition ret {A} (a : A) : io A := fun w => (Returned a, w).

Definition raise {A} (e : exn) : io A := fun w => (Raised e, w).

Definition and_then {A B} (c : io A) (k : A -> io B) : io B :=
  fun w =>
    match c w with
    | (Returned a, w') => k a w'
    | (Raised e, w') => (Raised e, w')
    end.

(** The call [c]; its answer is that of the environment after the calls made
    before. *)
Definition perform {A} (c : call) (reply : nat -> result A) : io A :=
  fun w => (reply (List.length (calls w)),
            {| calls := (calls w ++ [c])%list; obj := obj w |}).

Definition get : io state := fun w => (Returned (obj w), w).

Definition put (s : state) : io unit :=
  fun w => (Returned tt, {| calls := calls w; obj := s |}).

(** [try: body / except Exception as e: handler(e)] *)
Definition try_except {A} (body : io A) (handler : exn -> io A) : io A :=
  fun w =>
    match body w with
    | (Returned a, w') => (Returned a, w')
    | (Raised e, w') => handler e w'
    end.

(** [try: body / finally: final] *)
Definition try_finally {A} (body : io A) (final : io unit) : io A :=
  fun w =>
    let '(r, w') := body w in
    match final w' with
    | (Returned _, w'') => (r, w'')
    | (Raised e, w'') => (Raised e, w'')
    end.

(** The calls that [c] makes from [w]. *)
Definition made {A} (c : io A) (w : store) : list call :=
  skipn (List.length (calls w)) (calls (snd (c w))).

End Calls.

Arguments store : clear implicits.
Arguments io : clear implicits.

Notation "x <~ c1 ;; c2" := (and_then c1 (fun x => c2))
  (at level 61, c1 at next level, right associativity).

(** *** [class MongoDBClient] *)

Module MongoDB.

(** The document of one execution. *)
Record Document := {
  request_id : Z;
  asset : string;
  agent_steps : list dict;
  tool_calls : list dict;
  final_output : json;
  execution_time_ms : Q;
  success : bool;
  error : option string;
  timestamp : Q
}.

Inductive call :=
| MongoClient                         (* MongoClient(settings.mongo_url, ...) *)
| ping                                (* client.admin.command('ping') *)
| get_database                        (* client[settings.mongo_db] *)
| get_collection                      (* db['ai_execution_logs'] *)
| insert_one (document : Document)
| find_one (request_id : Z)
| close_client.                       (* client.close() *)

(** The attributes of the object: set to an object of the driver, or [None]. *)
Record t := { client : bool; db : bool; collection : bool }.

Section Client.

(** The values of a stored document, and [str] on them. *)
Variable bson : Type.
Variable str : bson -> bson.

(** A stored document, as a dictionary. *)
Definition document : Type := list (string * bson).

Fixpoint getitem (key : string) (d : document) : option bson :=
  match d with
  | [] => None
  | (k, v) :: d' => if String.eqb k key then Some v else getitem key d'
  end.

(** [d[key] = v] for a key of [d] *)
Fixpoint setitem (key : string) (v : bson) (d : document) : document :=
  match d with
  | [] => [(key, v)]
  | (k, x) :: d' =>
      if String.eqb k key then (k, v) :: d' else (k, x) :: setitem key v d'
  end.

(** The server and the driver: the answers to the calls ([inserts] gives the
    text of the id of the inserted document), and the clock. *)
Record Server := {
  connects : nat -> result unit;
  pings : nat -> result unit;
  selects : nat -> result unit;
  inserts : nat -> Document -> result string;
  finds : nat -> Z -> result (option document);
  closes : nat -> result unit;
  utcnow : nat -> Q
}.

Variable server : Server.

Definition M : Type -> Type := io call t.

Definition no_attribute (name : string) : exn :=
  OtherError "AttributeError"
             ("'NoneType' object has no attribute '" ++ name ++ "'").

Definition _connect : M unit :=
  try_except
    (_ <~ perform MongoClient (connects server) ;;
     self <~ get ;;
     _ <~ put {| client := true; db := db self;
                 collection := collection self |} ;;
     _ <~ perform ping (pings server) ;;
     _ <~ perform get_database (selects server) ;;
     self <~ get ;;
     _ <~ put {| client := client self; db := true;
                 collection := collection self |} ;;
     _ <~ perform get_collection (selects server) ;;
     self <~ get ;;
     put {| client := client self; db := db self; collection := true |})
    (fun _ =>
       self <~ get ;;
       put {| client := false; db := db self;
              collection := collection self |}).

Definition __init__ : M unit :=
  _ <~ put {| client := false; db := false; collection := false |} ;;
  _connect.

Definition is_available : M bool :=
  self <~ get ;;
  if negb (client self) then ret false
  else try_except (_ <~ perform ping (pings server) ;; ret true)
                  (fun _ => ret false).

Definition log_execution (request_id : Z) (asset : string)
    (agent_steps tool_calls : list dict) (final_output : json)
    (execution_time_ms : Q) (success : bool) (error : option string)
  : M (option string) :=
  available <~ is_available ;;
  if negb available then ret None
  else
    try_except
      (fun w =>
         let document :=
           {| request_id := request_id;
              asset := asset;
              agent_steps := agent_steps;
              tool_calls := tool_calls;
              final_output := final_output;
              execution_time_ms := execution_time_ms;
              success := success;
              error := error;
              timestamp := utcnow server (List.length (calls w)) |} in
         (self <~ get ;;
          if collection self then
            inserted_id <~ perform (insert_one document)
                                   (fun n => inserts server n document) ;;
            ret (Some inserted_id)
          else raise (no_attribute "insert_one")) w)
      (fun _ => ret None).

Definition get_execution_log (request_id : Z) : M (option document) :=
  available <~ is_available ;;
  if negb available then ret None
  else
    try_except
      (self <~ get ;;
       if collection self then
         found <~ perform (find_one request_id)
                          (fun n => finds server n request_id) ;;
         match found with
         | Some ((_ :: _) as d) =>
             match getitem "_id" d with
             | Some v => ret (Some (setitem "_id" (str v) d))
             | None => raise (KeyError "_id")
             end
         | _ => ret found
         end
       else raise (no_attribute "find_one"))
      (fun _ => ret None).

Definition close : M unit :=
  self <~ get ;;
  if client self then perform close_client (closes server) else ret tt.

End Client.

Arguments getitem {bson}.
Arguments setitem {bson}.
Arguments connects {bson}.
Arguments pings {bson}.
Arguments selects {bson}.
Arguments inserts {bson}.
Arguments finds {bson}.
Arguments closes {bson}.
Arguments utcnow {bson}.
Arguments _connect {bson}.
Arguments __init__ {bson}.
Arguments is_available {bson}.
Arguments log_execution {bson}.
Arguments get_execution_log {bson}.
Arguments close {bson}.

End MongoDB.

(** *** [app/db/models.py] and [class ResearchRepository] *)

Module ResearchRequest.

Record t := { id : option Z; asset : string; created_at : option Q }.

End ResearchRequest.

Module ResearchReport.

Record t := {
  id : option Z;
  request_id : Z;
  asset : string;
  risk_level : string;
  sentiment_score : string;
  tools_used : list string;
  report_data : json;
  created_at : option Q
}.

End ResearchReport.

Module Postgres.

Inductive row :=
| Request (r : ResearchRequest.t)
| Report (r : ResearchReport.t).

Inductive call :=
| get_session                         (* self.db_client.get_session() *)
| add (r : row)
| commit
| refresh (r : row)
| rollback
| close
| query_first (request_id : Z).       (* query(...).filter(...).first() *)

(** The database behind the session: the answers to the calls.  A refresh
    gives the row as the database has it. *)
Record Database := {
  sessions : nat -> result unit;
  adds : nat -> row -> result unit;
  commits : nat -> result unit;
  refreshes_request : nat -> ResearchRequest.t -> result ResearchRequest.t;
  refreshes_report : nat -> ResearchReport.t -> result ResearchReport.t;
  rollbacks : nat -> result unit;
  closes : nat -> result unit;
  firsts : nat -> Z -> result (option ResearchReport.t)
}.

Section Repository.

Variable D : Database.

Definition M : Type -> Type := io call unit.

Definition create_request (asset : string) : M ResearchRequest.t :=
  _ <~ perform get_session (sessions D) ;;
  try_finally
    (try_except
       (let request :=
          {| ResearchRequest.id := None;
             ResearchRequest.asset := asset;
             ResearchRequest.created_at := None |} in
        _ <~ perform (add (Request request))
                     (fun n => adds D n (Request request)) ;;
        _ <~ perform commit (commits D) ;;
        request <~ perform (refresh (Request request))
                           (fun n => refreshes_request D n request) ;;
        ret request)
       (fun e => _ <~ perform rollback (rollbacks D) ;; raise e))
    (perform close (closes D)).

Definition create_report (request_id : Z) (asset risk_level : string)
    (sentiment_score : dec) (tools_used : list string) (report_data : json)
  : M ResearchReport.t :=
  _ <~ perform get_session (sessions D) ;;
  try_finally
    (try_except
       (let report :=
          {| ResearchReport.id := None;
             ResearchReport.request_id := request_id;
             ResearchReport.asset := asset;
             ResearchReport.risk_level := risk_level;
             ResearchReport.sentiment_score := float_repr sentiment_score;
             ResearchReport.tools_used := tools_used;
             ResearchReport.report_data := report_data;
             ResearchReport.created_at := None |} in
        _ <~ perform (add (Report report))
                     (fun n => adds D n (Report report)) ;;
        _ <~ perform commit (commits D) ;;
        report <~ perform (refresh (Report report))
                          (fun n => refreshes_report D n report) ;;
        ret report)
       (fun e => _ <~ perform rollback (rollbacks D) ;; raise e))
    (perform close (closes D)).

Definition get_report_by_request_id (request_id : Z)
  : M (option ResearchReport.t) :=
  _ <~ perform get_session (sessions D) ;;
  try_finally
    (report <~ perform (query_first request_id)
                       (fun n => firsts D n request_id) ;;
     ret report)
    (perform close (closes D)).

End Repository.

End Postgres.

(** ** Notions used in the statements *)

(** The steps that one invocation of the driver reported. *)
Definition trace_of (o : outcome) : list (AgentAction * string) :=
  match o with
  | Responds r =>
      match intermediate_steps r with
      | Some l => l
      | None => []
      end
  | Fails _ => []
  end.

(** The steps of the invocations [a], [a + 1], ..., [b - 1], in that order. *)
Definition trace_between (E : Env) (asset : string) (a b : nat)
  : list (AgentAction * string) :=
  flat_map (fun k => trace_of (invoke E k (get_research_prompt asset)))
           (seq a (b - a)).

(** What one iteration of the loop of [research] validates: the error of the
    driver, or the verdict on its final text. *)
Definition attempt_result (o : outcome) (asset : string) : result json :=
  match o with
  | Fails e => Raised e
  | Responds r =>
      _parse_and_validate_output
        (match AgentExecutor.output r with Some s => s | None => "" end) asset
  end.

Definition invoked (w : world) : world :=
  {| invocations := S (invocations w); clock_reads := clock_reads w |}.

(** The two errors of the decoding stage. *)
Definition is_parse_error (e : exn) : bool :=
  match e with
  | JSONDecodeError => true
  | ValueError msg =>
      String.eqb msg "Could not find valid JSON in agent output"
  | _ => false
  end.

(** A number below 0 or above 1. *)
Definition out_of_range (v : json) : bool :=
  match v with
  | JInt z => (z <? 0) || (1 <? z)
  | JFloat d => negb (dec_leb dec_0 d) || negb (dec_leb d dec_1)
  | JNonFinite PosInfinity | JNonFinite NegInfinity => true
  | _ => false
  end.

Definition is_object (v : json) : bool :=
  match v with
  | JObj _ => true
  | _ => false
  end.

(** [r] is what is left of [s] after a prefix. *)
Definition suffix (r s : string) : Prop := exists p, s = p ++ r.

(** The normal form of a decimal. *)
Definition normal (d : dec) : Prop :=
  dscale d = O \/ dmant d mod 10 <> 0.

(** The records that the validator lets through. *)
Definition valid_report (x : MarketResearchOutput.t) : Prop :=
  In (MarketResearchOutput.risk_level x) MarketResearchOutput.risk_levels /\
  dec_leb dec_0 (MarketResearchOutput.sentiment_score x) = true /\
  dec_leb (MarketResearchOutput.sentiment_score x) dec_1 = true.

(** Scripted drivers and the clock of the examples. *)
Definition answer (text : string) (steps : list (AgentAction * string))
  : outcome :=
  Responds {| AgentExecutor.output := Some text;
              intermediate_steps := Some steps |}.

Definition used (t : string) : AgentAction :=
  {| tool := t; tool_input := "BTC"; log := Some ("Calling " ++ t) |}.

Definition valid_text : string := quoted
  "{'asset': 'BTC', 'risk_level': 'Low', 'sentiment_score': 0.8, 'tools_used': ['get_market_price']}".

Definition clock (k : nat) : Q := inject_Z (Z.of_nat k).

Definition scripted (first : outcome) (then_ : outcome) : Env :=
  {| invoke := fun k _ => match k with O => first | _ => then_ end;
     time_time := clock |}.

(** Texts and drivers of the examples. *)
Definition out_of_range_text : string := quoted
  "{'asset': 'BTC', 'risk_level': 'Low', 'sentiment_score': 1.5, 'tools_used': ['get_market_price']}".

Definition bad_risk_text : string := quoted
  "{'asset': 'BTC', 'risk_level': 'Critical', 'sentiment_score': 0.5, 'tools_used': []}".

(** A driver whose first answer fails the schema (score 1.5) after a call of
    the price tool, and whose second answer is valid after a call of the
    sentiment tool. *)
Definition second_try : Env :=
  scripted
    (answer out_of_range_text [(used "get_market_price", "45000")])
    (answer valid_text [(used "get_internal_sentiment", "0.8")]).

Definition backend_down : exn := OtherError "RuntimeError" "backend down".

(** The asset that the routine leaves in the record. *)
Definition settled (x : MarketResearchOutput.t) (a : string)
  : MarketResearchOutput.t :=
  if negb (upper (MarketResearchOutput.asset x) =? upper a)%string
  then MarketResearchOutput.set_asset x (upper a)
  else x.

(** A decoder that gives an object only for a text with both braces, as
    [json.loads] does. *)
Definition objects_have_braces (json_loads : string -> result json) : Prop :=
  forall text m,
    json_loads text = Returned (JObj m) ->
    find "{" text <> -1 /\ rfind "}" text <> -1.

(** The values of the dictionaries of the tools: strings, and floats in
    normal form. *)
Definition flat_value (v : json) : Prop :=
  match v with
  | JStr _ => True
  | JFloat d => normal d
  | _ => False
  end.

(** The text of the members of an object after the opening quote of the
    first key, up to the closing brace, followed by [rest]. *)
Fixpoint members_text (k : string) (v : json) (m : list (string * json))
  (rest : string) {struct m} : string :=
  escape k ++
  String "034" (String ":" (String " " (dumps v ++
    match m with
    | [] => String "}" rest
    | (k', v') :: m' =>
        String "," (String " " (String "034" (members_text k' v' m' rest)))
    end))).

(** A text at whose head no digit stands. *)
Definition no_digit_ahead (X : string) : Prop :=
  forall a c, read_digits a c X = (a, c, X).

(** Texts that start as a number does. *)
Definition number_ahead (s : string) : Prop :=
  exists c t, s = String c t /\
  (c = "-"%char \/ exists d, 0 <= d <= 9 /\ c = digit_char d).

(** The fraction of the text of a float. *)
Definition frac_repr (k : nat) (M : Z) : string :=
  match k with
  | O => "0"
  | _ => fixed_digits k (M mod 10 ^ Z.of_nat k) ""
  end.

(** A driver whose answers are all out of range. *)
Definition always_out_of_range : Env :=
  scripted (answer out_of_range_text []) (answer out_of_range_text []).

(** Servers and databases of the examples. *)
Definition connection_failure : exn :=
  OtherError "ConnectionFailure" "localhost:27017: connection refused".

Definition unreachable : MongoDB.Server string :=
  {| MongoDB.connects := fun _ => Returned tt;
     MongoDB.pings := fun _ => Raised connection_failure;
     MongoDB.selects := fun _ => Returned tt;
     MongoDB.inserts := fun _ _ => Raised connection_failure;
     MongoDB.finds := fun _ _ => Raised connection_failure;
     MongoDB.closes := fun _ => Returned tt;
     MongoDB.utcnow := clock |}.

Definition serving (found : option (MongoDB.document string))
  : MongoDB.Server string :=
  {| MongoDB.connects := fun _ => Returned tt;
     MongoDB.pings := fun _ => Returned tt;
     MongoDB.selects := fun _ => Returned tt;
     MongoDB.inserts := fun _ _ => Returned "65a1b2c3d4e5f60718293a4b";
     MongoDB.finds := fun _ _ => Returned found;
     MongoDB.closes := fun _ => Returned tt;
     MongoDB.utcnow := clock |}.

Definition mongo0 : store MongoDB.call MongoDB.t :=
  {| calls := [];
     obj := {| MongoDB.client := false; MongoDB.db := false;
               MongoDB.collection := false |} |}.

Definition integrity_error : exn :=
  OtherError "IntegrityError" "null value violates not-null constraint".

Definition operational_error : exn :=
  OtherError "OperationalError" "server closed the connection unexpectedly".

(** A database that stores what it is given; its commits and the closing of
    its sessions fail on demand. *)
Definition database (commits_fail closes_fail : bool) : Postgres.Database :=
  {| Postgres.sessions := fun _ => Returned tt;
     Postgres.adds := fun _ _ => Returned tt;
     Postgres.commits := fun _ =>
       if commits_fail then Raised integrity_error else Returned tt;
     Postgres.refreshes_request := fun n r =>
       Returned {| ResearchRequest.id := Some (Z.of_nat n);
                   ResearchRequest.asset := ResearchRequest.asset r;
                   ResearchRequest.created_at := Some (clock n) |};
     Postgres.refreshes_report := fun n r =>
       Returned {| ResearchReport.id := Some (Z.of_nat n);
                   ResearchReport.request_id := ResearchReport.request_id r;
                   ResearchReport.asset := ResearchReport.asset r;
                   ResearchReport.risk_level := ResearchReport.risk_level r;
                   ResearchReport.sentiment_score :=
                     ResearchReport.sentiment_score r;
                   ResearchReport.tools_used := ResearchReport.tools_used r;
                   ResearchReport.report_data := ResearchReport.report_data r;
                   ResearchReport.created_at := Some (clock n) |};
     Postgres.rollbacks := fun _ => Returned tt;
     Postgres.closes := fun _ =>
       if closes_fail then Raised operational_error else Returned tt;
     Postgres.firsts := fun _ _ => Returned None |}.

Definition postgres0 : store Postgres.call unit := {| calls := []; obj := tt |}.

(** The calls of one session: it is opened first and closed last, once. *)
Definition one_session (l : list Postgres.call) : Prop :=
  exists mid, l = (Postgres.get_session :: mid ++ [Postgres.close])%list /\
              ~ In Postgres.close mid /\ ~ In Postgres.get_session mid.

(** The rows that the repository hands to the session. *)
Definition new_request (asset : string) : ResearchRequest.t :=
  {| ResearchRequest.id := None;
     ResearchRequest.asset := asset;
     ResearchRequest.created_at := None |}.

Definition new_report (request_id : Z) (asset risk_level : string)
    (sentiment_score : dec) (tools_used : list string) (report_data : json)
  : ResearchReport.t :=
  {| ResearchReport.id := None;
     ResearchReport.request_id := request_id;
     ResearchReport.asset := asset;
     ResearchReport.risk_level := risk_level;
     ResearchReport.sentiment_score := float_repr sentiment_score;
     ResearchReport.tools_used := tools_used;
     ResearchReport.report_data := report_data;
     ResearchReport.created_at := None |}.

(** * Properties *)

(** ** The retry loop *)

Section Loop.

Variable E : Env.
Variable asset : string.
Variable max_retries : Z.
Variable start_time : Q.

Let prompt := get_research_prompt asset.

(** One iteration, by the verdict on the driver's answer. *)
Lemma attempts_S n attempt steps calls w :
  attempts E asset max_retries start_time (S n) attempt steps calls w =
  let o := invoke E (invocations w) prompt in
  let calls' := (calls ++ map tool_call_of (trace_of o))%list in
  let steps' := (steps ++ map agent_step_of (trace_of o))%list in
  match attempt_result o asset with
  | Returned v =>
      (Returned {| output := v; agent_steps := steps'; tool_calls := calls';
                   execution_time_ms :=
                     ((fst (tick E (invoked w)) - start_time) * 1000)%Q;
                   success := true; error := None |},
       snd (tick E (invoked w)))
  | Raised e =>
      if is_ValidationError e then
        if attempt =? max_retries - 1 then
          (Raised (Exception ("Failed to generate valid output after "
                              ++ str_int max_retries ++ " attempts: "
                              ++ str_exn e)),
           snd (tick E (invoked w)))
        else attempts E asset max_retries start_time n (attempt + 1)
                      steps' calls' (invoked w)
      else (Raised e, snd (tick E (invoked w)))
  end.
Proof.
  cbn [attempts]. unfold agent_executor_invoke. fold prompt. fold (invoked w).
  cbv zeta.
  destruct (invoke E (invocations w) prompt) as [r | e]; cbn [attempt_result trace_of].
  - destruct (_parse_and_validate_output _ asset) as [v | e]; [reflexivity |].
    destruct (is_ValidationError e); [| reflexivity].
    destruct (attempt =? max_retries - 1); reflexivity.
  - cbn [map]. rewrite !app_nil_r.
    destruct (is_ValidationError e); [| reflexivity].
    destruct (attempt =? max_retries - 1); reflexivity.
Qed.

Lemma trace_between_step a b :
  (a < b)%nat ->
  trace_between E asset a b =
  (trace_of (invoke E a prompt) ++ trace_between E asset (S a) b)%list.
Proof.
  intros H. unfold trace_between.
  replace (b - a)%nat with (S (b - S a)) by lia. reflexivity.
Qed.

Lemma trace_between_one a :
  trace_between E asset a (S a) = trace_of (invoke E a prompt).
Proof.
  rewrite trace_between_step by lia. unfold trace_between.
  rewrite Nat.sub_diag. cbn. apply app_nil_r.
Qed.

(** A run of the loop invokes the driver at most once per iteration. *)
Lemma attempts_invocations n : forall attempt steps calls w out w',
  attempts E asset max_retries start_time n attempt steps calls w = (out, w') ->
  (invocations w <= invocations w' <= invocations w + n)%nat.
Proof.
  induction n as [| n IH]; intros attempt steps calls w out w' H.
  - cbn in H. inversion H; subst. lia.
  - rewrite attempts_S in H. cbv zeta in H.
    destruct (attempt_result _ asset) as [v | e].
    + inversion H; subst. cbn. lia.
    + destruct (is_ValidationError e).
      * destruct (attempt =? max_retries - 1).
        -- inversion H; subst. cbn. lia.
        -- apply IH in H. cbn in H. lia.
      * inversion H; subst. cbn. lia.
Qed.

(** What a run of the loop returns. *)
Lemma attempts_returned n : forall attempt steps calls w r w',
  attempts E asset max_retries start_time n attempt steps calls w
    = (Returned r, w') ->
  success r = true /\ error r = None /\
  (invocations w < invocations w')%nat /\
  attempt_result (invoke E (pred (invocations w')) prompt) asset
    = Returned (output r) /\
  tool_calls r =
    (calls ++ map tool_call_of
       (trace_between E asset (invocations w) (invocations w')))%list /\
  agent_steps r =
    (steps ++ map agent_step_of
       (trace_between E asset (invocations w) (invocations w')))%list.
Proof.
  induction n as [| n IH]; intros attempt steps calls w r w' H.
  - cbn in H. discriminate.
  - rewrite attempts_S in H. cbv zeta in H.
    destruct (attempt_result _ asset) as [v | e] eqn:V.
    + inversion H; subst.
      cbn [success error tool_calls agent_steps output invocations tick
           invoked snd pred].
      rewrite trace_between_one. auto 7.
    + destruct (is_ValidationError e); [| discriminate].
      destruct (attempt =? max_retries - 1); [discriminate |].
      apply IH in H. cbn [invoked invocations] in H.
      destruct H as (Hs & He & Hlt & Hv & Hc & Ha).
      rewrite (trace_between_step (invocations w)) by lia.
      rewrite map_app, app_assoc, <- Hc.
      rewrite map_app, app_assoc, <- Ha.
      repeat split; auto. lia.
Qed.

(** An error of the driver that is no validation error ends the run. *)
Lemma attempts_driver_error n : forall attempt steps calls w out w' k e,
  attempts E asset max_retries start_time n attempt steps calls w = (out, w') ->
  (invocations w <= k < invocations w')%nat ->
  invoke E k prompt = Fails e ->
  is_ValidationError e = false ->
  out = Raised e /\ invocations w' = S k.
Proof.
  induction n as [| n IH]; intros attempt steps calls w out w' k e H Hk Hf Hv.
  - cbn in H. inversion H; subst. lia.
  - rewrite attempts_S in H. cbv zeta in H.
    destruct (Nat.eq_dec k (invocations w)) as [-> | Hne].
    + rewrite Hf in H. cbn [attempt_result] in H. rewrite Hv in H.
      inversion H; subst. auto.
    + assert (Hstop : forall o : result ResearchResult,
                 (out, w') = (o, snd (tick E (invoked w))) -> False).
      { intros o Ho. inversion Ho; subst. cbn in Hk. lia. }
      destruct (attempt_result _ asset) as [v | e'].
      * exfalso. eapply Hstop. symmetry. exact H.
      * destruct (is_ValidationError e').
        -- destruct (attempt =? max_retries - 1).
           ++ exfalso. eapply Hstop. symmetry. exact H.
           ++ eapply IH; eauto. cbn. lia.
        -- exfalso. eapply Hstop. symmetry. exact H.
Qed.

End Loop.

(** ** Claims on [research] *)

(** C2, as stated, fails: with [max_retries = 2] and the driver [second_try],
    [research] returns on the second attempt, and its [tool_calls] are not the
    calls of that attempt alone: the call of the failed first attempt is
    among them. *)
Lemma failed_attempt_trace_is_returned :
  exists r w',
    research second_try "BTC" 2 world0 = (Returned r, w') /\
    invocations w' = 2%nat /\
    tool_calls r <>
      map tool_call_of
          (trace_of (invoke second_try 1 (get_research_prompt "BTC"))) /\
    In (tool_call_of (used "get_market_price", "45000")) (tool_calls r).
Proof.
  eexists _, _. split; [vm_compute; reflexivity |].
  split; [reflexivity |]. split.
  - vm_compute. discriminate.
  - vm_compute. left. reflexivity.
Qed.

(** C2 (amended): when [research] returns, its [tool_calls] and [agent_steps]
    are the entries of every attempt of the run, from the first one to the
    one that succeeded (the last invocation), in the order of the attempts. *)
Theorem research_trace_accumulates E asset max_retries w r w' :
  research E asset max_retries w = (Returned r, w') ->
  attempt_result (invoke E (pred (invocations w')) (get_research_prompt asset))
                 asset = Returned (output r) /\
  tool_calls r =
    map tool_call_of (trace_between E asset (invocations w) (invocations w')) /\
  agent_steps r =
    map agent_step_of (trace_between E asset (invocations w) (invocations w')).
Proof.
  unfold research. cbn [tick]. intros H.
  apply attempts_returned in H. cbn [invocations] in H. tauto.
Qed.

Lemma research_trace_accumulates_witness :
  exists r w',
    research second_try "BTC" 2 world0 = (Returned r, w') /\
    (attempt_result
       (invoke second_try (pred (invocations w')) (get_research_prompt "BTC"))
       "BTC" = Returned (output r) /\
     tool_calls r =
       map tool_call_of
           (trace_between second_try "BTC" (invocations world0)
                          (invocations w')) /\
     agent_steps r =
       map agent_step_of
           (trace_between second_try "BTC" (invocations world0)
                          (invocations w'))).
Proof.
  eexists _, _. split; [vm_compute; reflexivity |].
  apply (research_trace_accumulates second_try "BTC" 2 world0).
  vm_compute. reflexivity.
Defined.

(** C3 is violated by the code (one defect with C4: [except ValidationError]
    catches the errors of pydantic only).  A final text with no JSON in it, a
    text whose braces enclose no JSON, and a text whose [risk_level] is outside
    the enumeration, make the first attempt of three raise a [ValueError] (for
    the second text its subclass [JSONDecodeError]); it is not caught, and
    [research] raises it after a single invocation. *)
Theorem parse_and_risk_errors_are_not_retried :
  research (scripted (answer "I could not decide" []) (answer valid_text []))
           "BTC" 3 world0
  = (Raised (ValueError "Could not find valid JSON in agent output"),
     {| invocations := 1; clock_reads := 2 |}) /\
  research (scripted (answer "Result: {not json}" []) (answer valid_text []))
           "BTC" 3 world0
  = (Raised JSONDecodeError, {| invocations := 1; clock_reads := 2 |}) /\
  research (scripted (answer bad_risk_text []) (answer valid_text []))
           "BTC" 3 world0
  = (Raised (ValueError
               "Invalid risk_level: Critical. Must be Low, Medium, or High"),
     {| invocations := 1; clock_reads := 2 |}).
Proof. repeat split; vm_compute; reflexivity. Qed.

(** C4 is violated by the code (one defect with C3).  The two scenarios of
    the test suite: with [max_retries = 2], a first answer that is not JSON
    and a valid second answer, [research] raises after one invocation instead
    of returning after two; with [max_retries = 1] and an answer that is not
    JSON, the error raised is the [ValueError] of the decoding stage, whose
    message names no attempt count. *)
Theorem invalid_json_ends_the_run :
  research (scripted (answer "invalid json" []) (answer valid_text []))
           "BTC" 2 world0
  = (Raised (ValueError "Could not find valid JSON in agent output"),
     {| invocations := 1; clock_reads := 2 |}) /\
  research (scripted (answer "invalid json" []) (answer "invalid json" []))
           "BTC" 1 world0
  = (Raised (ValueError "Could not find valid JSON in agent output"),
     {| invocations := 1; clock_reads := 2 |}).
Proof. split; vm_compute; reflexivity. Qed.

(** X1: What does hold of the bound: a run makes at most [max_retries]
    invocations. *)
Lemma research_invocations_bound E asset max_retries w out w' :
  research E asset max_retries w = (out, w') ->
  (invocations w' <= invocations w + Z.to_nat max_retries)%nat.
Proof.
  unfold research. cbn [tick]. intros H.
  apply attempts_invocations in H. cbn [invocations] in H. lia.
Qed.

(** What does hold of the retries: an error of pydantic on each of the
    attempts exhausts the budget, and the failure names the count. *)
Example schema_errors_exhaust_retries :
  research (scripted (answer out_of_range_text []) (answer out_of_range_text []))
           "BTC" 2 world0
  = (Raised (Exception
       ("Failed to generate valid output after 2 attempts: "
        ++ "1 validation error for MarketResearchOutput"
        ++ String "010" "sentiment_score"
        ++ String "010" "  [type=less_than_equal]")),
     {| invocations := 2; clock_reads := 2 |}).
Proof. vm_compute. reflexivity. Qed.

(** C7: an error of the driver that is not a validation error, raised by any
    invocation that the run makes, is the outcome of [research], and that
    invocation is the last one, whatever the budget. *)
Theorem research_driver_error_is_terminal E asset max_retries w out w' k e :
  research E asset max_retries w = (out, w') ->
  (invocations w <= k < invocations w')%nat ->
  invoke E k (get_research_prompt asset) = Fails e ->
  is_ValidationError e = false ->
  out = Raised e /\ invocations w' = S k.
Proof.
  unfold research. cbn [tick]. intros H Hk Hf Hv.
  eapply attempts_driver_error in H; eauto.
Qed.

Lemma research_driver_error_is_terminal_witness :
  exists w',
    research (scripted (answer out_of_range_text []) (Fails backend_down))
             "BTC" 5 world0 = (Raised backend_down, w') /\
    invocations w' = 2%nat.
Proof.
  eexists. 
  assert (H : research (scripted (answer out_of_range_text [])
                                 (Fails backend_down)) "BTC" 5 world0
              = (Raised backend_down, {| invocations := 2; clock_reads := 2 |}))
    by (vm_compute; reflexivity).
  split; [exact H |].
  apply (research_driver_error_is_terminal _ _ _ _ _ _ 1%nat backend_down H);
    [cbn; lia | reflexivity | reflexivity].
Defined.

(** C10: a result that [research] returns has [success = True] and
    [error = None]; every failure is an exception. *)
Theorem research_returns_only_success E asset max_retries w r w' :
  research E asset max_retries w = (Returned r, w') ->
  success r = true /\ error r = None.
Proof.
  unfold research. cbn [tick]. intros H.
  apply attempts_returned in H. tauto.
Qed.

Lemma research_returns_only_success_witness :
  exists r w',
    research second_try "BTC" 2 world0 = (Returned r, w') /\
    success r = true /\ error r = None.
Proof.
  eexists _, _. split; [vm_compute; reflexivity |].
  apply (research_returns_only_success second_try "BTC" 2 world0 _
           {| invocations := 2; clock_reads := 2 |}).
  vm_compute. reflexivity.
Defined.

(** ** The validator *)

Import MarketResearchOutput.

Lemma upper_char_idem c : upper_char (upper_char c) = upper_char c.
Proof. destruct c as [[] [] [] [] [] [] [] []]; reflexivity. Qed.

Lemma upper_idem s : upper (upper s) = upper s.
Proof.
  induction s as [| c s IH]; cbn; [reflexivity |].
  now rewrite upper_char_idem, IH.
Qed.

(** What the constructor read when it returns a record. *)
Lemma init_returned d x :
  init d = Returned x ->
  exists m, d = JObj m /\
    str_field "asset" (dict_get "asset" m) = inl (asset x) /\
    str_field "risk_level" (dict_get "risk_level" m) = inl (risk_level x) /\
    float_field "sentiment_score" (dict_get "sentiment_score" m)
      = inl (sentiment_score x) /\
    list_str_field "tools_used" (dict_get "tools_used" m)
      = inl (tools_used x) /\
    optional_str_field "analysis" (dict_get "analysis" m) = inl (analysis x).
Proof.
  destruct d; try discriminate. unfold init.
  destruct (str_field "asset" _) eqn:A, (str_field "risk_level" _) eqn:R,
    (float_field "sentiment_score" _) eqn:S, (list_str_field "tools_used" _) eqn:U,
    (optional_str_field "analysis" _) eqn:N; try discriminate.
  intros H. inversion H; subst. exists m. cbn. auto 7.
Qed.

Lemma bounded_inl name d d' :
  bounded name d = inl d' ->
  d' = d /\ dec_leb dec_0 d = true /\ dec_leb d dec_1 = true.
Proof.
  unfold bounded.
  destruct (dec_leb dec_0 d); cbn; [| discriminate].
  destruct (dec_leb d dec_1); cbn; [| discriminate].
  intros H. inversion H. auto.
Qed.

Lemma float_field_inl name v d :
  float_field name v = inl d ->
  dec_leb dec_0 d = true /\ dec_leb d dec_1 = true /\
  (v = Some (JFloat d) \/ exists z, v = Some (JInt z) /\ d = dec_of_int z).
Proof.
  destruct v as [[| | z | d0 | [] | | |] |]; cbn; try discriminate; intros H;
    apply bounded_inl in H; destruct H as (-> & H0 & H1); eauto 6.
Qed.

Lemma validate_risk_level_returned x y :
  validate_risk_level x = Returned y ->
  y = x /\ In (risk_level x) risk_levels.
Proof.
  unfold validate_risk_level.
  destruct (existsb _ risk_levels) eqn:X; cbn; [| discriminate].
  intros H. inversion H. split; [reflexivity |].
  apply existsb_exists in X. destruct X as (s & Hin & Heq).
  apply String.eqb_eq in Heq. now subst.
Qed.

(** A text is accepted exactly along this path. *)
Lemma parse_and_validate_returned text a r :
  _parse_and_validate_output text a = Returned r ->
  exists d x,
    output_dict_of text = Returned d /\ init d = Returned x /\
    valid_report x /\ r = model_dump (settled x a).
Proof.
  unfold _parse_and_validate_output, bind.
  destruct (output_dict_of text) as [d | e]; [| discriminate].
  destruct (init d) as [x | e] eqn:I; [| discriminate].
  destruct (validate_risk_level x) as [y | e] eqn:V; [| discriminate].
  intros H. inversion H.
  apply validate_risk_level_returned in V. destruct V as (-> & Hr).
  exists d, x. repeat split; auto.
  - apply init_returned in I. destruct I as (m & _ & _ & _ & F & _).
    apply float_field_inl in F. tauto.
  - apply init_returned in I. destruct I as (m & _ & _ & _ & F & _).
    apply float_field_inl in F. tauto.
Qed.

(** C1 is violated by the code: the scenario of the test
    [test_research_asset_correction].  The request is for BTC and the text
    carries btc; the comparison is made between the two upper-cased forms,
    which agree, so the assignment is skipped and the record keeps btc. *)
Theorem echoed_asset_is_kept_when_only_case_differs :
  _parse_and_validate_output
    (quoted "{'asset': 'btc', 'risk_level': 'Low', 'sentiment_score': 0.8, 'tools_used': ['get_market_price']}")
    "BTC"
  = Returned (JObj [("asset", JStr "btc"); ("risk_level", JStr "Low");
                    ("sentiment_score", JFloat {| dmant := 8; dscale := 1 |});
                    ("tools_used", JArr [JStr "get_market_price"]);
                    ("analysis", JNull)]).
Proof. vm_compute. reflexivity. Qed.


(** X6: What does hold of the asset: the record carries an asset that agrees
    with the request up to case. *)
Lemma returned_asset_agrees_up_to_case text a r :
  _parse_and_validate_output text a = Returned r ->
  exists m s, r = JObj m /\ dict_get "asset" m = Some (JStr s) /\
              upper s = upper a.
Proof.
  intros H. apply parse_and_validate_returned in H.
  destruct H as (d & x & _ & _ & _ & ->).
  eexists _, _. split; [reflexivity |]. split; [reflexivity |].
  unfold settled.
  destruct (upper (asset x) =? upper a)%string eqn:U; cbn [negb].
  - now apply String.eqb_eq in U.
  - cbn [set_asset asset]. apply upper_idem.
Qed.

Lemma float_field_out_of_range name v :
  out_of_range v = true -> exists es, float_field name (Some v) = inr es.
Proof.
  destruct v as [| | z | d | [] | | |]; cbn; try discriminate; eauto.
  - unfold bounded, dec_leb, dec_0, dec_1, dec_of_int. cbn.
    rewrite !Z.mul_1_r. intros H.
    destruct (0 <=? z) eqn:A; cbn; eauto.
    destruct (z <=? 1) eqn:B; cbn; eauto. lia.
  - unfold bounded. intros H.
    destruct (dec_leb dec_0 d); cbn in *; eauto.
    destruct (dec_leb d dec_1); cbn in *; eauto. discriminate.
Qed.

(** C6: a decoded output whose [sentiment_score] is a number below 0 or above
    1, or whose [risk_level] is none of Low, Medium and High, is rejected: the
    routine raises, whether the dictionary was decoded from the whole text or
    from the extracted substring. *)
Theorem out_of_schema_output_is_rejected text a m :
  output_dict_of text = Returned (JObj m) ->
  (exists v, dict_get "sentiment_score" m = Some v /\ out_of_range v = true) \/
  (forall s, In s risk_levels -> dict_get "risk_level" m <> Some (JStr s)) ->
  exists e, _parse_and_validate_output text a = Raised e.
Proof.
  intros Hd Hbad.
  destruct (_parse_and_validate_output text a) as [r | e] eqn:P; [| eauto].
  exfalso. apply parse_and_validate_returned in P.
  destruct P as (d & x & Hd' & Hi & (Hr & _) & _).
  rewrite Hd in Hd'. inversion Hd'; subst d.
  apply init_returned in Hi.
  destruct Hi as (m' & Hm & _ & R & F & _). inversion Hm; subst m'.
  destruct Hbad as [(v & Hv & Ho) | Hrisk].
  - rewrite Hv in F.
    destruct (float_field_out_of_range "sentiment_score" v Ho) as (es & Hes).
    congruence.
  - apply (Hrisk _ Hr).
    destruct (dict_get "risk_level" m) as [[] |]; cbn in R; try discriminate.
    congruence.
Qed.

Lemma out_of_schema_output_is_rejected_witness :
  exists e, _parse_and_validate_output ("Here: " ++ out_of_range_text) "BTC"
            = Raised e.
Proof.
  apply (out_of_schema_output_is_rejected _ _
           [("asset", JStr "BTC"); ("risk_level", JStr "Low");
            ("sentiment_score", JFloat {| dmant := 15; dscale := 1 |});
            ("tools_used", JArr [JStr "get_market_price"])]).
  - vm_compute. reflexivity.
  - left. eexists. split; vm_compute; reflexivity.
Defined.

(** ** Strings: searching and suffixes *)

Lemma find_range c s : find c s = -1 \/ 0 <= find c s.
Proof.
  induction s as [| d r IH]; cbn; [auto |].
  destruct (Ascii.eqb d c); [right; lia |].
  destruct (find c r =? -1) eqn:F; [auto | right; lia].
Qed.

Lemma find_cons c d r :
  find c (String d r) <> -1 <-> d = c \/ find c r <> -1.
Proof.
  cbn. destruct (Ascii.eqb_spec d c) as [-> | N].
  - split; [auto | lia].
  - destruct (find_range c r) as [F | F].
    + rewrite F. cbn. tauto.
    + destruct (find c r =? -1) eqn:G; [lia |]. split; [right; lia | lia].
Qed.

Lemma rfind_range c s : rfind c s = -1 \/ 0 <= rfind c s.
Proof.
  induction s as [| d r IH]; cbn; [auto |].
  destruct (rfind c r =? -1) eqn:F.
  - destruct (Ascii.eqb d c); [right; lia | auto].
  - right. lia.
Qed.

Lemma rfind_find c s : rfind c s = -1 <-> find c s = -1.
Proof.
  induction s as [| d r IH]; cbn; [tauto |].
  destruct (Ascii.eqb d c).
  - destruct (rfind c r =? -1) eqn:F; [lia |].
    destruct (rfind_range c r); lia.
  - destruct (rfind_range c r) as [F | F], (find_range c r) as [G | G].
    + rewrite F, G. cbn. tauto.
    + lia.
    + lia.
    + destruct (rfind c r =? -1) eqn:A; [lia |].
      destruct (find c r =? -1) eqn:B; lia.
Qed.

Lemma suffix_refl s : suffix s s.
Proof. exists "". reflexivity. Qed.

Lemma append_assoc (a b c : string) : (a ++ b) ++ c = a ++ (b ++ c).
Proof. induction a as [| x a IH]; cbn; [reflexivity | now rewrite IH]. Qed.

Lemma suffix_trans a b c : suffix a b -> suffix b c -> suffix a c.
Proof.
  intros (p & ->) (q & ->). exists (q ++ p). now rewrite append_assoc.
Qed.

Lemma suffix_tail c s : suffix s (String c s).
Proof. exists (String c ""). reflexivity. Qed.

Lemma suffix_cons c r s : suffix r s -> suffix r (String c s).
Proof. intros H. eapply suffix_trans; [exact H | apply suffix_tail]. Qed.

Lemma find_suffix c r s : suffix r s -> find c r <> -1 -> find c s <> -1.
Proof.
  intros (p & ->) H. induction p as [| d p IH]; [exact H |].
  change (String d p ++ r) with (String d (p ++ r)).
  apply find_cons. auto.
Qed.

Lemma skip_ws_suffix s : suffix (skip_ws s) s.
Proof.
  induction s as [| c r IH]; cbn; [apply suffix_refl |].
  destruct (is_ws c); [now apply suffix_cons | apply suffix_refl].
Qed.

Lemma head_is_Some c s r : head_is c s = Some r -> s = String c r.
Proof.
  destruct s as [| d s]; cbn; [discriminate |].
  destruct (Ascii.eqb_spec d c) as [-> | N]; [| discriminate].
  intros H. now inversion H.
Qed.

Lemma head_is_suffix c s r : head_is c s = Some r -> suffix r s.
Proof. intros H. apply head_is_Some in H. subst. apply suffix_tail. Qed.

(** ** The scanner consumes a prefix *)

Lemma read_digits_suffix s : forall a n v k r,
  read_digits a n s = (v, k, r) -> suffix r s.
Proof.
  induction s as [| c s IH]; cbn; intros a n v k r H.
  - inversion H. apply suffix_refl.
  - destruct (digit_val c).
    + apply suffix_cons. eapply IH. exact H.
    + inversion H. apply suffix_refl.
Qed.

Lemma scan_int_suffix s v r : scan_int s = Some (v, r) -> suffix r s.
Proof.
  destruct s as [| c s]; cbn; [discriminate |].
  destruct (digit_val c) as [[| p | p] |]; try discriminate.
  - intros H. inversion H. apply suffix_tail.
  - destruct (read_digits _ 1 s) as [[v' k] r'] eqn:D. intros H. inversion H; subst.
    apply suffix_cons. eapply read_digits_suffix. exact D.
  - destruct (read_digits _ 1 s) as [[v' k] r'] eqn:D. intros H. inversion H; subst.
    apply suffix_cons. eapply read_digits_suffix. exact D.
Qed.

Lemma scan_frac_suffix s v k r : scan_frac s = Some (v, k, r) -> suffix r s.
Proof.
  unfold scan_frac. destruct (head_is "." s) as [t |] eqn:H; [| discriminate].
  destruct (read_digits 0 0 t) as [[v' k'] r'] eqn:D.
  intros E. assert (r' = r) by (destruct k'; [discriminate | now inversion E]).
  subst. eapply suffix_trans; [eapply read_digits_suffix; exact D |].
  eapply head_is_suffix; exact H.
Qed.

Lemma scan_exp_suffix s v r : scan_exp s = Some (v, r) -> suffix r s.
Proof.
  destruct s as [| c s]; cbn; [discriminate |].
  destruct (Ascii.eqb c "e" || Ascii.eqb c "E"); [| discriminate].
  destruct (head_is "-" s) as [t |] eqn:A;
    [| destruct (head_is "+" s) as [t |] eqn:B].
  all: match goal with
       | |- context [read_digits 0 0 ?t] =>
           destruct (read_digits 0 0 t) as [[v' k'] r'] eqn:D
       end.
  all: intros E;
       assert (r' = r) by (destruct k'; [discriminate | now inversion E]);
       subst; apply suffix_cons; apply read_digits_suffix in D.
  - eapply suffix_trans; [exact D | eapply head_is_suffix; exact A].
  - eapply suffix_trans; [exact D | eapply head_is_suffix; exact B].
  - exact D.
Qed.

Lemma scan_number_spec s v r :
  scan_number s = Some (v, r) -> suffix r s /\ is_object v = false.
Proof.
  unfold scan_number.
  assert (S1 : exists b t,
    match head_is "-" s with Some r' => (true, r') | None => (false, s) end
      = (b, t) /\ suffix t s).
  { destruct (head_is "-" s) eqn:A; eexists _, _; split; try reflexivity;
      eauto using head_is_suffix, suffix_refl. }
  destruct S1 as (b & t & -> & X).
  destruct (scan_int t) as [[i s2] |] eqn:I; [| discriminate].
  apply scan_int_suffix in I.
  destruct (scan_frac s2) as [[[f lf] s3] |] eqn:F.
  - apply scan_frac_suffix in F.
    destruct (scan_exp s3) as [[e s4] |] eqn:Ex; intros H; inversion H; subst;
      split; try reflexivity.
    + apply scan_exp_suffix in Ex. eauto using suffix_trans.
    + eauto using suffix_trans.
  - destruct (scan_exp s2) as [[e s4] |] eqn:Ex; intros H; inversion H; subst;
      split; try reflexivity.
    + apply scan_exp_suffix in Ex. eauto using suffix_trans.
    + eauto using suffix_trans.
Qed.

Lemma strip_prefix_suffix p : forall s r, strip_prefix p s = Some r -> suffix r s.
Proof.
  induction p as [| c p IH]; cbn; intros s r H.
  - inversion H. apply suffix_refl.
  - destruct s as [| d s]; [discriminate |].
    destruct (Ascii.eqb c d); [| discriminate].
    apply suffix_cons. now apply IH.
Qed.

Lemma scan_literal_spec s v r :
  scan_literal s = Some (v, r) -> suffix r s /\ is_object v = false.
Proof.
  unfold scan_literal.
  repeat match goal with
  | |- context [strip_prefix ?p s] =>
      let E := fresh "E" in
      destruct (strip_prefix p s) eqn:E;
      [ intros H; inversion H; subst; split;
        [eapply strip_prefix_suffix; eassumption | reflexivity] |]
  | |- context [scan_number s] =>
      let E := fresh "E" in
      destruct (scan_number s) as [[? ?] |] eqn:E;
      [ intros H; inversion H; subst; now apply scan_number_spec |]
  end.
  discriminate.
Qed.

Lemma scanstring_suffix n : forall s v r,
  (String.length s <= n)%nat -> scanstring s = Some (v, r) -> suffix r s.
Proof.
  induction n as [| n IH]; intros s v r L H.
  - destruct s; [discriminate | cbn in L; lia].
  - destruct s as [| c s]; [discriminate |]. cbn in L. cbn [scanstring] in H.
    destruct (Ascii.eqb c "034").
    { inversion H. apply suffix_tail. }
    apply suffix_cons.
    destruct (Ascii.eqb c "\").
    + destruct s as [| e s]; [discriminate |]. cbn in L. apply suffix_cons.
      destruct (Ascii.eqb e "u").
      * destruct s as [| h1 [| h2 [| h3 [| h4 s]]]]; try discriminate.
        cbn in L. do 4 apply suffix_cons.
        destruct (hex4 h1 h2 h3 h4); [| discriminate].
        destruct (_ <? 256); [| discriminate].
        destruct (scanstring s) as [[v' r'] |] eqn:R; [| discriminate].
        inversion H; subst. eapply IH; [| exact R]. lia.
      * destruct (unescape e); [| discriminate].
        destruct (scanstring s) as [[v' r'] |] eqn:R; [| discriminate].
        inversion H; subst. eapply IH; [| exact R]. lia.
    + destruct (nat_of_ascii c <? 32)%nat; [discriminate |].
      destruct (scanstring s) as [[v' r'] |] eqn:R; [| discriminate].
      inversion H; subst. eapply IH; [| exact R]. lia.
Qed.

Lemma scanstring_suffix' s v r : scanstring s = Some (v, r) -> suffix r s.
Proof. apply (scanstring_suffix (String.length s)). lia. Qed.

Lemma scan_suffix f :
  (forall s v r, scan_once f s = Some (v, r) -> suffix r s) /\
  (forall s m r, JSONObject f s = Some (m, r) -> suffix r s) /\
  (forall s l r, JSONArray f s = Some (l, r) -> suffix r s).
Proof.
  induction f as [| f (IHv & IHo & IHa)];
    [repeat split; intros; discriminate |].
  repeat split.
  - intros s v r H. cbn [scan_once] in H.
    destruct s as [| c s]; [discriminate |].
    destruct (Ascii.eqb c "034").
    { destruct (scanstring s) as [[v' r'] |] eqn:R; [| discriminate].
      inversion H; subst. apply suffix_cons. now apply scanstring_suffix' in R. }
    destruct (Ascii.eqb c "{").
    { cbv zeta in H. apply suffix_cons.
      eapply suffix_trans; [| apply skip_ws_suffix].
      destruct (head_is "}" (skip_ws s)) as [r' |] eqn:A.
      { inversion H; subst. eapply head_is_suffix; exact A. }
      destruct (head_is "034" (skip_ws s)) as [r' |] eqn:B; [| discriminate].
      destruct (JSONObject f r') as [[m r''] |] eqn:O; [| discriminate].
      inversion H; subst.
      eapply suffix_trans; [eapply IHo; exact O | eapply head_is_suffix; exact B]. }
    destruct (Ascii.eqb c "[").
    { cbv zeta in H. apply suffix_cons.
      eapply suffix_trans; [| apply skip_ws_suffix].
      destruct (head_is "]" (skip_ws s)) as [r' |] eqn:A.
      { inversion H; subst. eapply head_is_suffix; exact A. }
      destruct (JSONArray f (skip_ws s)) as [[l r''] |] eqn:O; [| discriminate].
      inversion H; subst. eapply IHa; exact O. }
    now apply scan_literal_spec in H.
  - intros s m r H. cbn [JSONObject] in H.
    destruct (scanstring s) as [[key r1] |] eqn:K; [| discriminate].
    apply scanstring_suffix' in K.
    destruct (head_is ":" (skip_ws r1)) as [r2 |] eqn:C; [| discriminate].
    apply head_is_suffix in C.
    destruct (scan_once f (skip_ws r2)) as [[v r3] |] eqn:V; [| discriminate].
    apply IHv in V. cbv zeta in H.
    assert (S3 : suffix (skip_ws r3) s).
    { eauto 10 using suffix_trans, skip_ws_suffix. }
    destruct (head_is "}" (skip_ws r3)) as [r5 |] eqn:A.
    { inversion H; subst. apply head_is_suffix in A. eauto using suffix_trans. }
    destruct (head_is "," (skip_ws r3)) as [r5 |] eqn:B; [| discriminate].
    apply head_is_suffix in B.
    destruct (head_is "034" (skip_ws r5)) as [r6 |] eqn:Q; [| discriminate].
    apply head_is_suffix in Q.
    destruct (JSONObject f r6) as [[m' r7] |] eqn:O; [| discriminate].
    inversion H; subst. apply IHo in O.
    eauto 10 using suffix_trans, skip_ws_suffix.
  - intros s l r H. cbn [JSONArray] in H.
    destruct (scan_once f s) as [[v r1] |] eqn:V; [| discriminate].
    apply IHv in V. cbv zeta in H.
    destruct (head_is "]" (skip_ws r1)) as [r3 |] eqn:A.
    { inversion H; subst. apply head_is_suffix in A.
      eauto 10 using suffix_trans, skip_ws_suffix. }
    destruct (head_is "," (skip_ws r1)) as [r3 |] eqn:B; [| discriminate].
    apply head_is_suffix in B.
    destruct (JSONArray f (skip_ws r3)) as [[l' r4] |] eqn:O; [| discriminate].
    inversion H; subst. apply IHa in O.
    eauto 10 using suffix_trans, skip_ws_suffix.
Qed.

(** The members of an object end at a closing brace. *)
Lemma JSONObject_closes f : forall s m r,
  JSONObject f s = Some (m, r) -> find "}" s <> -1.
Proof.
  induction f as [| f IH]; intros s m r H; [discriminate |].
  cbn [JSONObject] in H.
  destruct (scanstring s) as [[key r1] |] eqn:K; [| discriminate].
  apply scanstring_suffix' in K.
  destruct (head_is ":" (skip_ws r1)) as [r2 |] eqn:C; [| discriminate].
  apply head_is_suffix in C.
  destruct (scan_once f (skip_ws r2)) as [[v r3] |] eqn:V; [| discriminate].
  apply (proj1 (scan_suffix f)) in V. cbv zeta in H.
  assert (S3 : suffix (skip_ws r3) s).
  { eauto 10 using suffix_trans, skip_ws_suffix. }
  destruct (head_is "}" (skip_ws r3)) as [r5 |] eqn:A.
  { apply head_is_Some in A. apply (find_suffix _ _ _ S3).
    rewrite A. apply find_cons. auto. }
  destruct (head_is "," (skip_ws r3)) as [r5 |] eqn:B; [| discriminate].
  apply head_is_suffix in B.
  destruct (head_is "034" (skip_ws r5)) as [r6 |] eqn:Q; [| discriminate].
  apply head_is_suffix in Q.
  destruct (JSONObject f r6) as [[m' r7] |] eqn:O; [| discriminate].
  apply IH in O. refine (find_suffix _ _ _ _ O).
  eauto 10 using suffix_trans, skip_ws_suffix.
Qed.

(** An object is written between braces. *)
Lemma scan_once_object f s m r :
  scan_once f s = Some (JObj m, r) -> find "{" s <> -1 /\ find "}" s <> -1.
Proof.
  destruct f as [| f]; [discriminate |]. cbn [scan_once].
  destruct s as [| c s]; [discriminate |].
  destruct (Ascii.eqb c "034").
  { destruct (scanstring s) as [[v' r'] |]; discriminate. }
  destruct (Ascii.eqb_spec c "{") as [-> | N].
  { cbv zeta. intros H. split; [apply find_cons; auto |].
    apply find_cons. right.
    refine (find_suffix _ _ _ (skip_ws_suffix s) _).
    destruct (head_is "}" (skip_ws s)) as [r' |] eqn:A.
    { apply head_is_Some in A. rewrite A. apply find_cons. auto. }
    destruct (head_is "034" (skip_ws s)) as [r' |] eqn:B; [| discriminate].
    destruct (JSONObject f r') as [[m' r''] |] eqn:O; [| discriminate].
    apply JSONObject_closes in O. apply head_is_suffix in B.
    exact (find_suffix _ _ _ B O). }
  destruct (Ascii.eqb c "[").
  { cbv zeta. destruct (head_is "]" (skip_ws s)); [discriminate |].
    destruct (JSONArray f (skip_ws s)) as [[l r''] |]; discriminate. }
  intros H. apply scan_literal_spec in H. cbn in H. destruct H. discriminate.
Qed.

Lemma decode_object text m :
  decode text = Some (JObj m) -> find "{" text <> -1 /\ rfind "}" text <> -1.
Proof.
  unfold decode.
  destruct (scan_once _ (skip_ws text)) as [[v r] |] eqn:V; [| discriminate].
  destruct (skip_ws r); [| discriminate]. intros H. inversion H; subst.
  apply scan_once_object in V. destruct V as (A & B).
  split.
  - exact (find_suffix _ _ _ (skip_ws_suffix text) A).
  - rewrite rfind_find. exact (find_suffix _ _ _ (skip_ws_suffix text) B).
Qed.

(** C5, as stated, fails: the text 42 has no brace and is valid JSON, so the
    first stage succeeds and no parse error is raised; the routine fails in
    the construction of the record, with a [TypeError]. *)
Lemma valid_json_without_braces_raises_no_parse_error :
  find "{" "42" = -1 /\ rfind "}" "42" = -1 /\
  exists e, _parse_and_validate_output "42" "BTC" = Raised e /\
            is_parse_error e = false.
Proof.
  split; [reflexivity |]. split; [reflexivity |].
  eexists. split; [vm_compute; reflexivity | reflexivity].
Qed.

Lemma loads_objects_have_braces : objects_have_braces loads.
Proof.
  intros text m H. unfold loads in H.
  destruct (decode text) as [v |] eqn:D; [| discriminate].
  inversion H; subst v. exact (decode_object text m D).
Qed.

(** C5 (amended), for every behaviour of [json.loads]: the routine first
    decodes the whole text; a value that this gives is taken as it is, and an
    exception other than [JSONDecodeError] goes to the caller; when it raises
    [JSONDecodeError] and the text has both braces, the substring from the
    first opening brace to the last closing brace is decoded, once, and the
    outcome of that second decoding stands, be it a value or an exception;
    when it raises [JSONDecodeError] and the text has no opening or no closing
    brace, the routine raises the parse error [ValueError]; a text with no
    opening or no closing brace is never accepted, the decoder giving an
    object only for a text with braces; a valid object between prose is
    accepted. *)
Theorem two_stage_parse (json_loads : string -> result json) :
  (forall text v,
     json_loads text = Returned v ->
     output_dict_of_with json_loads text = Returned v) /\
  (forall text e,
     json_loads text = Raised e -> e <> JSONDecodeError ->
     output_dict_of_with json_loads text = Raised e) /\
  (forall text,
     json_loads text = Raised JSONDecodeError ->
     find "{" text <> -1 -> rfind "}" text <> -1 ->
     output_dict_of_with json_loads text
     = json_loads (slice text (find "{" text) (rfind "}" text + 1))) /\
  (forall text a,
     find "{" text = -1 \/ rfind "}" text = -1 ->
     (json_loads text = Raised JSONDecodeError ->
      _parse_and_validate_output_with json_loads text a
      = Raised (ValueError "Could not find valid JSON in agent output")) /\
     (objects_have_braces json_loads ->
      exists e, _parse_and_validate_output_with json_loads text a = Raised e)) /\
  _parse_and_validate_output_with loads = _parse_and_validate_output /\
  _parse_and_validate_output
    (quoted "here it is {'asset': 'BTC', 'risk_level': 'Medium', 'sentiment_score': 0.6, 'tools_used': ['get_market_price']} thanks")
    "BTC"
  = Returned (JObj [("asset", JStr "BTC"); ("risk_level", JStr "Medium");
                    ("sentiment_score", JFloat {| dmant := 6; dscale := 1 |});
                    ("tools_used", JArr [JStr "get_market_price"]);
                    ("analysis", JNull)]).
Proof.
  assert (NB : forall text,
    find "{" text = -1 \/ rfind "}" text = -1 ->
    negb (find "{" text =? -1) && negb (rfind "}" text =? -1) = false).
  { intros text [-> | ->]; cbn; [reflexivity | apply andb_false_r]. }
  split; [| split; [| split; [| split; [| split]]]].
  - intros text v H. unfold output_dict_of_with. now rewrite H.
  - intros text e H N. unfold output_dict_of_with. rewrite H.
    destruct e; try reflexivity. contradiction.
  - intros text H A B. unfold output_dict_of_with. rewrite H.
    apply Z.eqb_neq in A, B. now rewrite A, B.
  - intros text a H. split.
    + intros D. unfold _parse_and_validate_output_with, output_dict_of_with.
      rewrite D, (NB _ H). reflexivity.
    + intros O. unfold _parse_and_validate_output_with, output_dict_of_with.
      destruct (json_loads text) as [v | e] eqn:D.
      * destruct v; cbn; eauto.
        apply O in D. destruct D as (A & B). destruct H; contradiction.
      * destruct e; cbn; eauto. rewrite (NB _ H). cbn. eauto.
  - reflexivity.
  - vm_compute. reflexivity.
Qed.

Lemma two_stage_parse_witness :
  find "{" "not json" = -1 /\ loads "not json" = Raised JSONDecodeError /\
  _parse_and_validate_output "not json" "BTC"
  = Raised (ValueError "Could not find valid JSON in agent output").
Proof.
  split; [reflexivity |]. split; [reflexivity |].
  destruct (two_stage_parse loads) as (_ & _ & _ & H & _).
  exact (proj1 (H "not json" "BTC" (or_introl eq_refl)) eq_refl).
Defined.

(** ** Encoding, then decoding *)

Lemma length_append (a b : string) :
  String.length (a ++ b) = (String.length a + String.length b)%nat.
Proof. induction a as [| c a IH]; cbn; [reflexivity | now rewrite IH]. Qed.

Lemma scanstring_escape_char c X :
  scanstring (escape_char c ++ X) =
  match scanstring X with
  | Some (v, r) => Some (String c v, r)
  | None => None
  end.
Proof.
  destruct c as [[] [] [] [] [] [] [] []]; reflexivity.
Qed.

Lemma scanstring_escape s rest :
  scanstring (escape s ++ String "034" rest) = Some (s, rest).
Proof.
  induction s as [| c s IH]; [reflexivity |].
  cbn [escape]. rewrite append_assoc, scanstring_escape_char, IH. reflexivity.
Qed.

Lemma scan_once_str f s rest :
  scan_once (S f) (encode_str s ++ rest) = Some (JStr s, rest).
Proof.
  unfold encode_str. cbn [append scan_once]. cbn [Ascii.eqb Bool.eqb].
  rewrite append_assoc. cbn [append]. now rewrite scanstring_escape.
Qed.

Lemma digit_val_digit_char x :
  0 <= x < 10 -> digit_val (digit_char x) = Some x.
Proof.
  intros H.
  assert (C : x = 0 \/ x = 1 \/ x = 2 \/ x = 3 \/ x = 4 \/ x = 5 \/ x = 6 \/
              x = 7 \/ x = 8 \/ x = 9) by lia.
  repeat (destruct C as [-> | C]; [reflexivity |]). subst. reflexivity.
Qed.

Lemma fixed_digits_app k : forall n acc rest,
  fixed_digits k n acc ++ rest = fixed_digits k n (acc ++ rest).
Proof.
  induction k as [| k IH]; intros n acc rest; cbn; [reflexivity |].
  now rewrite IH.
Qed.

Lemma pow10_succ k : 10 ^ Z.of_nat (S k) = 10 * 10 ^ Z.of_nat k.
Proof. rewrite Nat2Z.inj_succ, Z.pow_succ_r; lia. Qed.

Lemma pow10_pos k : 0 < 10 ^ Z.of_nat k.
Proof. apply Z.pow_pos_nonneg; lia. Qed.

Lemma read_fixed_digits k : forall n a c tail,
  0 <= n < 10 ^ Z.of_nat k ->
  read_digits a c (fixed_digits k n tail)
  = read_digits (a * 10 ^ Z.of_nat k + n) (c + k) tail.
Proof.
  induction k as [| k IH]; intros n a c tail H.
  - cbn in *. f_equal; [f_equal; lia | lia].
  - rewrite pow10_succ in *. cbn [fixed_digits].
    rewrite IH by (split; [apply Z.div_pos; lia | apply Z.div_lt_upper_bound; lia]).
    cbn [read_digits].
    rewrite digit_val_digit_char by (apply Z.mod_pos_bound; lia).
    f_equal; [| lia].
    pose proof (Z.div_mod n 10). lia.
Qed.

Lemma norm_normal k : forall m, normal (norm m k).
Proof.
  induction k as [| k IH]; intros m; cbn.
  - left. reflexivity.
  - destruct (m mod 10 =? 0) eqn:E; [apply IH |].
    right. cbn. now apply Z.eqb_neq.
Qed.

Lemma mk_dec_normal m e : normal (mk_dec m e).
Proof.
  unfold mk_dec. destruct (0 <=? e); [left; reflexivity | apply norm_normal].
Qed.

Lemma norm_id m k : normal {| dmant := m; dscale := k |} ->
  norm m k = {| dmant := m; dscale := k |}.
Proof.
  destruct k as [| k]; [reflexivity |]. intros [H | H]; [discriminate |].
  cbn in *. apply Z.eqb_neq in H. now rewrite H.
Qed.

(** The text of a score is read back as the score. *)
Lemma scan_once_score f d rest :
  normal d -> dec_leb dec_0 d = true -> dec_leb d dec_1 = true ->
  scan_once (S f) (float_repr d ++ String "," rest)
  = Some (JFloat d, String "," rest).
Proof.
  destruct d as [m k]. unfold dec_leb, dec_0, dec_1, dec_of_int, float_repr.
  cbn [dmant dscale]. rewrite !Z.mul_1_r, !Z.mul_1_l, Z.mul_0_l.
  intros N L0 L1. apply Z.leb_le in L0, L1.
  destruct k as [| k].
  - cbn in L1. assert (C : m = 0 \/ m = 1) by lia.
    destruct C as [-> | ->]; reflexivity.
  - destruct N as [N | N]; [discriminate |]. cbn [dmant] in N.
    assert (P := pow10_pos k). rewrite pow10_succ in L1.
    assert (m <> 10 * 10 ^ Z.of_nat k).
    { intros ->. apply N. rewrite Z.mul_comm. apply Z.mod_mul. lia. }
    assert (m <> 0) by (intros ->; apply N; reflexivity).
    replace (m <? 0) with false by (symmetry; apply Z.ltb_ge; lia).
    rewrite Z.abs_eq by lia. rewrite pow10_succ.
    rewrite Z.div_small, Z.mod_small by lia.
    change (digits 0) with "0". cbn [append].
    rewrite fixed_digits_app. cbn [append].
    cbn [scan_once]. cbn [Ascii.eqb Bool.eqb].
    unfold scan_literal. cbn [strip_prefix Ascii.eqb Bool.eqb].
    unfold scan_number. cbn [head_is Ascii.eqb Bool.eqb].
    cbn [scan_int digit_val]. 
    change (digit_val "0") with (Some 0).
    unfold scan_frac. cbn [head_is Ascii.eqb Bool.eqb].
    rewrite read_fixed_digits by (rewrite pow10_succ; lia).
    cbn [read_digits]. change (digit_val ",") with (@None Z).
    cbn [Nat.add]. cbn [scan_exp Ascii.eqb Bool.eqb orb].
    rewrite !Z.mul_0_l, !Z.add_0_l.
    unfold mk_dec.
    replace (0 <=? - Z.of_nat (S k)) with false by (symmetry; apply Z.leb_gt; lia).
    rewrite Z.opp_involutive, Nat2Z.id.
    rewrite norm_id by (right; exact N). reflexivity.
Qed.

Lemma encode_str_app s rest :
  encode_str s ++ rest = String "034" (escape s ++ String "034" rest).
Proof. unfold encode_str. cbn [append]. now rewrite append_assoc. Qed.

(** The elements of an array of strings. *)
Lemma JSONArray_strs l : forall x f rest,
  (List.length l + 2 <= f)%nat ->
  JSONArray f (concat ", " (map encode_str (x :: l)) ++ String "]" rest)
  = Some (map JStr (x :: l), rest).
Proof.
  induction l as [| y l IH]; intros x f rest F.
  - destruct f as [| [| f]]; try (cbn in F; lia).
    cbn [map concat JSONArray]. rewrite scan_once_str. reflexivity.
  - destruct f as [| f]; [cbn in F; lia |].
    change (concat ", " (map encode_str (x :: y :: l)))
      with (encode_str x ++ ", " ++ concat ", " (map encode_str (y :: l))).
    rewrite !append_assoc. cbn [JSONArray].
    destruct f as [| f]; [cbn in F; lia |].
    rewrite scan_once_str.
    cbn [append skip_ws is_ws Ascii.eqb Bool.eqb orb head_is].
    cbv zeta. cbn [head_is Ascii.eqb Bool.eqb].
    replace (skip_ws (concat ", " (map encode_str (y :: l))
                      ++ String "]" rest))
      with (concat ", " (map encode_str (y :: l)) ++ String "]" rest).
    + rewrite IH by (cbn in F |- *; lia). reflexivity.
    + cbn [map]. destruct (map encode_str l); cbn [concat];
        rewrite ?append_assoc, encode_str_app; reflexivity.
Qed.

Lemma map_dumps_strs l : map dumps (map JStr l) = map encode_str l.
Proof. induction l as [| x l IH]; cbn; [reflexivity | now rewrite IH]. Qed.

Lemma dumps_strs l :
  dumps (JArr (map JStr l)) = "[" ++ concat ", " (map encode_str l) ++ "]".
Proof. cbn [dumps]. now rewrite map_dumps_strs. Qed.

(** The text of a list of strings is read back as the list. *)
Lemma scan_once_strs l f rest :
  (List.length l + 3 <= f)%nat ->
  scan_once f (dumps (JArr (map JStr l)) ++ rest)
  = Some (JArr (map JStr l), rest).
Proof.
  intros F. destruct f as [| f]; [lia |].
  rewrite dumps_strs. rewrite !append_assoc.
  cbn [append scan_once]. cbn [Ascii.eqb Bool.eqb]. cbv zeta.
  destruct l as [| x l].
  - reflexivity.
  - replace (skip_ws (concat ", " (map encode_str (x :: l)) ++ String "]" rest))
      with (concat ", " (map encode_str (x :: l)) ++ String "]" rest).
    2:{ cbn [map]. destruct (map encode_str l); cbn [concat];
          rewrite ?append_assoc, encode_str_app; reflexivity. }
    replace (head_is "]" (concat ", " (map encode_str (x :: l)) ++ String "]" rest))
      with (@None string).
    2:{ cbn [map]. destruct (map encode_str l); cbn [concat];
          rewrite ?append_assoc, encode_str_app; reflexivity. }
    rewrite JSONArray_strs by (cbn in F; lia). reflexivity.
Qed.

(** A member that is followed by another one, and the last member. *)
Lemma JSONObject_more f k T v more m rest :
  skip_ws T = T ->
  scan_once f T = Some (v, String "," (String " " (String "034" more))) ->
  JSONObject f more = Some (m, rest) ->
  JSONObject (S f) (escape k ++ String "034" (String ":" (String " " T)))
  = Some ((k, v) :: m, rest).
Proof.
  intros W V M. cbn [JSONObject]. rewrite scanstring_escape.
  cbn [skip_ws is_ws Ascii.eqb Bool.eqb orb head_is].
  rewrite W, V. cbv zeta.
  cbn [skip_ws is_ws Ascii.eqb Bool.eqb orb head_is].
  now rewrite M.
Qed.

Lemma JSONObject_last f k T v rest :
  skip_ws T = T ->
  scan_once f T = Some (v, String "}" rest) ->
  JSONObject (S f) (escape k ++ String "034" (String ":" (String " " T)))
  = Some ([(k, v)], rest).
Proof.
  intros W V. cbn [JSONObject]. rewrite scanstring_escape.
  cbn [skip_ws is_ws Ascii.eqb Bool.eqb orb head_is].
  rewrite W, V. cbv zeta.
  cbn [skip_ws is_ws Ascii.eqb Bool.eqb orb head_is]. reflexivity.
Qed.

Lemma append_nil_r (s : string) : s ++ "" = s.
Proof. induction s as [| c s IH]; cbn; [reflexivity | now rewrite IH]. Qed.

Lemma scan_once_str' f s rest :
  scan_once (S f) (String "034" (escape s ++ String "034" rest))
  = Some (JStr s, rest).
Proof. rewrite <- encode_str_app. apply scan_once_str. Qed.

(** The text of a score starts with a digit. *)
Lemma skip_ws_score d X :
  normal d -> dec_leb dec_0 d = true -> dec_leb d dec_1 = true ->
  skip_ws (float_repr d ++ X) = float_repr d ++ X.
Proof.
  destruct d as [m k]. unfold dec_leb, dec_0, dec_1, dec_of_int, float_repr.
  cbn [dmant dscale]. rewrite !Z.mul_1_r, !Z.mul_1_l, Z.mul_0_l.
  intros N L0 L1. apply Z.leb_le in L0, L1.
  replace (m <? 0) with false by (symmetry; apply Z.ltb_ge; lia).
  rewrite Z.abs_eq by lia.
  assert (P := pow10_pos k).
  assert (C : m / 10 ^ Z.of_nat k = 0 \/ m / 10 ^ Z.of_nat k = 1).
  { assert (0 <= m / 10 ^ Z.of_nat k) by (apply Z.div_pos; lia).
    assert (m / 10 ^ Z.of_nat k < 2) by (apply Z.div_lt_upper_bound; lia).
    lia. }
  destruct C as [-> | ->]; reflexivity.
Qed.

Lemma length_concat_strs l :
  (List.length l <= String.length (concat ", " (map encode_str l)))%nat.
Proof.
  induction l as [| x l IH]; [cbn; lia |].
  cbn [map concat]. destruct (map encode_str l) eqn:E.
  - destruct l; [| discriminate]. unfold encode_str. cbn. lia.
  - rewrite !length_append. unfold encode_str at 1. cbn [String.length List.length] in *.
    lia.
Qed.

Section Report.

Variables k1 k2 k3 k4 k5 : string.
Variables (a r : string) (d : dec) (l : list string) (n : option string).

Let last_value : json :=
  match n with
  | Some s => JStr s
  | None => JNull
  end.

Let report_text : string :=
  "{" ++
  concat ", "
    [encode_str k1 ++ ": " ++ encode_str a;
     encode_str k2 ++ ": " ++ encode_str r;
     encode_str k3 ++ ": " ++ float_repr d;
     encode_str k4 ++ ": " ++ dumps (JArr (map JStr l));
     encode_str k5 ++ ": " ++ dumps last_value]
  ++ "}".

Let report_value : json :=
  JObj [(k1, JStr a); (k2, JStr r); (k3, JFloat d);
        (k4, JArr (map JStr l)); (k5, last_value)].

Hypothesis d_normal : normal d.
Hypothesis d_ge : dec_leb dec_0 d = true.
Hypothesis d_le : dec_leb d dec_1 = true.

Lemma scan_once_report f rest :
  (List.length l + 3 <= f)%nat ->
  scan_once (S (S (S (S (S f))))) (report_text ++ rest)
  = Some (report_value, rest).
Proof.
  intros F. unfold report_text, report_value. cbn [concat].
  rewrite !append_assoc. cbn [append]. rewrite !encode_str_app.
  rewrite ?append_assoc. cbn [append].
  cbn [scan_once]. cbn [Ascii.eqb Bool.eqb]. cbv zeta.
  cbn [skip_ws is_ws Ascii.eqb Bool.eqb orb head_is].
  erewrite JSONObject_more; [reflexivity | reflexivity | apply scan_once_str' |].
  erewrite JSONObject_more; [reflexivity | reflexivity | apply scan_once_str' |].
  erewrite JSONObject_more;
    [reflexivity | now apply skip_ws_score | now apply scan_once_score |].
  erewrite JSONObject_more;
    [reflexivity | rewrite dumps_strs; reflexivity | apply scan_once_strs; lia |].
  destruct f as [| [| f]]; try lia.
  unfold last_value. destruct n as [s |].
  - cbn [dumps]. rewrite encode_str_app.
    erewrite JSONObject_last; [reflexivity | reflexivity | apply scan_once_str'].
  - erewrite JSONObject_last; [reflexivity | reflexivity | reflexivity].
Qed.

Lemma length_report :
  (List.length l + 3 <= String.length report_text)%nat.
Proof.
  unfold report_text. cbn [concat]. rewrite dumps_strs.
  rewrite !length_append. cbn [String.length].
  pose proof (length_concat_strs l). lia.
Qed.

Lemma decode_report : decode report_text = Some report_value.
Proof.
  unfold decode.
  assert (W : skip_ws report_text = report_text) by reflexivity.
  rewrite W. pose proof length_report as L.
  replace (2 * String.length report_text + 2)%nat
    with (S (S (S (S (S (2 * String.length report_text - 3)))))) by lia.
  rewrite <- (append_nil_r report_text) at 2.
  rewrite scan_once_report by lia. reflexivity.
Qed.

End Report.

(** ** The fuel of the decoder is enough *)

Lemma suffix_length r s : suffix r s -> (String.length r <= String.length s)%nat.
Proof. intros (p & ->). rewrite length_append. lia. Qed.

Lemma head_is_length c s r :
  head_is c s = Some r -> String.length s = S (String.length r).
Proof. intros H. apply head_is_Some in H. now subst. Qed.

Lemma skip_ws_length s : (String.length (skip_ws s) <= String.length s)%nat.
Proof. apply suffix_length, skip_ws_suffix. Qed.

Lemma scan_int_length s v r :
  scan_int s = Some (v, r) -> (String.length r < String.length s)%nat.
Proof.
  destruct s as [| c s]; cbn; [discriminate |].
  destruct (digit_val c) as [[| p | p] |]; try discriminate.
  - intros H. inversion H. lia.
  - destruct (read_digits _ 1 s) as [[v' k] r'] eqn:D. intros H. inversion H; subst.
    apply read_digits_suffix, suffix_length in D. lia.
  - destruct (read_digits _ 1 s) as [[v' k] r'] eqn:D. intros H. inversion H; subst.
    apply read_digits_suffix, suffix_length in D. lia.
Qed.

Lemma scan_number_length s v r :
  scan_number s = Some (v, r) -> (String.length r < String.length s)%nat.
Proof.
  unfold scan_number.
  assert (S1 : exists b t,
    match head_is "-" s with Some r' => (true, r') | None => (false, s) end
      = (b, t) /\ suffix t s).
  { destruct (head_is "-" s) eqn:A; eexists _, _; split; try reflexivity;
      eauto using head_is_suffix, suffix_refl. }
  destruct S1 as (b & t & -> & X). apply suffix_length in X.
  destruct (scan_int t) as [[i s2] |] eqn:I; [| discriminate].
  apply scan_int_length in I.
  destruct (scan_frac s2) as [[[f lf] s3] |] eqn:F.
  - apply scan_frac_suffix, suffix_length in F.
    destruct (scan_exp s3) as [[e s4] |] eqn:Ex; intros H; inversion H; subst.
    + apply scan_exp_suffix, suffix_length in Ex. lia.
    + lia.
  - destruct (scan_exp s2) as [[e s4] |] eqn:Ex; intros H; inversion H; subst.
    + apply scan_exp_suffix, suffix_length in Ex. lia.
    + lia.
Qed.

Lemma strip_prefix_length p : forall s r,
  strip_prefix p s = Some r ->
  String.length s = (String.length p + String.length r)%nat.
Proof.
  induction p as [| c p IH]; cbn; intros s r H.
  - now inversion H.
  - destruct s as [| d s]; [discriminate |].
    destruct (Ascii.eqb c d); [| discriminate].
    cbn. f_equal. now apply IH.
Qed.

Lemma scan_literal_length s v r :
  scan_literal s = Some (v, r) -> (String.length r < String.length s)%nat.
Proof.
  unfold scan_literal.
  repeat match goal with
  | |- context [strip_prefix ?p s] =>
      let E := fresh "E" in
      destruct (strip_prefix p s) eqn:E;
      [ intros H; inversion H; subst; apply strip_prefix_length in E;
        cbn in E; lia |]
  | |- context [scan_number s] =>
      let E := fresh "E" in
      destruct (scan_number s) as [[? ?] |] eqn:E;
      [ intros H; inversion H; subst; eapply scan_number_length; eassumption |]
  end.
  discriminate.
Qed.

Lemma scanstring_length s v r :
  scanstring s = Some (v, r) -> (String.length r < String.length s)%nat.
Proof.
  destruct s as [| c s]; [discriminate |]. cbn [scanstring String.length].
  destruct (Ascii.eqb c "034").
  { intros H. inversion H. lia. }
  assert (T : forall t, suffix r t -> (String.length r < S (String.length t))%nat).
  { intros t H. apply suffix_length in H. lia. }
  intros H. apply T.
  destruct (Ascii.eqb c "\").
  - destruct s as [| e s]; [discriminate |]. apply suffix_cons.
    destruct (Ascii.eqb e "u").
    + destruct s as [| h1 [| h2 [| h3 [| h4 s]]]]; try discriminate.
      do 4 apply suffix_cons.
      destruct (hex4 h1 h2 h3 h4); [| discriminate].
      destruct (_ <? 256); [| discriminate].
      destruct (scanstring s) as [[v' r'] |] eqn:R; [| discriminate].
      inversion H; subst. now apply scanstring_suffix' in R.
    + destruct (unescape e); [| discriminate].
      destruct (scanstring s) as [[v' r'] |] eqn:R; [| discriminate].
      inversion H; subst. now apply scanstring_suffix' in R.
  - destruct (nat_of_ascii c <? 32)%nat; [discriminate |].
    destruct (scanstring s) as [[v' r'] |] eqn:R; [| discriminate].
    inversion H; subst. now apply scanstring_suffix' in R.
Qed.

Lemma scan_once_length f s v r :
  scan_once f s = Some (v, r) -> (String.length r < String.length s)%nat.
Proof.
  destruct f as [| f]; [discriminate |]. cbn [scan_once].
  destruct s as [| c s]; [discriminate |].
  destruct (Ascii.eqb c "034").
  { destruct (scanstring s) as [[v' r'] |] eqn:R; [| discriminate].
    intros H. inversion H; subst. apply scanstring_length in R. cbn. lia. }
  assert (T : forall t, suffix r t ->
                        (String.length r < String.length (String c t))%nat).
  { intros t H. apply suffix_length in H. cbn. lia. }
  destruct (Ascii.eqb c "{").
  { cbv zeta. intros H. apply T.
    eapply suffix_trans; [| apply skip_ws_suffix].
    destruct (head_is "}" (skip_ws s)) as [r' |] eqn:A.
    { inversion H; subst. eapply head_is_suffix; exact A. }
    destruct (head_is "034" (skip_ws s)) as [r' |] eqn:B; [| discriminate].
    destruct (JSONObject f r') as [[m r''] |] eqn:O; [| discriminate].
    inversion H; subst. apply (proj1 (proj2 (scan_suffix f))) in O.
    eapply suffix_trans; [exact O | eapply head_is_suffix; exact B]. }
  destruct (Ascii.eqb c "[").
  { cbv zeta. intros H. apply T.
    eapply suffix_trans; [| apply skip_ws_suffix].
    destruct (head_is "]" (skip_ws s)) as [r' |] eqn:A.
    { inversion H; subst. eapply head_is_suffix; exact A. }
    destruct (JSONArray f (skip_ws s)) as [[l r''] |] eqn:O; [| discriminate].
    inversion H; subst. now apply (proj2 (proj2 (scan_suffix f))) in O. }
  intros H. eapply scan_literal_length; eassumption.
Qed.

(** Beyond twice the length of the text, more fuel changes no result. *)
Lemma scan_fuel f :
  (forall s g, (2 * String.length s < f)%nat -> (f <= g)%nat ->
               scan_once g s = scan_once f s) /\
  (forall s g, (2 * String.length s + 1 < f)%nat -> (f <= g)%nat ->
               JSONObject g s = JSONObject f s) /\
  (forall s g, (2 * String.length s + 1 < f)%nat -> (f <= g)%nat ->
               JSONArray g s = JSONArray f s).
Proof.
  induction f as [| f (IHv & IHo & IHa)]; [repeat split; intros; lia |].
  repeat split; intros s g L G; (destruct g as [| g]; [lia |]).
  - cbn [scan_once]. destruct s as [| c s]; [reflexivity |].
    cbn [String.length] in L. pose proof (skip_ws_length s) as W.
    destruct (Ascii.eqb c "034"); [reflexivity |].
    destruct (Ascii.eqb c "{").
    { cbv zeta. destruct (head_is "}" (skip_ws s)); [reflexivity |].
      destruct (head_is "034" (skip_ws s)) as [r' |] eqn:B; [| reflexivity].
      apply head_is_length in B. rewrite (IHo r' g) by lia. reflexivity. }
    destruct (Ascii.eqb c "["); [| reflexivity].
    cbv zeta. destruct (head_is "]" (skip_ws s)); [reflexivity |].
    rewrite (IHa (skip_ws s) g) by lia. reflexivity.
  - cbn [JSONObject].
    destruct (scanstring s) as [[key r1] |] eqn:K; [| reflexivity].
    apply scanstring_length in K. pose proof (skip_ws_length r1) as W1.
    destruct (head_is ":" (skip_ws r1)) as [r2 |] eqn:C; [| reflexivity].
    apply head_is_length in C. pose proof (skip_ws_length r2) as W2.
    rewrite (IHv (skip_ws r2) g) by lia.
    destruct (scan_once f (skip_ws r2)) as [[v r3] |] eqn:V; [| reflexivity].
    apply scan_once_length in V. pose proof (skip_ws_length r3) as W3.
    cbv zeta. destruct (head_is "}" (skip_ws r3)); [reflexivity |].
    destruct (head_is "," (skip_ws r3)) as [r5 |] eqn:B; [| reflexivity].
    apply head_is_length in B. pose proof (skip_ws_length r5) as W5.
    destruct (head_is "034" (skip_ws r5)) as [r6 |] eqn:Q; [| reflexivity].
    apply head_is_length in Q.
    rewrite (IHo r6 g) by lia. reflexivity.
  - cbn [JSONArray]. rewrite (IHv s g) by lia.
    destruct (scan_once f s) as [[v r1] |] eqn:V; [| reflexivity].
    apply scan_once_length in V. pose proof (skip_ws_length r1) as W1.
    cbv zeta. destruct (head_is "]" (skip_ws r1)); [reflexivity |].
    destruct (head_is "," (skip_ws r1)) as [r3 |] eqn:B; [| reflexivity].
    apply head_is_length in B. pose proof (skip_ws_length r3) as W3.
    rewrite (IHa (skip_ws r3) g) by lia. reflexivity.
Qed.

(** The decoder does not depend on its bound: any larger fuel gives the same
    value, and the same failures. *)
Lemma decode_fuel s g :
  (2 * String.length s + 2 <= g)%nat ->
  scan_once g (skip_ws s) = scan_once (2 * String.length s + 2) (skip_ws s).
Proof.
  intros G. apply (proj1 (scan_fuel _)); [| exact G].
  pose proof (skip_ws_length s). lia.
Qed.

(** ** Decoded floats are in normal form *)

Lemma scan_number_normal s d r :
  scan_number s = Some (JFloat d, r) -> normal d.
Proof.
  unfold scan_number.
  destruct (match head_is "-" s with Some r' => (true, r') | None => (false, s) end)
    as [b t].
  destruct (scan_int t) as [[i s2] |]; [| discriminate].
  destruct (scan_frac s2) as [[[f lf] s3] |].
  - destruct (scan_exp s3) as [[e s4] |]; intros H; inversion H;
      apply mk_dec_normal.
  - destruct (scan_exp s2) as [[e s4] |]; intros H; inversion H.
    apply mk_dec_normal.
Qed.

Lemma scan_literal_normal s d r :
  scan_literal s = Some (JFloat d, r) -> normal d.
Proof.
  unfold scan_literal.
  repeat match goal with
  | |- context [strip_prefix ?p s] =>
      destruct (strip_prefix p s); [discriminate |]
  | |- context [scan_number s] =>
      let E := fresh "E" in
      destruct (scan_number s) as [[? ?] |] eqn:E;
      [ intros H; inversion H; subst; now apply scan_number_normal in E |]
  end.
  discriminate.
Qed.

Lemma scan_once_normal f s d r :
  scan_once f s = Some (JFloat d, r) -> normal d.
Proof.
  destruct f as [| f]; [discriminate |]. cbn [scan_once].
  destruct s as [| c s]; [discriminate |].
  destruct (Ascii.eqb c "034").
  { destruct (scanstring s) as [[v' r'] |]; discriminate. }
  destruct (Ascii.eqb c "{").
  { cbv zeta. destruct (head_is "}" (skip_ws s)); [discriminate |].
    destruct (head_is "034" (skip_ws s)); [| discriminate].
    destruct (JSONObject f _) as [[m r''] |]; discriminate. }
  destruct (Ascii.eqb c "[").
  { cbv zeta. destruct (head_is "]" (skip_ws s)); [discriminate |].
    destruct (JSONArray f (skip_ws s)) as [[l r''] |]; discriminate. }
  apply scan_literal_normal.
Qed.

Lemma JSONObject_normal f : forall s m r,
  JSONObject f s = Some (m, r) ->
  forall k d, In (k, JFloat d) m -> normal d.
Proof.
  induction f as [| f IH]; intros s m r H; [discriminate |].
  cbn [JSONObject] in H.
  destruct (scanstring s) as [[key r1] |]; [| discriminate].
  destruct (head_is ":" (skip_ws r1)) as [r2 |]; [| discriminate].
  destruct (scan_once f (skip_ws r2)) as [[v r3] |] eqn:V; [| discriminate].
  cbv zeta in H.
  destruct (head_is "}" (skip_ws r3)) as [r5 |].
  { inversion H; subst. intros k d [E | []]. inversion E; subst.
    now apply scan_once_normal in V. }
  destruct (head_is "," (skip_ws r3)) as [r5 |]; [| discriminate].
  destruct (head_is "034" (skip_ws r5)) as [r6 |]; [| discriminate].
  destruct (JSONObject f r6) as [[m' r7] |] eqn:O; [| discriminate].
  inversion H; subst. intros k d [E | E].
  - inversion E; subst. now apply scan_once_normal in V.
  - eapply IH; eauto.
Qed.

Lemma dict_get_In k m v : dict_get k m = Some v -> In (k, v) m.
Proof.
  induction m as [| [k' w] m IH]; cbn; [discriminate |].
  destruct (dict_get k m) as [u |].
  - intros H. inversion H; subst. auto.
  - destruct (String.eqb_spec k' k) as [-> | N]; [| discriminate].
    intros H. inversion H. auto.
Qed.

Lemma decode_normal text m k d :
  decode text = Some (JObj m) -> dict_get k m = Some (JFloat d) -> normal d.
Proof.
  unfold decode.
  destruct (scan_once _ (skip_ws text)) as [[v r] |] eqn:V; [| discriminate].
  destruct (skip_ws r); [| discriminate]. intros H G. inversion H; subst.
  apply dict_get_In in G.
  destruct (2 * String.length text + 2)%nat as [| f]; [discriminate |].
  cbn [scan_once] in V.
  destruct (skip_ws text) as [| c s]; [discriminate |].
  destruct (Ascii.eqb c "034").
  { destruct (scanstring s) as [[v' r'] |]; discriminate. }
  destruct (Ascii.eqb c "{").
  { cbv zeta in V. destruct (head_is "}" (skip_ws s)).
    { inversion V; subst. destruct G. }
    destruct (head_is "034" (skip_ws s)); [| discriminate].
    destruct (JSONObject f _) as [[m' r''] |] eqn:O; [| discriminate].
    inversion V; subst. eapply JSONObject_normal; eauto. }
  destruct (Ascii.eqb c "[").
  { cbv zeta in V. destruct (head_is "]" (skip_ws s)); [discriminate |].
    destruct (JSONArray f (skip_ws s)) as [[l r''] |]; discriminate. }
  apply scan_literal_spec in V. cbn in V. destruct V. discriminate.
Qed.

Lemma output_dict_normal text m k d :
  output_dict_of text = Returned (JObj m) ->
  dict_get k m = Some (JFloat d) -> normal d.
Proof.
  unfold output_dict_of, loads.
  destruct (decode text) as [v |] eqn:D.
  - intros H. inversion H; subst. eapply decode_normal; eauto.
  - destruct (negb _ && negb _); [| discriminate].
    destruct (decode (slice _ _ _)) as [v |] eqn:D'; [| discriminate].
    intros H. inversion H; subst. eapply decode_normal; eauto.
Qed.

(** ** Validating a record again *)

Lemma str_items_strs name l : forall i,
  str_items name i (map JStr l) = inl l.
Proof.
  induction l as [| x l IH]; intros i; cbn; [reflexivity |].
  now rewrite IH.
Qed.

Lemma init_model_dump y :
  dec_leb dec_0 (sentiment_score y) = true ->
  dec_leb (sentiment_score y) dec_1 = true ->
  init (model_dump y) = Returned y.
Proof.
  destruct y as [a r d l n]. cbn [sentiment_score]. intros G L.
  unfold model_dump, init.
  cbn [asset risk_level sentiment_score tools_used analysis].
  cbn [dict_get String.eqb Ascii.eqb Bool.eqb].
  cbn [str_field float_field list_str_field]. unfold bounded.
  rewrite G, L. cbn [negb]. rewrite str_items_strs.
  destruct n; reflexivity.
Qed.

Lemma settled_valid x a :
  valid_report x -> valid_report (settled x a) /\
  sentiment_score (settled x a) = sentiment_score x /\
  settled (settled x a) a = settled x a.
Proof.
  unfold settled. intros V.
  destruct (upper (asset x) =? upper a)%string eqn:U; cbn [negb].
  - rewrite U. auto.
  - cbn [set_asset asset]. rewrite upper_idem, String.eqb_refl. cbn [negb].
    repeat split; apply V.
Qed.

Lemma decode_model_dump y :
  normal (sentiment_score y) ->
  dec_leb dec_0 (sentiment_score y) = true ->
  dec_leb (sentiment_score y) dec_1 = true ->
  decode (dumps (model_dump y)) = Some (model_dump y).
Proof.
  intros N G L.
  exact (decode_report "asset" "risk_level" "sentiment_score" "tools_used"
           "analysis" (asset y) (risk_level y) (sentiment_score y)
           (tools_used y) (analysis y) N G L).
Qed.

(** C8: validation is idempotent.  The serialization of a record that the
    routine returned for a requested asset is accepted by the routine for the
    same asset, and the record returned is the same. *)
Theorem validation_is_idempotent text a r :
  _parse_and_validate_output text a = Returned r ->
  _parse_and_validate_output (dumps r) a = Returned r.
Proof.
  intros H. apply parse_and_validate_returned in H.
  destruct H as (d & x & Hd & Hi & V & ->).
  assert (N : normal (sentiment_score x)).
  { apply init_returned in Hi. destruct Hi as (m & -> & _ & _ & F & _).
    apply float_field_inl in F.
    destruct F as (_ & _ & [F | (z & _ & ->)]); [| left; reflexivity].
    eapply output_dict_normal; eauto. }
  destruct (settled_valid x a V) as (V' & S' & I').
  destruct V' as (R' & G' & L').
  unfold _parse_and_validate_output, output_dict_of, loads.
  rewrite decode_model_dump by first [assumption | rewrite S'; assumption].
  cbn [bind].
  rewrite init_model_dump by auto. cbn [bind].
  unfold validate_risk_level.
  replace (existsb (String.eqb (risk_level (settled x a))) risk_levels)
    with true.
  2:{ symmetry. apply existsb_exists. eexists. split; [exact R' |].
      apply String.eqb_refl. }
  cbn [negb bind]. fold (settled (settled x a) a). now rewrite I'.
Qed.

Lemma validation_is_idempotent_witness :
  _parse_and_validate_output
    (dumps (JObj [("asset", JStr "BTC"); ("risk_level", JStr "Low");
                  ("sentiment_score", JFloat {| dmant := 8; dscale := 1 |});
                  ("tools_used", JArr [JStr "get_market_price"]);
                  ("analysis", JNull)]))
    "btc"
  = Returned (JObj [("asset", JStr "BTC"); ("risk_level", JStr "Low");
                    ("sentiment_score", JFloat {| dmant := 8; dscale := 1 |});
                    ("tools_used", JArr [JStr "get_market_price"]);
                    ("analysis", JNull)]).
Proof.
  apply (validation_is_idempotent ("Result: " ++ valid_text)).
  vm_compute. reflexivity.
Defined.
Import Tools.

(** ** The tools *)

Lemma base_data_fields key :
  exists b vol,
    match dict_get key mock_prices with
    | Some d => d
    | None => default_prices
    end = JObj [("base", JInt b); ("volatility", JStr vol)].
Proof.
  unfold mock_prices, default_prices. cbn [dict_get].
  repeat match goal with
         | |- context [String.eqb ?a key] => destruct (String.eqb a key)
         end; eauto.
Qed.

(** C9: the operation [execute] of each registered tool returns a dictionary
    for every asset string (the empty one included) and every state of the
    generator, and does not raise; the dictionary carries the upper-cased
    asset.  An asset that is not a key of [mock_prices] is priced from the
    default parameters: base 1000 and volatility medium. *)
Theorem tools_never_raise :
  map name AVAILABLE_TOOLS = ["get_market_price"; "get_internal_sentiment"] /\
  Forall (fun t => forall R a k, exists m k',
            execute t R a k = (Returned (JObj m), k') /\
            dict_get "asset" m = Some (JStr (upper a)))
         AVAILABLE_TOOLS /\
  (forall R a k,
     dict_get (upper a) mock_prices = None ->
     exists change volume k',
       GetMarketPriceTool_execute R a k
       = (Returned
            (JObj [("asset", JStr (upper a));
                   ("price_usd",
                    round2 (inject_Z 1000 +
                            fst (uniform R (- inject_Z 1000 * (5 # 100))
                                         (inject_Z 1000 * (5 # 100)) k))%Q);
                   ("change_24h_percent", change);
                   ("volume_24h_usd", volume);
                   ("volatility", JStr "medium")]), k')).
Proof.
  split; [reflexivity |]. split.
  - repeat constructor.
    + intros R a k. cbn [execute GetMarketPriceTool].
      unfold GetMarketPriceTool_execute.
      destruct (base_data_fields (upper a)) as (b & vol & ->).
      eexists _, _. split; reflexivity.
    + intros R a k. cbn [execute GetInternalSentimentTool].
      unfold GetInternalSentimentTool_execute. cbn [uniform].
      destruct (Qltb _ (4 # 10)); [| destruct (Qltb _ (6 # 10))];
        eexists _, _; split; reflexivity.
  - intros R a k H. unfold GetMarketPriceTool_execute. rewrite H.
    eexists _, _, _. reflexivity.
Qed.

Lemma tools_never_raise_witness :
  exists change volume k',
    GetMarketPriceTool_execute (fun _ => 1 # 2)%Q "unknown" 0
    = (Returned
         (JObj [("asset", JStr (upper "unknown"));
                ("price_usd",
                 round2 (inject_Z 1000 +
                         fst (uniform (fun _ => 1 # 2)%Q
                                      (- inject_Z 1000 * (5 # 100))
                                      (inject_Z 1000 * (5 # 100)) 0))%Q);
                ("change_24h_percent", change);
                ("volume_24h_usd", volume);
                ("volatility", JStr "medium")]), k').
Proof.
  destruct tools_never_raise as (_ & _ & H).
  apply (H (fun _ => 1 # 2)%Q "unknown" 0%nat). reflexivity.
Defined.

Example unknown_asset_price :
  GetMarketPriceTool_execute (fun _ => 1 # 2)%Q "unknown" 0
  = (Returned
       (JObj [("asset", JStr "UNKNOWN");
              ("price_usd", JFloat {| dmant := 1000; dscale := 0 |});
              ("change_24h_percent", JFloat {| dmant := 0; dscale := 0 |});
              ("volume_24h_usd", JFloat {| dmant := 25500000; dscale := 0 |});
              ("volatility", JStr "medium")]), 3%nat).
Proof. vm_compute. reflexivity. Qed.

(** ** Scenarios of the test suite *)

(** [test_parse_and_validate_output_valid] *)
Example parse_and_validate_output_valid :
  _parse_and_validate_output
    (quoted "{'asset': 'BTC', 'risk_level': 'High', 'sentiment_score': 0.3, 'tools_used': ['get_market_price'], 'analysis': 'Test'}")
    "BTC"
  = Returned (JObj [("asset", JStr "BTC"); ("risk_level", JStr "High");
                    ("sentiment_score", JFloat {| dmant := 3; dscale := 1 |});
                    ("tools_used", JArr [JStr "get_market_price"]);
                    ("analysis", JStr "Test")]).
Proof. vm_compute. reflexivity. Qed.

(** [test_parse_and_validate_output_invalid_risk_level] expects a
    [ValidationError]; the method [validate_risk_level] raises a plain
    [ValueError]. *)
Example parse_and_validate_output_invalid_risk_level :
  _parse_and_validate_output
    (quoted "{'asset': 'BTC', 'risk_level': 'Invalid', 'sentiment_score': 0.5, 'tools_used': []}")
    "BTC"
  = Raised (ValueError
              "Invalid risk_level: Invalid. Must be Low, Medium, or High").
Proof. vm_compute. reflexivity. Qed.

(** [test_agent_calls_multiple_tools]: the calls keep the order of the
    steps. *)
Example agent_calls_multiple_tools :
  let steps := [(used "get_market_price", "45000");
                (used "get_internal_sentiment", "0.7")] in
  exists r w,
    research (scripted (answer valid_text steps) (answer valid_text []))
             "BTC" 3 world0 = (Returned r, w) /\
    tool_calls r = map tool_call_of steps /\
    agent_steps r = map agent_step_of steps /\
    invocations w = 1%nat.
Proof.
  eexists _, _. split; [vm_compute; reflexivity |].
  repeat split.
Qed.

(** * Further properties *)

(** ** The retry loop, in general *)

Section Retries.

Variable E : Env.
Variable asset : string.
Variable max_retries : Z.
Variable start_time : Q.

Let prompt := get_research_prompt asset.

Lemma invocations_add_0 w : (invocations w + 0)%nat = invocations w.
Proof. lia. Qed.

(** Attempts that end in an error of pydantic are followed by the next
    attempt; the first attempt that validates ends the run. *)
Lemma attempts_retry k : forall n attempt steps calls w v,
  (k < n)%nat -> attempt + Z.of_nat n = max_retries ->
  (forall j, (j < k)%nat -> exists e,
     attempt_result (invoke E (invocations w + j) prompt) asset = Raised e /\
     is_ValidationError e = true) ->
  attempt_result (invoke E (invocations w + k) prompt) asset = Returned v ->
  exists r w',
    attempts E asset max_retries start_time n attempt steps calls w
      = (Returned r, w') /\
    output r = v /\ invocations w' = (invocations w + k + 1)%nat.
Proof.
  induction k as [| k IH]; intros n attempt steps calls w v Hk Hn Hfail Hok;
    (destruct n as [| n]; [lia |]); rewrite attempts_S; cbv zeta; fold prompt.
  - rewrite invocations_add_0 in Hok. rewrite Hok.
    eexists _, _. split; [reflexivity |]. cbn. split; [reflexivity | lia].
  - destruct (Hfail 0%nat) as (e & He & Hv); [lia |].
    rewrite invocations_add_0 in He. rewrite He, Hv.
    replace (attempt =? max_retries - 1) with false
      by (symmetry; apply Z.eqb_neq; lia).
    destruct (IH n (attempt + 1) 
                (steps ++ map agent_step_of
                   (trace_of (invoke E (invocations w) prompt)))%list
                (calls ++ map tool_call_of
                   (trace_of (invoke E (invocations w) prompt)))%list
                (invoked w) v) as (r & w' & Hr & Ho & Hi).
    + lia.
    + lia.
    + intros j Hj. destruct (Hfail (S j)) as (e' & He' & Hv'); [lia |].
      exists e'. cbn [invoked invocations].
      replace (S (invocations w) + j)%nat with (invocations w + S j)%nat by lia.
      auto.
    + cbn [invoked invocations].
      replace (S (invocations w) + k)%nat with (invocations w + S k)%nat by lia.
      exact Hok.
    + exists r, w'. split; [exact Hr |]. split; [exact Ho |].
      cbn [invoked invocations] in Hi. lia.
Qed.

(** When every attempt of the budget ends in an error of pydantic, the last
    one is reported. *)
Lemma attempts_exhausted n : forall attempt steps calls w,
  (0 < n)%nat -> attempt + Z.of_nat n = max_retries ->
  (forall j, (j < n)%nat -> exists e,
     attempt_result (invoke E (invocations w + j) prompt) asset = Raised e /\
     is_ValidationError e = true) ->
  exists e w',
    attempt_result (invoke E (invocations w + n - 1) prompt) asset = Raised e /\
    attempts E asset max_retries start_time n attempt steps calls w
      = (Raised (Exception ("Failed to generate valid output after "
                            ++ str_int max_retries ++ " attempts: "
                            ++ str_exn e)), w') /\
    invocations w' = (invocations w + n)%nat.
Proof.
  induction n as [| n IH]; intros attempt steps calls w Hn Ha Hfail; [lia |].
  rewrite attempts_S; cbv zeta; fold prompt.
  destruct (Hfail 0%nat) as (e & He & Hv); [lia |].
  rewrite invocations_add_0 in He. rewrite He, Hv.
  destruct n as [| n].
  - replace (attempt =? max_retries - 1) with true
      by (symmetry; apply Z.eqb_eq; lia).
    exists e. eexists. split; [| split; [reflexivity | cbn; lia]].
    replace (invocations w + 1 - 1)%nat with (invocations w) by lia. exact He.
  - replace (attempt =? max_retries - 1) with false
      by (symmetry; apply Z.eqb_neq; lia).
    destruct (IH (attempt + 1)
                (steps ++ map agent_step_of
                   (trace_of (invoke E (invocations w) prompt)))%list
                (calls ++ map tool_call_of
                   (trace_of (invoke E (invocations w) prompt)))%list
                (invoked w)) as (e' & w' & He' & Hr & Hi).
    + lia.
    + lia.
    + intros j Hj. destruct (Hfail (S j)) as (e'' & He'' & Hv''); [lia |].
      exists e''. cbn [invoked invocations].
      replace (S (invocations w) + j)%nat with (invocations w + S j)%nat by lia.
      auto.
    + exists e', w'. cbn [invoked invocations] in He', Hi.
      replace (invocations w + S (S n) - 1)%nat
        with (S (invocations w) + S n - 1)%nat by lia.
      split; [exact He' |]. split; [exact Hr | lia].
Qed.

(** An attempt that ends in any other error ends the run. *)
Lemma attempts_other_error n : forall attempt steps calls w out w' k e,
  attempts E asset max_retries start_time n attempt steps calls w = (out, w') ->
  (invocations w <= k < invocations w')%nat ->
  attempt_result (invoke E k prompt) asset = Raised e ->
  is_ValidationError e = false ->
  out = Raised e /\ invocations w' = S k.
Proof.
  induction n as [| n IH]; intros attempt steps calls w out w' k e H Hk Hf Hv.
  - cbn in H. inversion H; subst. lia.
  - rewrite attempts_S in H. cbv zeta in H. fold prompt in H.
    destruct (Nat.eq_dec k (invocations w)) as [-> | Hne].
    + rewrite Hf, Hv in H. inversion H; subst. auto.
    + assert (Hstop : forall o : result ResearchResult,
                 (out, w') = (o, snd (tick E (invoked w))) -> False).
      { intros o Ho. inversion Ho; subst. cbn in Hk. lia. }
      destruct (attempt_result _ asset) as [v | e'].
      * exfalso. eapply Hstop. symmetry. exact H.
      * destruct (is_ValidationError e').
        -- destruct (attempt =? max_retries - 1).
           ++ exfalso. eapply Hstop. symmetry. exact H.
           ++ eapply IH; eauto. cbn. lia.
        -- exfalso. eapply Hstop. symmetry. exact H.
Qed.

End Retries.

(** A run makes at most [max_retries] invocations of the driver. *)
Lemma research_invocations_bound_witness :
  exists out w',
    research second_try "BTC" 2 world0 = (out, w') /\
    (invocations w' <= invocations world0 + Z.to_nat 2)%nat.
Proof.
  eexists _, _. split; [vm_compute; reflexivity |].
  apply (research_invocations_bound second_try "BTC" 2 world0
           _ _ ltac:(vm_compute; reflexivity)).
Defined.

(** X2: With no budget ([max_retries <= 0]) the loop body never runs: the
    driver is not invoked and the error after the loop is raised. *)
Theorem research_without_budget E asset max_retries w :
  max_retries <= 0 ->
  research E asset max_retries w
  = (Raised (Exception "Research failed unexpectedly"), snd (tick E w)).
Proof.
  intros H. unfold research. cbn [tick snd].
  replace (Z.to_nat max_retries) with 0%nat by lia. reflexivity.
Qed.

Lemma research_without_budget_witness :
  research second_try "BTC" (-1) world0
  = (Raised (Exception "Research failed unexpectedly"),
     snd (tick second_try world0)).
Proof. apply research_without_budget. lia. Defined.

(** X3: Errors of pydantic are retried: when the first [k] attempts of a run
    end in a [ValidationError] (of the schema, or raised by the driver), [k]
    is below [max_retries] and attempt [k + 1] validates, [research] returns
    the output of that attempt after exactly [k + 1] invocations. *)
Theorem research_retries_schema_errors E asset max_retries w k v :
  Z.of_nat k < max_retries ->
  (forall j, (j < k)%nat -> exists e,
     attempt_result
       (invoke E (invocations w + j) (get_research_prompt asset)) asset
       = Raised e /\
     is_ValidationError e = true) ->
  attempt_result (invoke E (invocations w + k) (get_research_prompt asset)) asset
    = Returned v ->
  exists r w',
    research E asset max_retries w = (Returned r, w') /\
    output r = v /\ invocations w' = (invocations w + k + 1)%nat.
Proof.
  intros Hk Hfail Hok. unfold research. cbn [tick].
  destruct (attempts_retry E asset max_retries (time_time E (clock_reads w)) k
              (Z.to_nat max_retries) 0 [] []
              {| invocations := invocations w;
                 clock_reads := S (clock_reads w) |} v)
    as (r & w' & H1 & H2 & H3); [lia | lia | exact Hfail | exact Hok |].
  exists r, w'. auto.
Qed.

Lemma research_retries_schema_errors_witness :
  exists r w',
    research second_try "BTC" 3 world0 = (Returned r, w') /\
    output r
    = JObj [("asset", JStr "BTC"); ("risk_level", JStr "Low");
            ("sentiment_score", JFloat {| dmant := 8; dscale := 1 |});
            ("tools_used", JArr [JStr "get_market_price"]);
            ("analysis", JNull)] /\
    invocations w' = (invocations world0 + 1 + 1)%nat.
Proof.
  apply (research_retries_schema_errors second_try "BTC" 3 world0 1).
  - lia.
  - intros j Hj. assert (j = 0)%nat as -> by lia.
    eexists. split; vm_compute; reflexivity.
  - vm_compute. reflexivity.
Defined.

(** X4: When each of the [max_retries] attempts (at least one) ends in a
    [ValidationError], [research] raises after exactly [max_retries]
    invocations, and the message names [max_retries] and the text of the last
    error. *)
Theorem research_exhausts_retries E asset max_retries w :
  0 < max_retries ->
  (forall j, (j < Z.to_nat max_retries)%nat -> exists e,
     attempt_result
       (invoke E (invocations w + j) (get_research_prompt asset)) asset
       = Raised e /\
     is_ValidationError e = true) ->
  exists e w',
    attempt_result
      (invoke E (invocations w + Z.to_nat max_retries - 1)
              (get_research_prompt asset)) asset = Raised e /\
    research E asset max_retries w
    = (Raised (Exception ("Failed to generate valid output after "
                          ++ str_int max_retries ++ " attempts: "
                          ++ str_exn e)), w') /\
    invocations w' = (invocations w + Z.to_nat max_retries)%nat.
Proof.
  intros Hm Hfail. unfold research. cbn [tick].
  destruct (attempts_exhausted E asset max_retries
              (time_time E (clock_reads w)) (Z.to_nat max_retries) 0 [] []
              {| invocations := invocations w;
                 clock_reads := S (clock_reads w) |})
    as (e & w' & H1 & H2 & H3); [lia | lia | exact Hfail |].
  exists e, w'. auto.
Qed.

Lemma research_exhausts_retries_witness :
  exists e w',
    attempt_result
      (invoke always_out_of_range (invocations world0 + Z.to_nat 3 - 1)
              (get_research_prompt "BTC")) "BTC" = Raised e /\
    research always_out_of_range "BTC" 3 world0
    = (Raised (Exception ("Failed to generate valid output after "
                          ++ str_int 3 ++ " attempts: " ++ str_exn e)), w') /\
    invocations w' = (invocations world0 + Z.to_nat 3)%nat.
Proof.
  apply (research_exhausts_retries always_out_of_range "BTC" 3 world0).
  - lia.
  - intros j Hj. eexists.
    assert (C : (j = 0 \/ j = 1 \/ j = 2)%nat) by lia.
    destruct C as [-> | [-> | ->]]; split; vm_compute; reflexivity.
Defined.

(** X5: Any other error ends the run: when an attempt that the run makes ends
    in an error that is no [ValidationError] of pydantic, be it raised by the
    driver or by the validation of its text, [research] raises that error and
    makes no further invocation. *)
Theorem research_other_error_is_terminal E asset max_retries w out w' k e :
  research E asset max_retries w = (out, w') ->
  (invocations w <= k < invocations w')%nat ->
  attempt_result (invoke E k (get_research_prompt asset)) asset = Raised e ->
  is_ValidationError e = false ->
  out = Raised e /\ invocations w' = S k.
Proof.
  unfold research. cbn [tick]. intros H Hk Hf Hv.
  eapply attempts_other_error in H; eauto.
Qed.

Lemma research_other_error_is_terminal_witness :
  exists w',
    research (scripted (answer out_of_range_text []) (answer bad_risk_text []))
             "BTC" 5 world0
    = (Raised (ValueError
                 "Invalid risk_level: Critical. Must be Low, Medium, or High"),
       w') /\
    invocations w' = 2%nat.
Proof.
  eexists.
  assert (H : research (scripted (answer out_of_range_text [])
                                 (answer bad_risk_text [])) "BTC" 5 world0
              = (Raised (ValueError
                   "Invalid risk_level: Critical. Must be Low, Medium, or High"),
                 {| invocations := 2; clock_reads := 2 |}))
    by (vm_compute; reflexivity).
  split; [exact H |].
  apply (research_other_error_is_terminal _ _ _ _ _ _ 1%nat
           (ValueError
              "Invalid risk_level: Critical. Must be Low, Medium, or High") H);
    [cbn; lia | vm_compute; reflexivity | reflexivity].
Defined.

(** ** The validator, in general *)

Lemma str_items_inl name l : forall i r,
  str_items name i l = inl r -> l = map JStr r.
Proof.
  induction l as [| x l IH]; intros i r; cbn.
  - intros H. inversion H. reflexivity.
  - destruct x; destruct (str_items name (i + 1) l) eqn:S; try discriminate.
    intros H. inversion H; subst. cbn. f_equal. eapply IH. exact S.
Qed.

Lemma returned_asset_agrees_up_to_case_witness :
  exists m s,
    JObj [("asset", JStr "btc"); ("risk_level", JStr "Low");
          ("sentiment_score", JFloat {| dmant := 8; dscale := 1 |});
          ("tools_used", JArr []); ("analysis", JNull)] = JObj m /\
    dict_get "asset" m = Some (JStr s) /\ upper s = upper "BTC".
Proof.
  apply (returned_asset_agrees_up_to_case
           (quoted "{'asset': 'btc', 'risk_level': 'Low', 'sentiment_score': 0.8, 'tools_used': []}")
           "BTC").
  vm_compute. reflexivity.
Defined.

(** X7: The record that the routine returns has the five keys of the schema,
    in its order, whatever other keys the text carried; its risk level is one
    of the three, its score a float between 0 and 1, its tools a list of
    strings, its analysis a string or null. *)
Theorem returned_record_is_well_formed text a r :
  _parse_and_validate_output text a = Returned r ->
  exists s rl d tu an,
    r = JObj [("asset", JStr s); ("risk_level", JStr rl);
              ("sentiment_score", JFloat d);
              ("tools_used", JArr (map JStr tu)); ("analysis", an)] /\
    In rl ["Low"; "Medium"; "High"] /\
    dec_leb dec_0 d = true /\ dec_leb d dec_1 = true /\
    (an = JNull \/ exists t, an = JStr t).
Proof.
  intros H. apply parse_and_validate_returned in H.
  destruct H as (d & x & _ & _ & (R & G & L) & ->).
  assert (S : forall y, risk_level (settled x y) = risk_level x /\
                        sentiment_score (settled x y) = sentiment_score x /\
                        tools_used (settled x y) = tools_used x /\
                        analysis (settled x y) = analysis x).
  { intros y. unfold settled. destruct (negb _); auto. }
  destruct (S a) as (S1 & S2 & S3 & S4).
  unfold model_dump. rewrite S1, S2, S3, S4.
  eexists _, _, _, _, _. split; [reflexivity |]. repeat split; auto.
  destruct (analysis x); eauto.
Qed.

Lemma returned_record_is_well_formed_witness :
  exists s rl d tu an,
    JObj [("asset", JStr "BTC"); ("risk_level", JStr "Low");
          ("sentiment_score", JFloat {| dmant := 8; dscale := 1 |});
          ("tools_used", JArr [JStr "get_market_price"]);
          ("analysis", JNull)]
    = JObj [("asset", JStr s); ("risk_level", JStr rl);
            ("sentiment_score", JFloat d);
            ("tools_used", JArr (map JStr tu)); ("analysis", an)] /\
    In rl ["Low"; "Medium"; "High"] /\
    dec_leb dec_0 d = true /\ dec_leb d dec_1 = true /\
    (an = JNull \/ exists t, an = JStr t).
Proof.
  apply (returned_record_is_well_formed
           (quoted "{'asset': 'BTC', 'risk_level': 'Low', 'sentiment_score': 0.8, 'tools_used': ['get_market_price'], 'note': 7}")
           "BTC").
  vm_compute. reflexivity.
Defined.

(** X8: The routine changes nothing but the asset: the risk level, the tools
    and the analysis of the record are those of the decoded dictionary (an
    absent analysis becomes null); a score that was decoded as a float is
    kept, and one that was decoded as an integer is converted to a float. *)
Theorem returned_record_keeps_decoded_fields text a m r :
  output_dict_of text = Returned (JObj m) ->
  _parse_and_validate_output text a = Returned (JObj r) ->
  dict_get "risk_level" r = dict_get "risk_level" m /\
  dict_get "tools_used" r = dict_get "tools_used" m /\
  (dict_get "analysis" r = dict_get "analysis" m \/
   dict_get "analysis" m = None /\ dict_get "analysis" r = Some JNull) /\
  (forall d, dict_get "sentiment_score" m = Some (JFloat d) ->
             dict_get "sentiment_score" r = Some (JFloat d)) /\
  (forall z, dict_get "sentiment_score" m = Some (JInt z) ->
             dict_get "sentiment_score" r = Some (JFloat (dec_of_int z))).
Proof.
  intros Hm H. apply parse_and_validate_returned in H.
  destruct H as (d & x & Hd & Hi & _ & Hr).
  rewrite Hm in Hd. inversion Hd; subst d. clear Hd.
  apply init_returned in Hi. destruct Hi as (m' & E & _ & R & F & U & N).
  inversion E; subst m'. clear E.
  assert (S : risk_level (settled x a) = risk_level x /\
              sentiment_score (settled x a) = sentiment_score x /\
              tools_used (settled x a) = tools_used x /\
              analysis (settled x a) = analysis x).
  { unfold settled. destruct (negb _); auto. }
  destruct S as (S1 & S2 & S3 & S4).
  unfold model_dump in Hr. rewrite S1, S2, S3, S4 in Hr.
  inversion Hr; subst r. clear Hr.
  cbn [dict_get String.eqb Ascii.eqb Bool.eqb].
  repeat split.
  - destruct (dict_get "risk_level" m) as [[] |]; cbn in R; try discriminate.
    now inversion R.
  - destruct (dict_get "tools_used" m) as [[] |]; cbn in U; try discriminate.
    apply str_items_inl in U. now subst.
  - destruct (dict_get "analysis" m) as [[] |]; cbn in N; try discriminate;
      inversion N; auto.
  - intros d0 Hs. apply float_field_inl in F.
    destruct F as (_ & _ & [F | (z & F & E)]); congruence.
  - intros z0 Hs. apply float_field_inl in F.
    destruct F as (_ & _ & [F | (z & F & E)]); congruence.
Qed.

Lemma returned_record_keeps_decoded_fields_witness :
  dict_get "tools_used"
    [("asset", JStr "BTC"); ("risk_level", JStr "Low");
     ("sentiment_score", JFloat (dec_of_int 1));
     ("tools_used", JArr [JStr "get_market_price"]); ("analysis", JNull)]
  = dict_get "tools_used"
      [("asset", JStr "BTC"); ("risk_level", JStr "Low");
       ("sentiment_score", JInt 1);
       ("tools_used", JArr [JStr "get_market_price"])].
Proof.
  apply (returned_record_keeps_decoded_fields
           (quoted "{'asset': 'BTC', 'risk_level': 'Low', 'sentiment_score': 1, 'tools_used': ['get_market_price']}")
           "BTC");
    vm_compute; reflexivity.
Defined.

(** X9: The requested asset counts only through its upper-cased form. *)
Theorem requested_asset_case_is_irrelevant text a :
  _parse_and_validate_output text (upper a)
  = _parse_and_validate_output text a.
Proof.
  unfold _parse_and_validate_output. now rewrite upper_idem.
Qed.

(** X10: A dictionary that lacks one of the four required fields is refused
    with a [ValidationError] of pydantic, the class that [research] retries,
    and the error names the field. *)
Theorem missing_field_is_a_validation_error text a m f :
  output_dict_of text = Returned (JObj m) ->
  In f ["asset"; "risk_level"; "sentiment_score"; "tools_used"] ->
  dict_get f m = None ->
  exists errs,
    _parse_and_validate_output text a
    = Raised (ValidationError "MarketResearchOutput" errs) /\
    In {| loc := f; type_ := "missing" |} errs.
Proof.
  intros Hm Hf Hn. unfold _parse_and_validate_output. rewrite Hm.
  cbn [bind]. unfold init.
  set (fa := str_field "asset" (dict_get "asset" m)).
  set (fr := str_field "risk_level" (dict_get "risk_level" m)).
  set (fs := float_field "sentiment_score" (dict_get "sentiment_score" m)).
  set (fu := list_str_field "tools_used" (dict_get "tools_used" m)).
  set (fn := optional_str_field "analysis" (dict_get "analysis" m)).
  assert (X : exists es, In {| loc := f; type_ := "missing" |} es /\
                (fa = inr es \/ fr = inr es \/ fs = inr es \/ fu = inr es)).
  { cbn [In] in Hf.
    destruct Hf as [H1 | [H1 | [H1 | [H1 | H1]]]]; [| | | | contradiction];
      subst f;
      (eexists [ {| loc := _; type_ := "missing" |} ]);
      (split; [left; reflexivity |]);
      subst fa fr fs fu; rewrite Hn; cbn; auto. }
  clearbody fa fr fs fu fn. destruct X as (es & Hin & X).
  exists (errors_of fa ++ errors_of fr ++ errors_of fs ++ errors_of fu
          ++ errors_of fn)%list.
  split.
  - destruct X as [X | [X | [X | X]]]; rewrite X;
      destruct fa, fr, fs, fu, fn; try discriminate; reflexivity.
  - rewrite !in_app_iff.
    destruct X as [X | [X | [X | X]]]; rewrite X; cbn [errors_of]; auto 6.
Qed.

Lemma missing_field_is_a_validation_error_witness :
  exists errs,
    _parse_and_validate_output
      (quoted "{'asset': 'BTC', 'risk_level': 'Low', 'sentiment_score': 0.5}")
      "BTC"
    = Raised (ValidationError "MarketResearchOutput" errs) /\
    In {| loc := "tools_used"; type_ := "missing" |} errs.
Proof.
  apply (missing_field_is_a_validation_error _ _
           [("asset", JStr "BTC"); ("risk_level", JStr "Low");
            ("sentiment_score", JFloat {| dmant := 5; dscale := 1 |})]).
  - vm_compute. reflexivity.
  - cbn. auto.
  - reflexivity.
Defined.

(** ** Prose around the braces *)

Lemma find_absent_cons c d p :
  find c (String d p) = -1 -> Ascii.eqb d c = false /\ find c p = -1.
Proof.
  intros H. destruct (Ascii.eqb_spec d c) as [-> | N].
  - exfalso. apply (proj2 (find_cons c c p)); auto.
  - split; [reflexivity |].
    destruct (Z.eq_dec (find c p) (-1)) as [E | E]; [exact E |].
    exfalso. apply (proj2 (find_cons c d p)); auto.
Qed.

Lemma find_app_absent c p r :
  find c p = -1 -> find c (p ++ String c r) = Z.of_nat (String.length p).
Proof.
  induction p as [| d p IH]; intros H.
  - cbn. now rewrite Ascii.eqb_refl.
  - apply find_absent_cons in H. destruct H as (N & H).
    cbn [append find String.length]. rewrite N, (IH H).
    destruct (Z.of_nat (String.length p) =? -1) eqn:E; lia.
Qed.

Lemma rfind_app_absent c s q :
  rfind c q = -1 -> rfind c (s ++ String c q) = Z.of_nat (String.length s).
Proof.
  intros H. induction s as [| d s IH].
  - cbn. now rewrite H, Ascii.eqb_refl.
  - cbn [append rfind String.length]. rewrite IH.
    destruct (Z.of_nat (String.length s) =? -1) eqn:E; lia.
Qed.

Lemma substring_0_app (j q : string) :
  substring 0 (String.length j) (j ++ q) = j.
Proof.
  induction j as [| c j IH]; cbn.
  - destruct q; reflexivity.
  - now rewrite IH.
Qed.

Lemma substring_app (p j q : string) :
  substring (String.length p) (String.length j) (p ++ j ++ q) = j.
Proof.
  induction p as [| c p IH]; cbn; [apply substring_0_app | exact IH].
Qed.

Lemma substring_empty n s : substring n 0 s = "".
Proof.
  revert n. induction s as [| c s IH]; intros [| n]; cbn; auto.
Qed.

(** The extraction finds a text that sits between prose without braces. *)
Lemma output_dict_of_wrapped json_loads p body q :
  find "{" p = -1 -> rfind "}" q = -1 ->
  json_loads (p ++ String "{" (body ++ String "}" q)) = Raised JSONDecodeError ->
  output_dict_of_with json_loads (p ++ String "{" (body ++ String "}" q))
  = json_loads (String "{" (body ++ "}")).
Proof.
  intros Hp Hq D. unfold output_dict_of_with. rewrite D.
  assert (Er : rfind "}" (p ++ String "{" (body ++ String "}" q))
               = Z.of_nat (String.length p + S (String.length body))).
  { replace (p ++ String "{" (body ++ String "}" q))
      with ((p ++ String "{" body) ++ String "}" q)
      by (now rewrite append_assoc).
    rewrite (rfind_app_absent _ _ _ Hq), length_append. reflexivity. }
  rewrite (find_app_absent _ _ _ Hp), Er.
  replace (negb (Z.of_nat (String.length p) =? -1)) with true
    by (symmetry; apply negb_true_iff, Z.eqb_neq; lia).
  replace (negb (Z.of_nat (String.length p + S (String.length body)) =? -1))
    with true by (symmetry; apply negb_true_iff, Z.eqb_neq; lia).
  cbn [andb]. f_equal. unfold slice.
  replace (Z.to_nat (Z.of_nat (String.length p + S (String.length body)) + 1)
           - Z.to_nat (Z.of_nat (String.length p)))%nat
    with (String.length (String "{" (body ++ "}")))
    by (cbn [String.length]; rewrite length_append; cbn; lia).
  rewrite Nat2Z.id.
  replace (p ++ String "{" (body ++ String "}" q))
    with (p ++ String "{" (body ++ "}") ++ q)
    by (cbn [append]; now rewrite append_assoc).
  apply substring_app.
Qed.

(** On a text that starts and ends with its braces the extraction is of no
    effect: the second decoding is that of the same text. *)
Lemma output_dict_of_braced json_loads body :
  output_dict_of_with json_loads (String "{" (body ++ "}"))
  = json_loads (String "{" (body ++ "}")).
Proof.
  destruct (json_loads (String "{" (body ++ "}"))) as [v | e] eqn:H.
  - unfold output_dict_of_with. now rewrite H.
  - destruct e; try (unfold output_dict_of_with; now rewrite H).
    pose proof (output_dict_of_wrapped json_loads "" body "" eq_refl eq_refl H)
      as W.
    cbn [append] in W. rewrite W. exact H.
Qed.

(** X11: Prose around the braces is ignored, whatever [json.loads] does: when
    the text before a brace-delimited part has no opening brace, the text
    after it has no closing brace, and decoding the whole raises
    [JSONDecodeError], the routine does on the whole text what it does on the
    brace-delimited part alone. *)
Theorem prose_around_braces_is_ignored json_loads p body q a :
  find "{" p = -1 -> rfind "}" q = -1 ->
  json_loads (p ++ String "{" (body ++ String "}" q)) = Raised JSONDecodeError ->
  _parse_and_validate_output_with json_loads
    (p ++ String "{" (body ++ String "}" q)) a
  = _parse_and_validate_output_with json_loads (String "{" (body ++ "}")) a.
Proof.
  intros Hp Hq D. unfold _parse_and_validate_output_with.
  now rewrite (output_dict_of_wrapped json_loads p body q Hp Hq D),
    output_dict_of_braced.
Qed.

Lemma prose_around_braces_is_ignored_witness :
  _parse_and_validate_output
    ("Sure! "
     ++ String "{" (quoted "'asset': 'BTC', 'risk_level': 'Low', 'sentiment_score': 0.8, 'tools_used': []"
                    ++ String "}" " Hope it helps."))
    "BTC"
  = _parse_and_validate_output
      (String "{" (quoted "'asset': 'BTC', 'risk_level': 'Low', 'sentiment_score': 0.8, 'tools_used': []"
                   ++ "}"))
      "BTC".
Proof.
  apply (prose_around_braces_is_ignored loads); vm_compute; reflexivity.
Defined.

(** A valid object inside a JSON array is not extracted: the whole text is
    valid JSON, and what it denotes is no mapping. *)
Example object_in_an_array_is_refused :
  _parse_and_validate_output ("[" ++ valid_text ++ "]") "BTC"
  = Raised (TypeError "argument after ** must be a mapping, not list").
Proof. vm_compute. reflexivity. Qed.

(** X12: When decoding the text raises [JSONDecodeError] and the last closing
    brace stands before the first opening brace, the extracted substring is
    empty: the routine raises what the decoder raises on the empty text, a
    [JSONDecodeError], and not the parse error [ValueError]. *)
Theorem braces_in_reverse_order json_loads text a :
  json_loads "" = Raised JSONDecodeError ->
  json_loads text = Raised JSONDecodeError ->
  rfind "}" text <> -1 ->
  rfind "}" text < find "{" text ->
  slice text (find "{" text) (rfind "}" text + 1) = "" /\
  _parse_and_validate_output_with json_loads text a = Raised JSONDecodeError.
Proof.
  intros E D R Lt.
  destruct (rfind_range "}" text) as [? | R0]; [contradiction |].
  assert (Sl : slice text (find "{" text) (rfind "}" text + 1) = "").
  { unfold slice.
    replace (Z.to_nat (rfind "}" text + 1) - Z.to_nat (find "{" text))%nat
      with 0%nat by lia.
    apply substring_empty. }
  split; [exact Sl |].
  unfold _parse_and_validate_output_with, output_dict_of_with. rewrite D.
  replace (negb (find "{" text =? -1)) with true
    by (symmetry; apply negb_true_iff, Z.eqb_neq; lia).
  replace (negb (rfind "}" text =? -1)) with true
    by (symmetry; apply negb_true_iff, Z.eqb_neq; lia).
  cbn [andb]. cbv zeta. rewrite Sl, E. reflexivity.
Qed.

Lemma braces_in_reverse_order_witness :
  _parse_and_validate_output "} or {" "BTC" = Raised JSONDecodeError.
Proof.
  apply (braces_in_reverse_order loads "} or {" "BTC");
    [reflexivity | reflexivity | discriminate | reflexivity].
Defined.

(** ** The tools, in general *)

(** X13: Both tools read the asset through its upper-cased form only. *)
Theorem tools_ignore_the_case_of_the_asset :
  Forall (fun t => forall R a k, execute t R (upper a) k = execute t R a k)
         AVAILABLE_TOOLS.
Proof.
  repeat constructor; intros R a k; cbn [execute GetMarketPriceTool
    GetInternalSentimentTool]; unfold GetMarketPriceTool_execute,
    GetInternalSentimentTool_execute; now rewrite upper_idem.
Qed.

Lemma round_half_even_bounds x a b :
  (inject_Z a <= x)%Q -> (x <= inject_Z b)%Q ->
  a <= round_half_even x <= b.
Proof.
  intros La Lb.
  assert (Fa : a <= Qfloor x).
  { rewrite <- (Qfloor_Z a). now apply Qfloor_resp_le. }
  assert (Fb : Qfloor x <= b).
  { rewrite <- (Qfloor_Z b). now apply Qfloor_resp_le. }
  assert (Up : ~ (x - inject_Z (Qfloor x) < 1 # 2)%Q -> Qfloor x + 1 <= b).
  { intros N. destruct (Z.eq_dec (Qfloor x) b) as [E | E]; [| lia].
    exfalso. apply N. rewrite E. lra. }
  unfold round_half_even.
  destruct (x - inject_Z (Qfloor x) ?= 1 # 2)%Q eqn:C.
  - apply Qeq_alt in C. destruct (Z.even (Qfloor x)); [lia |].
    split; [lia |]. apply Up. lra.
  - lia.
  - apply Qgt_alt in C. split; [lia |]. apply Up. lra.
Qed.

Lemma dec_leb_0_norm k : forall m, dec_leb dec_0 (norm m k) = (0 <=? m).
Proof.
  induction k as [| k IH]; intros m.
  - unfold dec_leb. cbn. now rewrite Z.mul_1_r.
  - cbn [norm]. destruct (m mod 10 =? 0) eqn:E.
    + rewrite IH. apply Z.eqb_eq in E. pose proof (Z.div_mod m 10).
      destruct (0 <=? m / 10) eqn:A, (0 <=? m) eqn:B; lia.
    + unfold dec_leb. cbn [dec_0 dec_of_int dmant dscale].
      cbn [Z.of_nat Z.pow]. now rewrite Z.mul_0_l, Z.mul_1_r.
Qed.

Lemma dec_leb_norm_1 k : forall m,
  dec_leb (norm m k) dec_1 = (m <=? 10 ^ Z.of_nat k).
Proof.
  induction k as [| k IH]; intros m.
  - unfold dec_leb. cbn. now rewrite Z.mul_1_r.
  - cbn [norm]. rewrite pow10_succ. destruct (m mod 10 =? 0) eqn:E.
    + rewrite IH. apply Z.eqb_eq in E. pose proof (Z.div_mod m 10).
      destruct (m / 10 <=? 10 ^ Z.of_nat k) eqn:A,
               (m <=? 10 * 10 ^ Z.of_nat k) eqn:B; lia.
    + unfold dec_leb. cbn [dec_1 dec_of_int dmant dscale].
      rewrite pow10_succ. cbn [Z.of_nat Z.pow]. now rewrite Z.mul_1_r, Z.mul_1_l.
Qed.

(** A number of hundredths between 0 and 100 passes the bounds of the
    schema. *)
Lemma hundredths_bounded name z :
  0 <= z <= 100 -> bounded name (mk_dec z (-2)) = inl (mk_dec z (-2)).
Proof.
  intros H. change (mk_dec z (-2)) with (norm z 2). unfold bounded.
  rewrite dec_leb_0_norm, dec_leb_norm_1.
  replace (0 <=? z) with true by (symmetry; apply Z.leb_le; lia).
  replace (z <=? 10 ^ Z.of_nat 2) with true
    by (symmetry; apply Z.leb_le; cbn; lia).
  reflexivity.
Qed.

Lemma round_half_even_le x b :
  (x <= inject_Z b)%Q -> round_half_even x <= b.
Proof.
  intros H. apply (round_half_even_bounds x (Qfloor x) b);
    [apply Qfloor_le | exact H].
Qed.

Lemma round_half_even_ge x a :
  (inject_Z a <= x)%Q -> a <= round_half_even x.
Proof.
  intros H. apply (round_half_even_bounds x a (Qfloor x + 1));
    [exact H | apply Qlt_le_weak, Qlt_floor].
Qed.

(** X14: The sentiment tool never raises, and what it reports goes together:
    the level is High with the outlook bearish and a score of at most 0.40,
    or Medium with neutral and a score from 0.40 to 0.60, or Low with bullish
    and a score of at least 0.60; the level is one that the output schema
    accepts. *)
Theorem sentiment_tool_is_consistent R a k :
  exists m k' rl o z,
    GetInternalSentimentTool_execute R a k = (Returned (JObj m), k') /\
    dict_get "risk_level" m = Some (JStr rl) /\
    dict_get "market_outlook" m = Some (JStr o) /\
    dict_get "sentiment_score" m = Some (JFloat (mk_dec z (-2))) /\
    In rl MarketResearchOutput.risk_levels /\
    (rl = "High" /\ o = "bearish" /\ z <= 40 \/
     rl = "Medium" /\ o = "neutral" /\ 40 <= z <= 60 \/
     rl = "Low" /\ o = "bullish" /\ 60 <= z).
Proof.
  unfold GetInternalSentimentTool_execute. cbn [uniform].
  set (s := ((3 # 10) + ((9 # 10) - (3 # 10)) * R k)%Q).
  assert (B : forall x y, Qltb x y = true -> (x < y)%Q).
  { intros x y. unfold Qltb. rewrite negb_true_iff. intros H.
    apply Qnot_le_lt. intros L. apply Qle_bool_iff in L. congruence. }
  assert (B' : forall x y, Qltb x y = false -> (y <= x)%Q).
  { intros x y. unfold Qltb. rewrite negb_false_iff. intros H.
    now apply Qle_bool_iff. }
  destruct (Qltb s (4 # 10)) eqn:H4; [| destruct (Qltb s (6 # 10)) eqn:H6].
  - apply B in H4.
    eexists _, _, _, _, _. repeat split; [cbn; auto |].
    left. repeat split. apply round_half_even_le. unfold inject_Z. lra.
  - apply B' in H4. apply B in H6.
    eexists _, _, _, _, _. repeat split; [cbn; auto |].
    right. left. repeat split;
      [apply round_half_even_ge | apply round_half_even_le];
      unfold inject_Z; lra.
  - apply B' in H6.
    eexists _, _, _, _, _. repeat split; [cbn; auto |].
    right. right. repeat split. apply round_half_even_ge. unfold inject_Z. lra.
Qed.

(** X15: When the generator draws from the unit interval, the score that the
    sentiment tool reports is a number of hundredths between 0.30 and 0.90,
    which the output schema accepts as a [sentiment_score]. *)
Theorem sentiment_tool_score_is_in_range R a k :
  (0 <= R k)%Q -> (R k <= 1)%Q ->
  exists m k' z,
    GetInternalSentimentTool_execute R a k = (Returned (JObj m), k') /\
    dict_get "sentiment_score" m = Some (JFloat (mk_dec z (-2))) /\
    30 <= z <= 90 /\
    MarketResearchOutput.float_field "sentiment_score"
      (dict_get "sentiment_score" m) = inl (mk_dec z (-2)).
Proof.
  intros L0 L1. unfold GetInternalSentimentTool_execute. cbn [uniform].
  set (s := ((3 # 10) + ((9 # 10) - (3 # 10)) * R k)%Q).
  assert (Z : 30 <= round_half_even (s * 100)%Q <= 90).
  { apply round_half_even_bounds; unfold inject_Z; subst s; lra. }
  destruct (Qltb s (4 # 10)); [| destruct (Qltb s (6 # 10))];
    eexists _, _, _; (split; [reflexivity |]);
    (split; [reflexivity |]); (split; [exact Z |]);
    cbn [dict_get String.eqb Ascii.eqb Bool.eqb round2 float_field];
    apply hundredths_bounded; lia.
Qed.

Lemma sentiment_tool_score_is_in_range_witness :
  exists m k' z,
    GetInternalSentimentTool_execute (fun _ => 1 # 3)%Q "btc" 0
    = (Returned (JObj m), k') /\
    dict_get "sentiment_score" m = Some (JFloat (mk_dec z (-2))) /\
    30 <= z <= 90 /\
    MarketResearchOutput.float_field "sentiment_score"
      (dict_get "sentiment_score" m) = inl (mk_dec z (-2)).
Proof.
  apply (sentiment_tool_score_is_in_range (fun _ => 1 # 3)%Q "btc" 0%nat);
    cbn; lra.
Defined.

Lemma base_data_cases key :
  exists b vol,
    match dict_get key mock_prices with
    | Some d => d
    | None => default_prices
    end = JObj [("base", JInt b); ("volatility", JStr vol)] /\
    In b [45000; 2500; 1; 100; 1000].
Proof.
  unfold mock_prices, default_prices. cbn [dict_get].
  repeat match goal with
         | |- context [String.eqb ?a key] => destruct (String.eqb a key)
         end; eexists _, _; (split; [reflexivity |]); cbn; auto 6.
Qed.

(** X16: When the generator draws from the unit interval, the price that the
    price tool reports lies within five percent of the base price of the asset
    (of 1000 for an unknown asset), and the volatility is that of the same
    entry. *)
Theorem price_tool_stays_near_the_base R a k :
  (0 <= R k)%Q -> (R k <= 1)%Q ->
  exists b vol m k' z,
    match dict_get (upper a) mock_prices with
    | Some d => d
    | None => default_prices
    end = JObj [("base", JInt b); ("volatility", JStr vol)] /\
    GetMarketPriceTool_execute R a k = (Returned (JObj m), k') /\
    dict_get "price_usd" m = Some (JFloat (mk_dec z (-2))) /\
    95 * b <= z <= 105 * b /\
    dict_get "volatility" m = Some (JStr vol).
Proof.
  intros L0 L1. unfold GetMarketPriceTool_execute.
  destruct (base_data_cases (upper a)) as (b & vol & -> & Hb).
  exists b, vol. cbn [getitem dict_get String.eqb Ascii.eqb Bool.eqb bind
    number uniform].
  eexists _, _, _. split; [reflexivity |]. split; [reflexivity |].
  split; [reflexivity |]. split; [| reflexivity].
  cbn [In] in Hb.
  destruct Hb as [H | [H | [H | [H | [H | []]]]]]; subst b;
    match goal with
    | |- ?lo <= _ <= ?hi =>
        let lo' := eval vm_compute in lo in
        let hi' := eval vm_compute in hi in
        change lo with lo'; change hi with hi'
    end;
    apply round_half_even_bounds; unfold inject_Z; lra.
Qed.

Lemma price_tool_stays_near_the_base_witness :
  exists b vol m k' z,
    match dict_get (upper "eth") mock_prices with
    | Some d => d
    | None => default_prices
    end = JObj [("base", JInt b); ("volatility", JStr vol)] /\
    GetMarketPriceTool_execute (fun _ => 1 # 3)%Q "eth" 0
    = (Returned (JObj m), k') /\
    dict_get "price_usd" m = Some (JFloat (mk_dec z (-2))) /\
    95 * b <= z <= 105 * b /\
    dict_get "volatility" m = Some (JStr vol).
Proof.
  apply (price_tool_stays_near_the_base (fun _ => 1 # 3)%Q "eth" 0%nat);
    cbn; lra.
Defined.

(** ** What the driver observes of a tool *)

Lemma digits_aux_app fuel : forall n acc X,
  digits_aux fuel n acc ++ X = digits_aux fuel n (acc ++ X).
Proof.
  induction fuel as [| fuel IH]; intros n acc X; cbn; [reflexivity |].
  destruct (n / 10 =? 0); [reflexivity | apply IH].
Qed.

Lemma pow2_succ f : 2 ^ Z.of_nat (S f) = 2 * 2 ^ Z.of_nat f.
Proof. rewrite Nat2Z.inj_succ, Z.pow_succ_r; lia. Qed.

Lemma pow2_pos f : 0 < 2 ^ Z.of_nat f.
Proof. apply Z.pow_pos_nonneg; lia. Qed.

(** Reading the digits of [n] back. *)
Lemma digits_aux_read fuel : forall n acc,
  0 <= n < 2 ^ Z.of_nat fuel ->
  exists L, forall a c,
    read_digits a c (digits_aux fuel n acc)
    = read_digits (a * 10 ^ Z.of_nat L + n) (c + L) acc.
Proof.
  induction fuel as [| fuel IH]; intros n acc H.
  - cbn in H. assert (n = 0) by lia. subst. exists 0%nat. intros a c. cbn.
    f_equal; [lia | lia].
  - cbn [digits_aux]. rewrite pow2_succ in H.
    assert (D : 0 <= n mod 10 < 10) by (apply Z.mod_pos_bound; lia).
    pose proof (Z.div_mod n 10) as DM.
    destruct (n / 10 =? 0) eqn:E.
    + apply Z.eqb_eq in E. exists 1%nat. intros a c. cbn [read_digits].
      rewrite digit_val_digit_char by exact D.
      f_equal; [cbn; lia | lia].
    + destruct (IH (n / 10) (String (digit_char (n mod 10)) acc)) as (L & HL).
      { split; [apply Z.div_pos; lia |].
        apply Z.div_lt_upper_bound; [lia |]. pose proof (pow2_pos fuel). lia. }
      exists (S L). intros a c. rewrite HL. cbn [read_digits].
      rewrite digit_val_digit_char by exact D. rewrite pow10_succ.
      f_equal; [lia | lia].
Qed.

(** The digits of [n] start with a digit, which is no zero unless [n] is. *)
Lemma digits_aux_head fuel : forall n acc,
  0 <= n < 2 ^ Z.of_nat fuel -> (0 < fuel)%nat ->
  exists d r0, 0 <= d <= 9 /\ (0 < n -> d <> 0) /\
               digits_aux fuel n acc = String (digit_char d) r0.
Proof.
  induction fuel as [| fuel IH]; intros n acc H F; [lia |].
  cbn [digits_aux]. rewrite pow2_succ in H.
  assert (D : 0 <= n mod 10 < 10) by (apply Z.mod_pos_bound; lia).
  pose proof (Z.div_mod n 10) as DM.
  destruct (n / 10 =? 0) eqn:E.
  - apply Z.eqb_eq in E. exists (n mod 10). eexists.
    split; [lia |]. split; [lia | reflexivity].
  - apply Z.eqb_neq in E.
    assert (0 <= n / 10) by (apply Z.div_pos; lia).
    destruct (IH (n / 10) (String (digit_char (n mod 10)) acc))
      as (d & r0 & Hd & Hnz & Heq).
    { split; [lia |].
      apply Z.div_lt_upper_bound; [lia |]. pose proof (pow2_pos fuel). lia. }
    { destruct fuel; [| lia]. cbn in H. assert (n / 10 = 0); [| lia].
      apply Z.div_small. lia. }
    exists d, r0. split; [exact Hd |]. split; [intros _; apply Hnz; lia | exact Heq].
Qed.

Lemma digits_fuel n : 0 <= n -> n < 2 ^ Z.of_nat (S (Z.to_nat (Z.log2 n))).
Proof.
  intros H. destruct (Z.eq_dec n 0) as [-> | N]; [reflexivity |].
  rewrite Nat2Z.inj_succ, Z2Nat.id by apply Z.log2_nonneg.
  apply Z.log2_spec. lia.
Qed.

Lemma scan_int_digits n X :
  0 <= n -> no_digit_ahead X -> scan_int (digits n ++ X) = Some (n, X).
Proof.
  intros H ND. destruct (Z.eq_dec n 0) as [-> | N]; [reflexivity |].
  unfold digits. rewrite digits_aux_app. cbn [append].
  pose proof (digits_fuel n H) as F.
  destruct (digits_aux_head _ n X (conj H F) ltac:(lia))
    as (d & r0 & Hd & Hnz & Heq).
  destruct (digits_aux_read _ n X (conj H F)) as (L & HL).
  specialize (HL 0 0%nat). rewrite Heq in HL |- *.
  cbn [read_digits] in HL. cbn [scan_int].
  rewrite digit_val_digit_char in HL |- * by lia.
  rewrite ND in HL. cbn [Z.mul Z.add Nat.add] in HL.
  destruct d as [| d | d]; [exfalso; apply Hnz; [lia | reflexivity] | | lia].
  rewrite HL. reflexivity.
Qed.

Lemma digits_head n X :
  0 <= n ->
  exists d r0, 0 <= d <= 9 /\ digits n ++ X = String (digit_char d) r0.
Proof.
  intros H. unfold digits. rewrite digits_aux_app.
  destruct (digits_aux_head _ n ("" ++ X) (conj H (digits_fuel n H)) ltac:(lia))
    as (d & r0 & Hd & _ & Heq).
  exists d, r0. split; [exact Hd | exact Heq].
Qed.

Lemma digit_cases d : 0 <= d <= 9 ->
  d = 0 \/ d = 1 \/ d = 2 \/ d = 3 \/ d = 4 \/ d = 5 \/ d = 6 \/ d = 7 \/
  d = 8 \/ d = 9.
Proof. lia. Qed.

Ltac number_head H :=
  destruct H as (c & t & -> & [-> | (d & Hd & ->)]);
  [| apply digit_cases in Hd;
     repeat (destruct Hd as [-> | Hd]); try subst d ].

Lemma skip_ws_number s : number_ahead s -> skip_ws s = s.
Proof. intros H. number_head H; reflexivity. Qed.

Lemma scan_once_number f s v r :
  number_ahead s -> scan_number s = Some (v, r) ->
  scan_once (S f) s = Some (v, r).
Proof.
  intros H E.
  assert (L : scan_literal s = Some (v, r)).
  { unfold scan_literal. rewrite E.
    number_head H; reflexivity. }
  rewrite <- L. number_head H; reflexivity.
Qed.

Lemma head_minus_digit d r0 : 0 <= d <= 9 ->
  head_is "-" (String (digit_char d) r0) = None.
Proof.
  intros Hd. apply digit_cases in Hd.
  repeat (destruct Hd as [-> | Hd]); try subst d; reflexivity.
Qed.

Lemma sep_no_digit c X :
  c = ","%char \/ c = "}"%char -> no_digit_ahead (String c X).
Proof. intros [-> | ->] a n; reflexivity. Qed.

Lemma point_no_digit X : no_digit_ahead (String "." X).
Proof. intros a n; reflexivity. Qed.

Lemma pow10_div_mod M k :
  M / 10 ^ Z.of_nat k * 10 ^ Z.of_nat k + M mod 10 ^ Z.of_nat k = M.
Proof.
  pose proof (pow10_pos k). pose proof (Z.div_mod M (10 ^ Z.of_nat k)). lia.
Qed.

Lemma norm_times_10 z : norm (z * 10) 1 = {| dmant := z; dscale := 0 |}.
Proof.
  cbn [norm]. rewrite Z.mod_mul by lia. cbn [Z.eqb].
  rewrite Z.div_mul by lia. reflexivity.
Qed.

Lemma scan_frac_repr k M c X :
  c = ","%char \/ c = "}"%char ->
  exists lf f,
    scan_frac (String "." (frac_repr k M ++ String c X))
    = Some (f, lf, String c X) /\
    forall s, mk_dec (s * (M / 10 ^ Z.of_nat k * 10 ^ Z.of_nat lf + f))
                     (- Z.of_nat lf)
              = norm (s * M) k.
Proof.
  intros C. destruct k as [| k'].
  - exists 1%nat, 0. split.
    + destruct C as [-> | ->]; reflexivity.
    + intros s. change (10 ^ Z.of_nat 0) with 1. rewrite Z.div_1_r.
      change (10 ^ Z.of_nat 1) with 10.
      change (mk_dec (s * (M * 10 + 0)) (- Z.of_nat 1))
        with (norm (s * (M * 10 + 0)) 1).
      replace (s * (M * 10 + 0)) with (s * M * 10) by lia.
      apply norm_times_10.
  - set (k := S k'). exists k, (M mod 10 ^ Z.of_nat k).
    assert (P := pow10_pos k).
    assert (B : 0 <= M mod 10 ^ Z.of_nat k < 10 ^ Z.of_nat k)
      by (apply Z.mod_pos_bound; exact P).
    split.
    + unfold scan_frac. cbn [head_is]. rewrite Ascii.eqb_refl.
      change (frac_repr k M) with (fixed_digits k (M mod 10 ^ Z.of_nat k) "").
      rewrite fixed_digits_app. cbn [append].
      rewrite read_fixed_digits by exact B.
      rewrite (sep_no_digit c X C). subst k. cbn [Nat.add].
      do 2 f_equal.
    + intros s. rewrite pow10_div_mod. unfold mk_dec.
      replace (0 <=? - Z.of_nat k) with false by (symmetry; apply Z.leb_gt; lia).
      replace (Z.to_nat (- - Z.of_nat k)) with k by lia. reflexivity.
Qed.

Lemma float_repr_unfold m k :
  float_repr {| dmant := m; dscale := k |}
  = (if m <? 0 then "-" else "") ++
    digits (Z.abs m / 10 ^ Z.of_nat k) ++ String "." (frac_repr k (Z.abs m)).
Proof. destruct k; reflexivity. Qed.

(** The text of a float in normal form reads back as that float. *)
Lemma scan_number_float d c X :
  normal d -> c = ","%char \/ c = "}"%char ->
  scan_number (float_repr d ++ String c X) = Some (JFloat d, String c X).
Proof.
  intros N C. destruct d as [m k]. rewrite float_repr_unfold.
  set (M := Z.abs m). set (p := 10 ^ Z.of_nat k).
  assert (P : 0 < p) by apply pow10_pos.
  assert (I : 0 <= M / p) by (apply Z.div_pos; [apply Z.abs_nonneg | exact P]).
  assert (SE : scan_exp (String c X) = None) by (destruct C as [-> | ->]; reflexivity).
  destruct (scan_frac_repr k M c X C) as (lf & f & SF & Emk). fold p in Emk.
  assert (NM : norm m k = {| dmant := m; dscale := k |}) by (apply norm_id; exact N).
  destruct (m <? 0) eqn:Sg.
  - apply Z.ltb_lt in Sg.
    cbn [append]. unfold scan_number. cbn [head_is]. rewrite Ascii.eqb_refl.
    rewrite append_assoc. cbn [append].
    rewrite (scan_int_digits _ _ I (point_no_digit _)).
    rewrite SF, SE. specialize (Emk (-1)).
    replace (-1 * (M / p * 10 ^ Z.of_nat lf + f))
      with (- (M / p * 10 ^ Z.of_nat lf + f)) in Emk by lia.
    rewrite Emk. replace (-1 * M) with m by (subst M; lia). rewrite NM. reflexivity.
  - apply Z.ltb_ge in Sg.
    cbn [append]. unfold scan_number.
    rewrite append_assoc. cbn [append].
    destruct (digits_head (M / p) (String "." (frac_repr k M ++ String c X)) I)
      as (d0 & r0 & Hd0 & Eh).
    rewrite Eh at 1. rewrite (head_minus_digit d0 r0 Hd0).
    rewrite (scan_int_digits _ _ I (point_no_digit _)).
    rewrite SF, SE. specialize (Emk 1).
    rewrite Z.mul_1_l in Emk. rewrite Emk.
    replace (1 * M) with m by (subst M; lia). rewrite NM. reflexivity.
Qed.

Lemma float_repr_number d X : number_ahead (float_repr d ++ X).
Proof.
  destruct d as [m k]. rewrite float_repr_unfold.
  destruct (m <? 0).
  - cbn [append]. eexists _, _. split; [reflexivity | left; reflexivity].
  - cbn [append]. rewrite append_assoc.
    destruct (digits_head (Z.abs m / 10 ^ Z.of_nat k)
                (String "." (frac_repr k (Z.abs m)) ++ X)) as (d0 & r0 & Hd0 & Eh).
    { apply Z.div_pos; [apply Z.abs_nonneg | apply pow10_pos]. }
    rewrite Eh. exists (digit_char d0), r0. split; [reflexivity |].
    right. exists d0. split; [exact Hd0 | reflexivity].
Qed.

(** A value of a tool's dictionary reads back, before the separator that
    follows it. *)
Lemma scan_once_flat f v c X :
  flat_value v -> c = ","%char \/ c = "}"%char ->
  scan_once (S f) (dumps v ++ String c X) = Some (v, String c X) /\
  skip_ws (dumps v ++ String c X) = dumps v ++ String c X.
Proof.
  intros F C. destruct v as [| b | z | d | n | s | l | m]; try contradiction.
  - cbn [dumps]. split.
    + apply scan_once_number; [apply float_repr_number |].
      apply scan_number_float; assumption.
    + apply skip_ws_number, float_repr_number.
  - cbn [dumps]. split; [apply scan_once_str | reflexivity].
Qed.

Lemma concat_members k v m rest :
  concat ", " (map (fun kv => encode_str (fst kv) ++ ": " ++ dumps (snd kv))
                   ((k, v) :: m)) ++ String "}" rest
  = String "034" (members_text k v m rest).
Proof.
  revert k v. induction m as [| [k' v'] m IH]; intros k v.
  - cbn [map concat fst snd members_text].
    rewrite !append_assoc. cbn [append]. rewrite encode_str_app.
    reflexivity.
  - change (map ?f ((k, v) :: (k', v') :: m))
      with (f (k, v) :: map f ((k', v') :: m)).
    cbn [fst snd]. cbn [members_text]. rewrite <- IH.
    remember (map _ ((k', v') :: m)) as l eqn:El.
    destruct l as [| x l]; [discriminate |]. cbn [concat].
    rewrite !append_assoc. cbn [append]. rewrite encode_str_app.
    rewrite ?append_assoc. cbn [append]. reflexivity.
Qed.

Lemma JSONObject_flat m : forall k v f rest,
  flat_value v -> Forall (fun kv => flat_value (snd kv)) m ->
  (List.length m + 2 <= f)%nat ->
  JSONObject f (members_text k v m rest) = Some ((k, v) :: m, rest).
Proof.
  induction m as [| [k' v'] m IH]; intros k v f rest Fv Fm L.
  - destruct f as [| [| f]]; cbn in L; try lia. cbn [members_text].
    destruct (scan_once_flat f v "}" rest Fv (or_intror eq_refl)) as (S1 & S2).
    erewrite JSONObject_last; [reflexivity | exact S2 | exact S1].
  - destruct f as [| [| f]]; cbn [List.length] in L; try lia.
    cbn [members_text]. inversion Fm as [| ? ? Fv' Fm']; subst.
    destruct (scan_once_flat f v ","
                (String " " (String "034" (members_text k' v' m rest)))
                Fv (or_introl eq_refl)) as (S1 & S2).
    erewrite JSONObject_more; [reflexivity | exact S2 | exact S1 |].
    apply IH; [exact Fv' | exact Fm' | lia].
Qed.

(** A dictionary of strings and floats is read back from its text. *)
Lemma decode_flat m :
  Forall (fun kv => flat_value (snd kv)) m ->
  decode (dumps (JObj m)) = Some (JObj m).
Proof.
  intros F. destruct m as [| [k v] m]; [reflexivity |].
  inversion F as [| ? ? Fv Fm]; subst. cbn [snd] in Fv.
  unfold decode. set (s := dumps (JObj ((k, v) :: m))).
  assert (E : s = String "{" (String "034" (members_text k v m ""))).
  { subst s. cbn [dumps]. cbn [append]. f_equal. apply concat_members. }
  set (g := (2 * String.length s + 2 + (List.length m + 3))%nat).
  rewrite <- (decode_fuel s g) by (subst g; lia).
  rewrite E. cbn [skip_ws is_ws Ascii.eqb Bool.eqb orb].
  replace g with (S (g - 1)) by (subst g; lia).
  cbn [scan_once]. cbn [Ascii.eqb Bool.eqb]. cbv zeta.
  cbn [skip_ws is_ws Ascii.eqb Bool.eqb orb head_is].
  rewrite JSONObject_flat; [reflexivity | exact Fv | exact Fm | subst g; lia].
Qed.

Lemma round2_flat x : flat_value (round2 x).
Proof. apply mk_dec_normal. Qed.

Lemma langchain_tools_unfold :
  _create_langchain_tools = map langchain_tool AVAILABLE_TOOLS.
Proof. reflexivity. Qed.

(** What a tool of the registry returns is a dictionary of strings and
    floats. *)
Ltac flat_values :=
  repeat (apply Forall_cons;
          [cbn [snd]; first [exact I | apply round2_flat] |]);
  apply Forall_nil.

Lemma tools_return_flat :
  Forall (fun t => forall R a k, exists m k',
            execute t R a k = (Returned (JObj m), k') /\
            Forall (fun kv => flat_value (snd kv)) m)
         AVAILABLE_TOOLS.
Proof.
  repeat constructor; intros R a k; cbn [execute GetMarketPriceTool
    GetInternalSentimentTool].
  - unfold GetMarketPriceTool_execute.
    destruct (base_data_fields (upper a)) as (b & vol & ->).
    cbn [getitem dict_get String.eqb Ascii.eqb Bool.eqb bind number uniform].
    eexists _, _. split; [reflexivity |]. flat_values.
  - unfold GetInternalSentimentTool_execute. cbn [uniform].
    destruct (Qltb _ _); [| destruct (Qltb _ _)];
      (eexists _, _; split; [reflexivity |]); flat_values.
Qed.

(** X17: Each tool handed to the driver keeps the name and the description of
    the tool of the registry at the same place, calls that tool and no other,
    and answers with a JSON text that reads back as the dictionary the tool
    returned; it does not raise, and it draws from the generator what the tool
    draws. *)
Theorem langchain_tools_serialize_their_own_tool :
  Forall2 (fun t T =>
             LangChain.name T = name t /\
             LangChain.description T = description t /\
             forall R a k, exists m k',
               execute t R a k = (Returned (JObj m), k') /\
               LangChain.func T R a k = (Returned (dumps (JObj m)), k') /\
               loads (dumps (JObj m)) = Returned (JObj m))
          AVAILABLE_TOOLS _create_langchain_tools.
Proof.
  rewrite langchain_tools_unfold.
  pose proof tools_return_flat as F.
  induction F as [| t l Ht F IH]; [constructor |].
  cbn [map]. constructor; [| exact IH].
  split; [reflexivity |]. split; [reflexivity |].
  intros R a k. destruct (Ht R a k) as (m & k' & E & Fl).
  exists m, k'. split; [exact E |]. split.
  - cbn [langchain_tool LangChain.func]. rewrite E. reflexivity.
  - unfold loads. rewrite (decode_flat m Fl). reflexivity.
Qed.

(** ** The execution log in MongoDB *)

Lemma length_snoc {A} (l : list A) (x : A) :
  List.length (l ++ [x]) = S (List.length l).
Proof. rewrite length_app. cbn. lia. Qed.

Lemma skipn_exact {A} (l r : list A) : skipn (List.length l) (l ++ r) = r.
Proof. induction l as [| x l IH]; [reflexivity | exact IH]. Qed.

Lemma skipn_same {A} (l : list A) : skipn (List.length l) l = [].
Proof. induction l as [| x l IH]; [reflexivity | exact IH]. Qed.

(** The calls made, once the computation is evaluated. *)
Ltac made_calls :=
  unfold made; cbn [snd calls];
  repeat rewrite <- app_assoc; cbn [app];
  first [rewrite skipn_exact | rewrite skipn_same].

Section ExecutionLog.

Import MongoDB.

Variable bson : Type.
Variable str : bson -> bson.

Lemma getitem_setitem key v (d : document bson) :
  getitem key (setitem key v d) = Some v.
Proof.
  induction d as [| [k x] d IH]; cbn.
  - now rewrite String.eqb_refl.
  - destruct (String.eqb k key) eqn:E; cbn; rewrite E; [reflexivity | exact IH].
Qed.

Lemma getitem_setitem_other key k v (d : document bson) :
  k <> key -> getitem k (setitem key v d) = getitem k d.
Proof.
  intros N. induction d as [| [k' x] d IH]; cbn.
  - destruct (String.eqb_spec key k); [congruence | reflexivity].
  - destruct (String.eqb_spec k' key) as [-> | N'].
    + cbn. destruct (String.eqb_spec key k); [congruence | reflexivity].
    + cbn. destruct (String.eqb k' k); [reflexivity | exact IH].
Qed.

Lemma setitem_keys key v x (d : document bson) :
  getitem key d = Some x ->
  map fst (setitem key v d) = map fst d.
Proof.
  induction d as [| [k' y] d IH]; cbn; [discriminate |].
  destruct (String.eqb k' key); [reflexivity |].
  intros H. cbn. now rewrite IH.
Qed.

Lemma is_available_cases (server : Server bson) w :
  is_available server w
  = if client (obj w) then
      match pings server (List.length (calls w)) with
      | Returned _ =>
          (Returned true, {| calls := calls w ++ [ping]; obj := obj w |})
      | Raised _ =>
          (Returned false, {| calls := calls w ++ [ping]; obj := obj w |})
      end
    else (Returned false, w).
Proof.
  unfold is_available, and_then, get, try_except, perform, ret.
  destruct (client (obj w)); cbn; [| reflexivity].
  destruct (pings server _); reflexivity.
Qed.

(** X18: Constructing the client never raises, whatever the server does. The
    client is set exactly when the four calls of the start went through, in
    which case the collection is set too. *)
Theorem mongo_start_never_raises (server : Server bson) w :
  let n := List.length (calls w) in
  exists w',
    __init__ server w = (Returned tt, w') /\
    (client (obj w') = true <->
     connects server n = Returned tt /\ pings server (1 + n) = Returned tt /\
     selects server (2 + n) = Returned tt /\ selects server (3 + n) = Returned tt) /\
    (client (obj w') = true -> collection (obj w') = true).
Proof.
  cbv zeta. unfold __init__, _connect, and_then, try_except, perform, put, get.
  cbn [calls obj client db collection]. rewrite ?length_snoc. cbn [Nat.add].
  destruct (connects server _) as [[] | e1];
    [| eexists; split; [reflexivity |]; cbn; split;
       [split; [discriminate | intros (H & _); discriminate] | discriminate]].
  rewrite ?length_snoc.
  destruct (pings server _) as [[] | e2];
    [| eexists; split; [reflexivity |]; cbn; split;
       [split; [discriminate | intros (_ & H & _); discriminate] | discriminate]].
  rewrite ?length_snoc.
  destruct (selects server (S (S _))) as [[] | e3];
    [| eexists; split; [reflexivity |]; cbn; split;
       [split; [discriminate | intros (_ & _ & H & _); discriminate]
       | discriminate]].
  rewrite ?length_snoc.
  destruct (selects server (S (S (S _)))) as [[] | e4];
    [| eexists; split; [reflexivity |]; cbn; split;
       [split; [discriminate | intros (_ & _ & _ & H); discriminate]
       | discriminate]].
  eexists; split; [reflexivity |]. cbn. split; [| reflexivity].
  split; [intros _; repeat split | reflexivity].
Qed.

(** X19: A client without connection makes no call: logging and looking up
    give [None], and closing does nothing, whatever the server would answer.
    The connection is made at construction only, so a start that failed is not
    tried again. *)
Theorem mongo_without_client_makes_no_call (server : Server bson) w
    request_id asset agent_steps tool_calls final_output execution_time_ms
    success error :
  client (obj w) = false ->
  is_available server w = (Returned false, w) /\
  log_execution server request_id asset agent_steps tool_calls final_output
                execution_time_ms success error w = (Returned None, w) /\
  get_execution_log str server request_id w = (Returned None, w) /\
  MongoDB.close server w = (Returned tt, w).
Proof.
  intros C. assert (A : is_available server w = (Returned false, w)).
  { rewrite is_available_cases, C. reflexivity. }
  split; [exact A |].
  unfold log_execution, get_execution_log, MongoDB.close, and_then.
  rewrite A. cbn. unfold get. rewrite C. repeat split.
Qed.

(** X20: Logging an execution never raises. It makes no other call than a ping
    and, after a ping that went through, one insertion; it leaves the
    attributes of the client as they are; and an id is returned only when both
    calls went through, the id being that of the insertion. *)
Theorem mongo_logging_never_raises (server : Server bson) w
    request_id asset agent_steps tool_calls final_output execution_time_ms
    success error :
  let n := List.length (calls w) in
  let run := log_execution server request_id asset agent_steps tool_calls
                           final_output execution_time_ms success error in
  exists r w',
    run w = (Returned r, w') /\ obj w' = obj w /\
    (made run w = [] \/ made run w = [ping] \/
     exists document, made run w = [ping; insert_one document]) /\
    (forall id, r = Some id ->
       pings server n = Returned tt /\
       exists document,
         made run w = [ping; insert_one document] /\
         inserts server (1 + n) document = Returned id /\
         MongoDB.request_id document = request_id /\
         MongoDB.final_output document = final_output /\
         MongoDB.success document = success /\
         MongoDB.error document = error).
Proof.
  cbv zeta. unfold made, log_execution, and_then.
  rewrite is_available_cases.
  destruct (client (obj w)) eqn:C.
  2:{ cbn. eexists _, _. split; [reflexivity |]. split; [reflexivity |].
      rewrite skipn_same. split; [auto | discriminate]. }
  destruct (pings server _) as [[] | e] eqn:P.
  2:{ cbn. eexists _, _. split; [reflexivity |]. split; [reflexivity |].
      rewrite skipn_exact. split; [auto | discriminate]. }
  cbn [negb]. unfold try_except, and_then, get, perform, ret, raise.
  cbn [obj calls]. rewrite ?length_snoc.
  destruct (collection (obj w)).
  2:{ cbn. eexists _, _. split; [reflexivity |]. split; [reflexivity |].
      rewrite skipn_exact. split; [auto | discriminate]. }
  destruct (inserts server _ _) as [id |] eqn:I.
  - eexists _, _. split; [reflexivity |]. split; [reflexivity |].
    cbn [snd calls]. rewrite <- app_assoc. cbn [app]. rewrite skipn_exact.
    split; [right; right; eexists; reflexivity |].
    intros id' H. inversion H; subst id'. split; [reflexivity |].
    cbn [calls] in I. rewrite length_snoc in I.
    eexists. split; [reflexivity |]. split; [exact I |]. repeat split.
  - eexists _, _. split; [reflexivity |]. split; [reflexivity |].
    cbn [snd calls]. rewrite <- app_assoc. cbn [app]. rewrite skipn_exact.
    split; [right; right; eexists; reflexivity | discriminate].
Qed.

(** X21: Looking an execution up never raises. A document that comes back,
    when it is not empty, is the one that the server found, with the same keys
    and the same values but for [_id], which is replaced by its [str]; a found
    document that has other keys but no [_id] gives [None]. *)
Theorem mongo_lookup_never_raises (server : Server bson) w request_id :
  let n := List.length (calls w) in
  exists r w',
    get_execution_log str server request_id w = (Returned r, w') /\
    obj w' = obj w /\
    (forall d, r = Some d -> d <> [] ->
       exists d0 v,
         finds server (1 + n) request_id = Returned (Some d0) /\
         getitem "_id" d0 = Some v /\
         getitem "_id" d = Some (str v) /\
         map fst d = map fst d0 /\
         forall k, k <> "_id" -> getitem k d = getitem k d0) /\
    (forall d0, pings server n = Returned tt ->
       finds server (1 + n) request_id = Returned (Some d0) ->
       d0 <> [] -> getitem "_id" d0 = None -> r = None).
Proof.
  cbv zeta. cbn [Nat.add]. unfold get_execution_log, and_then.
  rewrite is_available_cases.
  destruct (client (obj w)) eqn:C.
  2:{ cbn. eexists _, _. split; [reflexivity |]. split; [reflexivity |].
      split; [discriminate | reflexivity]. }
  destruct (pings server _) as [[] | e] eqn:P.
  2:{ cbn. eexists _, _. split; [reflexivity |]. split; [reflexivity |].
      split; [discriminate | reflexivity]. }
  cbn [negb]. unfold try_except, and_then, get, perform, ret, raise.
  cbn [obj calls]. rewrite ?length_snoc.
  destruct (collection (obj w)).
  2:{ cbn. eexists _, _. split; [reflexivity |]. split; [reflexivity |].
      split; [discriminate | reflexivity]. }
  destruct (finds server _ _) as [[[| kv d0] |] | e] eqn:F;
    cbn [calls] in F; rewrite length_snoc in F.
  - eexists _, _. split; [reflexivity |]. split; [reflexivity |]. split.
    + intros d H N. inversion H; subst. contradiction.
    + intros d1 _ H N. rewrite F in H. inversion H; subst. contradiction.
  - destruct (getitem "_id" (kv :: d0)) as [v |] eqn:G.
    + eexists _, _. split; [reflexivity |]. split; [reflexivity |]. split.
      * intros d H _.
        assert (E : d = setitem "_id" (str v) (kv :: d0)) by congruence.
        clear H. subst d. exists (kv :: d0), v.
        split; [exact F |]. split; [exact G |].
        split; [apply getitem_setitem |].
        split; [exact (setitem_keys _ _ _ _ G) |].
        intros k N. now apply getitem_setitem_other.
      * intros d1 _ H _ G1. rewrite F in H. inversion H; subst. congruence.
    + eexists _, _. split; [reflexivity |]. split; [reflexivity |].
      split; [discriminate | reflexivity].
  - eexists _, _. split; [reflexivity |]. split; [reflexivity |].
    split; [discriminate | reflexivity].
  - eexists _, _. split; [reflexivity |]. split; [reflexivity |].
    split; [discriminate | reflexivity].
Qed.

End ExecutionLog.

Lemma mongo_without_client_makes_no_call_witness :
  MongoDB.client (obj (snd (MongoDB.__init__ unreachable mongo0)))
  = false /\
  MongoDB.log_execution (serving None) 7 "BTC" [] [] (JObj []) 0 true None
    (snd (MongoDB.__init__ unreachable mongo0))
  = (Returned None, snd (MongoDB.__init__ unreachable mongo0)).
Proof.
  split; [reflexivity |].
  apply (mongo_without_client_makes_no_call string (fun s => s) (serving None)
           (snd (MongoDB.__init__ unreachable mongo0))
           7 "BTC" [] [] (JObj []) 0 true None).
  reflexivity.
Defined.

(** ** The repository on PostgreSQL *)

Section Sessions.

Import Postgres.

Variable D : Database.

Ltac run_repository :=
  unfold create_request, create_report, get_report_by_request_id,
    and_then, try_finally, try_except, perform, ret, raise;
  cbn [calls obj]; rewrite ?length_snoc.

(** Case analysis on the answers of the database, in the order of the
    calls. *)
Ltac replies :=
  repeat match goal with
         | |- context [match ?r with Returned _ => _ | Raised _ => _ end] =>
             destruct r eqn:?; cbn [calls obj fst snd]; rewrite ?length_snoc
         | |- context [let '(_, _) := ?p in _] =>
             destruct p eqn:?; cbn [calls obj fst snd]; rewrite ?length_snoc
         end.

Ltac one_session_of_calls :=
  made_calls;
  match goal with
  | |- exists mid, ?L = _ /\ _ =>
      exists (removelast (tl L)); cbn [tl removelast];
      split; [reflexivity |];
      split; cbn [In]; intros H;
      repeat match type of H with
             | _ \/ _ => destruct H as [H | H]
             end; (discriminate || contradiction)
  end.

Ltac session_opened Se :=
  run_repository; unfold made; run_repository; rewrite Se;
  cbn [calls obj fst snd]; rewrite ?length_snoc.

(** X22: Once the session is opened, every operation of the repository closes
    it, as its last call and once, whatever the database answers in between,
    and opens no other. *)
Theorem repository_closes_every_session w :
  sessions D (List.length (calls w)) = Returned tt ->
  (forall asset, one_session (made (create_request D asset) w)) /\
  (forall request_id asset risk_level sentiment_score tools_used report_data,
     one_session (made (create_report D request_id asset risk_level
                          sentiment_score tools_used report_data) w)) /\
  (forall request_id,
     one_session (made (get_report_by_request_id D request_id) w)).
Proof.
  intros Se. unfold one_session. repeat split; intros;
    session_opened Se; replies; one_session_of_calls.
Qed.

(** X23: A request is returned only after the commit went through: the calls
    are then the five of the plain course, without rollback, the row handed
    over has the asset as given and neither id nor date, and the result is the
    row as refreshed from the database. *)
Theorem returned_request_was_committed asset w r w' :
  create_request D asset w = (Returned r, w') ->
  let n := List.length (calls w) in
  made (create_request D asset) w
  = [get_session; add (Request (new_request asset)); commit;
     refresh (Request (new_request asset)); close] /\
  commits D (2 + n) = Returned tt /\
  refreshes_request D (3 + n) (new_request asset) = Returned r.
Proof.
  cbv zeta. cbn [Nat.add]. unfold made, new_request. run_repository.
  replies; intros H; inversion H; subst; try discriminate.
  made_calls. split; [reflexivity |].
  repeat match goal with u : unit |- _ => destruct u end.
  split; first [assumption | reflexivity].
Qed.

(** X24: A report is returned only after the commit went through: the calls
    are the five of the plain course, without rollback; the row handed over
    has the fields as given, the score as its text, and neither id nor date;
    and the result is the row as refreshed from the database. *)
Theorem returned_report_was_committed
    request_id asset risk_level sentiment_score tools_used report_data
    w r w' :
  let run := create_report D request_id asset risk_level sentiment_score
                           tools_used report_data in
  let new := new_report request_id asset risk_level sentiment_score
                        tools_used report_data in
  run w = (Returned r, w') ->
  let n := List.length (calls w) in
  made run w
  = [get_session; add (Report new); commit; refresh (Report new); close] /\
  commits D (2 + n) = Returned tt /\
  refreshes_report D (3 + n) new = Returned r.
Proof.
  cbv zeta. cbn [Nat.add]. unfold made, new_report. run_repository.
  replies; intros H; inversion H; subst; try discriminate.
  made_calls. split; [reflexivity |].
  repeat match goal with u : unit |- _ => destruct u end.
  repeat split; first [assumption | reflexivity].
Qed.

(** X25: A write that fails is rolled back and raised again: when rollback and
    close go through, what the caller of [create_request] or [create_report]
    sees is the exception of the step that failed (add, commit or refresh),
    and the calls end with the rollback and the close. *)
Theorem failed_write_is_rolled_back_and_raised_again w :
  let n := List.length (calls w) in
  sessions D n = Returned tt ->
  (forall k, rollbacks D k = Returned tt) ->
  (forall k, closes D k = Returned tt) ->
  (forall asset e w',
     create_request D asset w = (Raised e, w') ->
     (exists pre, made (create_request D asset) w
                  = get_session :: pre ++ [rollback; close]) /\
     (adds D (1 + n) (Request (new_request asset)) = Raised e \/
      commits D (2 + n) = Raised e \/
      refreshes_request D (3 + n) (new_request asset) = Raised e)) /\
  (forall request_id asset risk_level sentiment_score tools_used report_data
          e w',
     let run := create_report D request_id asset risk_level sentiment_score
                              tools_used report_data in
     let new := new_report request_id asset risk_level sentiment_score
                           tools_used report_data in
     run w = (Raised e, w') ->
     (exists pre, made run w = get_session :: pre ++ [rollback; close]) /\
     (adds D (1 + n) (Report new) = Raised e \/
      commits D (2 + n) = Raised e \/
      refreshes_report D (3 + n) new = Raised e)).
Proof.
  cbv zeta. cbn [Nat.add]. intros Se Ro Cl.
  split; intros; revert H; unfold new_request, new_report;
    session_opened Se; replies;
    try match goal with
        | H : closes D _ = Raised _ |- _ => rewrite Cl in H; discriminate
        | H : rollbacks D _ = Raised _ |- _ => rewrite Ro in H; discriminate
        end;
    intros H; inversion H; subst; clear H;
    (split;
     [made_calls;
      match goal with
      | |- exists pre, ?L = _ =>
          exists (removelast (removelast (tl L))); reflexivity
      end
     | auto ]).
Qed.

(** X26: The close can undo the answer: when the row is committed and
    refreshed and closing the session fails, [create_request] raises the
    exception of the close, after a commit that went through and without
    rollback. *)
Theorem failed_close_hides_the_committed_row asset w e r :
  let n := List.length (calls w) in
  sessions D n = Returned tt ->
  adds D (1 + n) (Request (new_request asset)) = Returned tt ->
  commits D (2 + n) = Returned tt ->
  refreshes_request D (3 + n) (new_request asset) = Returned r ->
  closes D (4 + n) = Raised e ->
  fst (create_request D asset w) = Raised e /\
  made (create_request D asset) w
  = [get_session; add (Request (new_request asset)); commit;
     refresh (Request (new_request asset)); close].
Proof.
  cbv zeta. cbn [Nat.add]. unfold new_request. intros Se Ad Co Re Cl.
  session_opened Se. rewrite Ad. cbn [calls obj]. rewrite ?length_snoc.
  rewrite Co. cbn [calls obj]. rewrite ?length_snoc.
  rewrite Re. cbn [calls obj]. rewrite ?length_snoc.
  rewrite Cl. cbn [fst snd calls]. split; [reflexivity |].
  made_calls. reflexivity.
Qed.

(** X27: A lookup makes three calls and never rolls back; when the close goes
    through, its result is the answer of the query, a failure included. *)
Theorem lookup_returns_the_answer_of_the_query request_id w :
  let n := List.length (calls w) in
  sessions D n = Returned tt ->
  closes D (2 + n) = Returned tt ->
  get_report_by_request_id D request_id w
  = (firsts D (1 + n) request_id,
     {| calls := calls w ++ [get_session; query_first request_id; close];
        obj := obj w |}).
Proof.
  cbv zeta. cbn [Nat.add]. intros Se Cl. run_repository. rewrite Se.
  cbn [calls obj]. rewrite ?length_snoc.
  destruct (firsts D _ _) as [r | e]; cbn [calls obj]; rewrite ?length_snoc;
    rewrite Cl; rewrite <- !app_assoc; reflexivity.
Qed.

End Sessions.

Lemma repository_closes_every_session_witness :
  one_session (made (Postgres.create_request (database true false) "BTC")
                    postgres0).
Proof.
  apply (proj1 (repository_closes_every_session (database true false)
                  postgres0 eq_refl)).
Defined.

Lemma returned_request_was_committed_witness :
  made (Postgres.create_request (database false false) "BTC") postgres0
  = [Postgres.get_session; Postgres.add (Postgres.Request (new_request "BTC"));
     Postgres.commit; Postgres.refresh (Postgres.Request (new_request "BTC"));
     Postgres.close].
Proof.
  apply (returned_request_was_committed (database false false) "BTC" postgres0
           _ _ eq_refl).
Defined.

Lemma returned_report_was_committed_witness :
  let new := new_report 3 "ETH" "Low" (mk_dec 8 (-1)) ["get_market_price"]
                        (JObj []) in
  ResearchReport.sentiment_score new = "0.8" /\
  made (Postgres.create_report (database false false) 3 "ETH" "Low"
          (mk_dec 8 (-1)) ["get_market_price"] (JObj [])) postgres0
  = [Postgres.get_session; Postgres.add (Postgres.Report new);
     Postgres.commit; Postgres.refresh (Postgres.Report new); Postgres.close].
Proof.
  split; [reflexivity |].
  apply (returned_report_was_committed (database false false) 3 "ETH" "Low"
           (mk_dec 8 (-1)) ["get_market_price"] (JObj []) postgres0 _ _
           eq_refl).
Defined.

Lemma failed_write_is_rolled_back_and_raised_again_witness :
  exists pre,
    made (Postgres.create_request (database true false) "") postgres0
    = (Postgres.get_session :: pre ++ [Postgres.rollback; Postgres.close])%list.
Proof.
  destruct (failed_write_is_rolled_back_and_raised_again
              (database true false) postgres0 eq_refl
              (fun _ => eq_refl) (fun _ => eq_refl)) as [H _].
  exact (proj1 (H "" integrity_error _ eq_refl)).
Defined.

Lemma failed_close_hides_the_committed_row_witness :
  fst (Postgres.create_request (database false true) "BTC" postgres0)
  = Raised operational_error.
Proof.
  apply (failed_close_hides_the_committed_row (database false true) "BTC"
           postgres0 operational_error _ eq_refl eq_refl eq_refl eq_refl
           eq_refl).
Defined.

Lemma lookup_returns_the_answer_of_the_query_witness :
  fst (Postgres.get_report_by_request_id (database false false) 99999 postgres0)
  = Returned None.
Proof.
  rewrite (lookup_returns_the_answer_of_the_query (database false false)
             99999 postgres0 eq_refl eq_refl).
  reflexivity.
Defined.
